(** * Background-task scheduling of oh-my-opencode: a shallow embedding

    The development follows [src/features/background-agent/manager.test.ts]:
    the [MockBackgroundManager] class (task registry, descendant closure,
    retention pruner, resume) and [buildNotificationPromptBody] are embedded
    from their TypeScript source.  The admission gate ([ConcurrencyManager])
    and the lifecycle operations of the production [BackgroundManager]
    ([tryCompleteTask], [checkAndInterruptStaleTasks], [resume] with
    re-admission) have no source file here; they are modelled from the
    written specification and marked so.  The [SkillMcpManager] class,
    whose source follows the tests in the same file, is embedded method by
    method with the calls it makes on the process, on timers and on the
    MCP SDK kept in a log.

    Conventions: a JavaScript [Date] is its millisecond timestamp in [Z];
    an optional field is an [option]; a [Map] is an association list in
    insertion order.  A task object is embedded as the record of its
    fields together with its [identity]: two references to one object
    carry the same identity, so the one method that mutates a task in
    place, [resume], reaches every reference the registry and the queues
    hold to it. *)

From Stdlib Require Import ZArith List String Ascii Bool Lia.
From stdpp Require Import base option list gmap strings pretty.
Import ListNotations.

Local Open Scope string_scope.
Local Open Scope list_scope.
Local Open Scope Z_scope.

(* ===================================================================== *)
(** * Data model *)
(* ===================================================================== *)

(** Modelled from the spec: the status union of [BackgroundTask] (the type
    declaration [./types] is not part of the sources at hand).  Spec §3:
    "status ∈ {running, completed, cancelled}". *)
Inductive TaskStatus := running | completed | cancelled.

Definition status_eqb (a b : TaskStatus) : bool :=
  match a, b with
  | running, running | completed, completed | cancelled, cancelled => true
  | _, _ => false
  end.

(** [{ providerID, modelID }] as stored on a task. *)
Record ModelRef := { providerID : string; modelID : string }.

(** [task.progress]: [{ toolCalls, lastTool?, lastUpdate }]. *)
Record TaskProgress := {
  toolCalls : Z;
  lastTool : option string;
  lastUpdate : Z
}.

(** The fields of [BackgroundTask] that the test file reads or writes, and
    [identity], which is no field: it names the JavaScript object, so that
    two references to one object ([===]) are told from two objects with
    equal fields.  An object literal makes an object of a new identity; an
    assignment to a field keeps the identity. *)
Record BackgroundTask := {
  id : string;
  sessionID : string;
  parentSessionID : string;
  parentMessageID : string;
  description : string;
  prompt : string;
  agent : string;
  status : TaskStatus;
  startedAt : Z;
  completedAt : option Z;
  error : option string;
  progress : option TaskProgress;
  parentAgent : option string;
  parentModel : option ModelRef;
  model : option ModelRef;
  concurrencyKey : option string;
  concurrencyGroup : option string;
  identity : nat
}.

(** [ResumeInput]: [{ sessionId, prompt, parentSessionID, parentMessageID,
    parentModel? }]. *)
Record ResumeInput := {
  ri_sessionId : string;
  ri_prompt : string;
  ri_parentSessionID : string;
  ri_parentMessageID : string;
  ri_parentModel : option ModelRef
}.

(* ===================================================================== *)
(** * JavaScript [Map] with string keys *)
(* ===================================================================== *)

(** Entries are kept in insertion order; [set] on a present key overwrites
    the value in place, [set] on a fresh key appends. *)
Module JSMap.
Definition t (V : Type) := list (string * V).

Section Ops.
Context {V : Type}.

Fixpoint get (k : string) (m : t V) : option V :=
  match m with
  | [] => None
  | (k', v) :: rest => if String.eqb k' k then Some v else get k rest
  end.

Fixpoint set (k : string) (v : V) (m : t V) : t V :=
  match m with
  | [] => [(k, v)]
  | (k', v') :: rest =>
      if String.eqb k' k then (k', v) :: rest else (k', v') :: set k v rest
  end.

Definition delete (k : string) (m : t V) : t V :=
  List.filter (fun e => negb (String.eqb (fst e) k)) m.

Definition keys (m : t V) : list string := List.map fst m.
Definition values (m : t V) : list V := List.map snd m.
Definition size (m : t V) : Z := Z.of_nat (List.length m).

(** The invariant every [Map] satisfies: no key occurs twice. *)
Definition wf (m : t V) : Prop := List.NoDup (keys m).
End Ops.
End JSMap.

(* ===================================================================== *)
(** * [MockBackgroundManager] (manager.test.ts, lines 12-151) *)
(* ===================================================================== *)

Definition TASK_TTL_MS : Z := 30 * 60 * 1000.

Record MockBackgroundManager := {
  tasks : JSMap.t BackgroundTask;
  notifications : JSMap.t (list BackgroundTask);
  resumeCalls : list (string * string)
}.

Definition emptyManager : MockBackgroundManager :=
  {| tasks := []; notifications := []; resumeCalls := [] |}.

Definition addTask (task : BackgroundTask) (m : MockBackgroundManager)
  : MockBackgroundManager :=
  {| tasks := JSMap.set (id task) task (tasks m);
     notifications := notifications m;
     resumeCalls := resumeCalls m |}.

Definition getTask (i : string) (m : MockBackgroundManager)
  : option BackgroundTask :=
  JSMap.get i (tasks m).

(** [for (const task of this.tasks.values()) if (task.sessionID === sessionID)
    return task]: the first match in insertion order. *)
Fixpoint find_session (s : string) (l : list BackgroundTask)
  : option BackgroundTask :=
  match l with
  | [] => None
  | task :: rest =>
      if String.eqb (sessionID task) s then Some task else find_session s rest
  end.

Definition findBySession (s : string) (m : MockBackgroundManager)
  : option BackgroundTask :=
  find_session s (JSMap.values (tasks m)).

Definition getTasksByParentSession (m : MockBackgroundManager) (s : string)
  : list BackgroundTask :=
  List.filter (fun task => String.eqb (parentSessionID task) s)
              (JSMap.values (tasks m)).

(** The loop body of [getAllDescendantTasks]: for each direct child, push the
    child, then the result of the recursive call on [child.sessionID].
    [rec] is the recursive call; [None] is a call that did not return. *)
Fixpoint collect_descendants (rec : string -> option (list BackgroundTask))
    (children : list BackgroundTask) : option (list BackgroundTask) :=
  match children with
  | [] => Some []
  | child :: rest =>
      match rec (sessionID child) with
      | None => None
      | Some descendants =>
          match collect_descendants rec rest with
          | None => None
          | Some result => Some (child :: descendants ++ result)
          end
      end
  end.

(** [getAllDescendantTasks] recurses on data, not on a measure; [fuel] bounds
    the depth of the call stack and [None] means the bound was reached. *)
Fixpoint getAllDescendantTasks (fuel : nat) (m : MockBackgroundManager)
    (s : string) : option (list BackgroundTask) :=
  match fuel with
  | O => None
  | S fuel' =>
      let directChildren := getTasksByParentSession m s in
      collect_descendants (getAllDescendantTasks fuel' m) directChildren
  end.

Definition markForNotification (task : BackgroundTask)
    (m : MockBackgroundManager) : MockBackgroundManager :=
  let queue := default [] (JSMap.get (parentSessionID task) (notifications m)) in
  {| tasks := tasks m;
     notifications :=
       JSMap.set (parentSessionID task) (queue ++ [task]) (notifications m);
     resumeCalls := resumeCalls m |}.

Definition getPendingNotifications (s : string) (m : MockBackgroundManager)
  : list BackgroundTask :=
  default [] (JSMap.get s (notifications m)).

Definition len {A : Type} (l : list A) : Z := Z.of_nat (List.length l).

(** One iteration of [clearNotificationsForTask]: filter the queue of one
    parent session and delete or overwrite its entry. *)
Definition clear_step (taskId : string)
    (notifs : JSMap.t (list BackgroundTask))
    (e : string * list BackgroundTask) : JSMap.t (list BackgroundTask) :=
  let filtered :=
    List.filter (fun t => negb (String.eqb (id t) taskId)) (snd e) in
  if len filtered =? 0 then JSMap.delete (fst e) notifs
  else JSMap.set (fst e) filtered notifs.

(** The loop only deletes or overwrites the entry it is visiting, so
    iterating the live map visits the entries present at the start. *)
Definition clearNotificationsForTask (taskId : string)
    (notifs : JSMap.t (list BackgroundTask)) : JSMap.t (list BackgroundTask) :=
  List.fold_left (clear_step taskId) notifs notifs.

Record PruneResult := {
  prunedTasks : list string;
  prunedNotifications : Z
}.

(** State of the first loop of [pruneStaleTasksAndNotifications]. *)
Record PruneAcc := {
  acc_pruned : list string;
  acc_tasks : JSMap.t BackgroundTask;
  acc_notifs : JSMap.t (list BackgroundTask)
}.

Definition prune_task_step (now : Z) (a : PruneAcc)
    (e : string * BackgroundTask) : PruneAcc :=
  let age := now - startedAt (snd e) in
  if age >? TASK_TTL_MS then
    {| acc_pruned := acc_pruned a ++ [fst e];
       acc_notifs := clearNotificationsForTask (fst e) (acc_notifs a);
       acc_tasks := JSMap.delete (fst e) (acc_tasks a) |}
  else a.

(** One iteration of the second loop: [(prunedNotifications, notifications)]. *)
Definition prune_notification_step (now : Z)
    (a : Z * JSMap.t (list BackgroundTask))
    (e : string * list BackgroundTask) : Z * JSMap.t (list BackgroundTask) :=
  let '(count, notifs) := a in
  let queue := snd e in
  if len queue =? 0 then (count, JSMap.delete (fst e) notifs)
  else
    let validNotifications :=
      List.filter (fun task => now - startedAt task <=? TASK_TTL_MS) queue in
    let removed := len queue - len validNotifications in
    let count' := count + removed in
    if len validNotifications =? 0 then (count', JSMap.delete (fst e) notifs)
    else if negb (len validNotifications =? len queue)
    then (count', JSMap.set (fst e) validNotifications notifs)
    else (count', notifs).

(** [now] is the value of [Date.now()] read at the top of the method. *)
Definition pruneStaleTasksAndNotifications (now : Z)
    (m : MockBackgroundManager) : PruneResult * MockBackgroundManager :=
  let a1 := List.fold_left (prune_task_step now) (tasks m)
              {| acc_pruned := []; acc_tasks := tasks m;
                 acc_notifs := notifications m |} in
  let '(count, notifs) :=
    List.fold_left (prune_notification_step now) (acc_notifs a1)
                   (0, acc_notifs a1) in
  ({| prunedTasks := acc_pruned a1; prunedNotifications := count |},
   {| tasks := acc_tasks a1; notifications := notifs;
      resumeCalls := resumeCalls m |}).

Definition getTaskCount (m : MockBackgroundManager) : Z := JSMap.size (tasks m).

Definition getNotificationCount (m : MockBackgroundManager) : Z :=
  List.fold_left (fun count queue => count + len queue)
                 (JSMap.values (notifications m)) 0.

(** A call either throws an [Error] with a message or returns. *)
Inductive Outcome (A : Type) :=
| Throws (message : string)
| Returns (a : A).
Arguments Throws {A} message.
Arguments Returns {A} a.

(** [existingTask.progress?.toolCalls ?? 0]. *)
Definition toolCallsOf (task : BackgroundTask) : Z :=
  match progress task with
  | Some p => toolCalls p
  | None => 0
  end.

(** The assignments of [resume] (lines 137-147) on the found task;
    [now] is the [new Date()] stored in [progress.lastUpdate]. *)
Definition resume_reset (now : Z) (input : ResumeInput)
    (existingTask : BackgroundTask) : BackgroundTask :=
  {| id := id existingTask;
     sessionID := sessionID existingTask;
     parentSessionID := ri_parentSessionID input;
     parentMessageID := ri_parentMessageID input;
     description := description existingTask;
     prompt := prompt existingTask;
     agent := agent existingTask;
     status := running;
     startedAt := startedAt existingTask;
     completedAt := None;
     error := None;
     progress := Some {| toolCalls := toolCallsOf existingTask;
                         lastTool := None;
                         lastUpdate := now |};
     parentAgent := parentAgent existingTask;
     parentModel := ri_parentModel input;
     model := model existingTask;
     concurrencyKey := concurrencyKey existingTask;
     concurrencyGroup := concurrencyGroup existingTask;
     identity := identity existingTask |}.

(** In-place mutation of a task object: a reference to the object of
    [task'] reads the fields of [task'], a reference to any other object
    reads what it read before. *)
Definition mutated (task' : BackgroundTask) (t : BackgroundTask)
  : BackgroundTask :=
  if Nat.eqb (identity t) (identity task') then task' else t.

(** [existingTask] is the object [findBySession] returned; lines 137-147
    assign to its fields.  The registry and the notification queues hold
    references, so every entry that is this object shows the assignments. *)
Definition resume (now : Z) (input : ResumeInput) (m : MockBackgroundManager)
  : Outcome (MockBackgroundManager * BackgroundTask) :=
  match findBySession (ri_sessionId input) m with
  | None => Throws ("Task not found for session: " +:+ ri_sessionId input)
  | Some existingTask =>
      if status_eqb (status existingTask) running then Returns (m, existingTask)
      else
        let task' := resume_reset now input existingTask in
        Returns
          ({| tasks :=
                List.map (fun e => (fst e, mutated task' (snd e))) (tasks m);
              notifications :=
                List.map (fun e => (fst e, List.map (mutated task') (snd e)))
                         (notifications m);
              resumeCalls :=
                resumeCalls m ++ [(ri_sessionId input, ri_prompt input)] |},
           task')
  end.

(* ===================================================================== *)
(** * [buildNotificationPromptBody] (manager.test.ts, lines 868-889) *)
(* ===================================================================== *)

(** [model?: { providerID?: string; modelID?: string }]. *)
Record MessageModel := {
  mm_providerID : option string;
  mm_modelID : option string
}.

Record CurrentMessage := {
  cm_agent : option string;
  cm_model : option MessageModel
}.

(** The values stored in the body, a [Record<string, unknown>]. *)
Inductive BodyValue :=
| VParts (texts : list string)     (* [{ type: "text", text }] entries *)
| VString (s : string)
| VModel (providerID modelID : string).

(** JavaScript truthiness of a [string | undefined]. *)
Definition truthy (o : option string) : bool :=
  match o with
  | Some s => negb (String.eqb s "")
  | None => false
  end.

(** The double-quote character of the message template. *)
Definition quote : string := String (Ascii.ascii_of_nat 34) EmptyString.

Definition buildNotificationPromptBody (task : BackgroundTask)
    (currentMessage : option CurrentMessage) : gmap string BodyValue :=
  let text := "[BACKGROUND TASK COMPLETED] Task " +:+ quote
                +:+ description task +:+ quote +:+ " finished." in
  let body : gmap string BodyValue :=
    {[ "parts" := VParts [text] ]} in
  (* currentMessage?.agent ?? task.parentAgent *)
  let agent :=
    match currentMessage ≫= cm_agent with
    | Some a => Some a
    | None => parentAgent task
    end in
  let liveModel := currentMessage ≫= cm_model in
  let model :=
    match liveModel with
    | Some mm =>
        if truthy (mm_providerID mm) && truthy (mm_modelID mm) then
          match mm_providerID mm, mm_modelID mm with
          | Some p, Some i => Some (VModel p i)
          | _, _ => None
          end
        else None
    | None => None
    end in
  let body := match agent with
              | Some a => <["agent" := VString a]> body
              | None => body
              end in
  match model with
  | Some v => <["model" := v]> body
  | None => body
  end.

(* ===================================================================== *)
(** * The Concurrency Admission Gate *)
(* ===================================================================== *)

Module ConcurrencyManager.

(** Modelled from the spec: the identity of one [acquire] call, so that a
    suspended caller can be named ([./concurrency] is not part of the
    sources at hand; spec §3 "waiter queue"). *)
Definition Waiter := nat.

(** Modelled from the spec: the state of [ConcurrencyManager], whose source
    file [./concurrency] is not at hand.  Spec §3: a slot is "(key, count,
    capacity, waiter queue)"; §4.1: "Capacity is configurable per key, with
    a default applied when a key has no explicit capacity".  [resolved]
    lists, in order, the [acquire] calls that have returned to their
    caller, with the key they were admitted under. *)
Record t := {
  limits : gmap string Z;
  defaultConcurrency : Z;
  counts : gmap string Z;
  queues : gmap string (list Waiter);
  resolved : list (string * Waiter)
}.

(** Modelled from the spec: a fresh [ConcurrencyManager] with the given
    capacities, nothing held and nobody waiting. *)
Definition create (limits : gmap string Z) (defaultConcurrency : Z) : t :=
  {| limits := limits; defaultConcurrency := defaultConcurrency;
     counts := ∅; queues := ∅; resolved := [] |}.

(** Modelled from the spec: the capacity of a key (§4.1, per-key capacity
    with a default). *)
Definition getConcurrencyLimit (k : string) (g : t) : Z :=
  default (defaultConcurrency g) (limits g !! k).

(** Modelled from the spec: [getCount(key)] "reports currently-held slots"
    (§4.1). *)
Definition getCount (k : string) (g : t) : Z := default 0 (counts g !! k).

(** Modelled from the spec: the callers suspended on a key, earliest
    first. *)
Definition waiting (k : string) (g : t) : list Waiter :=
  default [] (queues g !! k).

(** Modelled from the spec: [acquire(key)] "returns (suspending the caller
    if necessary) once a slot for key is available" (§4.1).  With a free
    slot the count goes up and the call returns; otherwise the caller
    joins the end of the key's waiter queue. *)
Definition acquire (k : string) (w : Waiter) (g : t) : t :=
  if getCount k g <? getConcurrencyLimit k g then
    {| limits := limits g; defaultConcurrency := defaultConcurrency g;
       counts := <[k := getCount k g + 1]> (counts g);
       queues := queues g;
       resolved := resolved g ++ [(k, w)] |}
  else
    {| limits := limits g; defaultConcurrency := defaultConcurrency g;
       counts := counts g;
       queues := <[k := waiting k g ++ [w]]> (queues g);
       resolved := resolved g |}.

(** Modelled from the spec: [release(key)] "frees one slot for key and, if
    any caller is waiting on that key, transfers the slot to the earliest
    waiter"; "Calling release on a key with zero held slots is a no-op"
    (§4.1).  A transferred slot stays held, now by the waiter, whose
    [acquire] returns. *)
Definition release (k : string) (g : t) : t :=
  if getCount k g <=? 0 then g
  else
    match waiting k g with
    | w :: rest =>
        {| limits := limits g; defaultConcurrency := defaultConcurrency g;
           counts := counts g;
           queues := <[k := rest]> (queues g);
           resolved := resolved g ++ [(k, w)] |}
    | [] =>
        {| limits := limits g; defaultConcurrency := defaultConcurrency g;
           counts := <[k := getCount k g - 1]> (counts g);
           queues := queues g;
           resolved := resolved g |}
    end.

(** Modelled from the spec: one call on the gate, and the effect of a
    sequence of calls. *)
Inductive Op :=
| Acquire (k : string) (w : Waiter)
| Release (k : string).

(** Modelled from the spec: the effect of one gate call. *)
Definition apply (g : t) (o : Op) : t :=
  match o with
  | Acquire k w => acquire k w g
  | Release k => release k g
  end.


End ConcurrencyManager.

(* ===================================================================== *)
(** * The lifecycle manager with admission control *)
(* ===================================================================== *)

Module BackgroundManager.

(** Modelled from the spec: a reference to a task object.  The production
    [BackgroundManager] ([./manager], not part of the sources at hand)
    mutates task objects in place, and its callers keep references to
    them, so the objects live in a store. *)
Definition Ref := nat.

(** Modelled from the spec: the watchdog configuration.  §4.3:
    "staleTimeoutMs is configurable; a sensible default (e.g. 3 minutes)
    and a default minimum-runtime guard (e.g. 30 seconds) apply when not
    configured". *)
Record Config := {
  staleTimeoutMs : option Z;
  minRuntimeGuardMs : option Z
}.

(** Modelled from the spec: the default stale timeout, 3 minutes (§4.3). *)
Definition DEFAULT_STALE_TIMEOUT_MS : Z := 180000.

(** Modelled from the spec: the default minimum-runtime guard, 30 seconds
    (§4.3). *)
Definition DEFAULT_MIN_RUNTIME_GUARD_MS : Z := 30000.

(** Modelled from the spec: the calls the manager makes on its
    collaborators, in the order it starts them (§6).  [NotifyStarted],
    [AbortStarted] and [PromptStarted] begin an external call that may
    hang; nothing in this model waits for one to finish.
    [AcquireStarted] begins an [acquire] that may suspend. *)
Inductive Effect :=
| SlotReleased (k : string)
| AcquireStarted (k : string) (w : ConcurrencyManager.Waiter)
| NotifyStarted (parentSessionID taskId : string)
| AbortStarted (sessionID : string)
| PromptStarted (sessionID : string) (model : option ModelRef).

(** Modelled from the spec: the state of one [BackgroundManager]: the
    store of task objects, the registry [tasks] (task id to object), the
    admission gate, the configuration and the log of calls made so far.
    [storedKeys] keeps, for a task object whose [concurrencyKey] has been
    cleared, the key that was stored on it before (§4.2: "the task's
    previously stored concurrencyKey"). *)
Record t := {
  objects : gmap Ref BackgroundTask;
  tasks : JSMap.t Ref;
  storedKeys : gmap Ref string;
  concurrencyManager : ConcurrencyManager.t;
  config : Config;
  effects : list Effect
}.

(** Modelled from the spec: write a task object back to the store.  The
    [concurrencyKey] the object carried until this write stays on record
    as its previously stored key (§4.2). *)
Definition store (r : Ref) (task : BackgroundTask) (bm : t) : t :=
  {| objects := <[r := task]> (objects bm); tasks := tasks bm;
     storedKeys :=
       match objects bm !! r with
       | Some old =>
           match concurrencyKey old with
           | Some k => <[r := k]> (storedKeys bm)
           | None => storedKeys bm
           end
       | None => storedKeys bm
       end;
     concurrencyManager := concurrencyManager bm; config := config bm;
     effects := effects bm |}.

(** Modelled from the spec: record a call on a collaborator. *)
Definition emit (e : Effect) (bm : t) : t :=
  {| objects := objects bm; tasks := tasks bm;
     storedKeys := storedKeys bm;
     concurrencyManager := concurrencyManager bm; config := config bm;
     effects := effects bm ++ [e] |}.

(** Modelled from the spec: replace the gate by its next state. *)
Definition with_gate (g : ConcurrencyManager.t) (bm : t) : t :=
  {| objects := objects bm; tasks := tasks bm;
     storedKeys := storedKeys bm;
     concurrencyManager := g; config := config bm;
     effects := effects bm |}.

(** Modelled from the spec: "release the held concurrencyKey" (§4.2 (c),
    §4.3): a task without a key releases nothing. *)
Definition release_slot (key : option string) (bm : t) : t :=
  match key with
  | Some k =>
      emit (SlotReleased k)
        (with_gate (ConcurrencyManager.release k (concurrencyManager bm)) bm)
  | None => bm
  end.

(** Modelled from the spec: the terminal record of a task: [status],
    [completedAt] and [error] set, [concurrencyKey] cleared, every other
    field kept (§3, §4.2, §4.3). *)
Definition terminate (st : TaskStatus) (now : Z) (err : option string)
    (task : BackgroundTask) : BackgroundTask :=
  {| id := id task; sessionID := sessionID task;
     parentSessionID := parentSessionID task;
     parentMessageID := parentMessageID task;
     description := description task; prompt := prompt task;
     agent := agent task;
     status := st;
     startedAt := startedAt task;
     completedAt := Some now;
     error := err;
     progress := progress task;
     parentAgent := parentAgent task; parentModel := parentModel task;
     model := model task;
     concurrencyKey := None;
     concurrencyGroup := concurrencyGroup task;
     identity := identity task |}.

(** Modelled from the spec: [notifyParentSession] starts the delivery of
    the completion notice to the task's parent session (§4.4); the
    delivery may hang, and the manager's state does not depend on its
    outcome. *)
Definition notifyParentSession (task : BackgroundTask) (bm : t) : t :=
  emit (NotifyStarted (parentSessionID task) (id task)) bm.

(** Modelled from the spec: [tryCompleteTask] (§4.2): "(a) verify the task
    is still running — if already terminal, return 'did not act' without
    side effects; (b) mark completed, set completedAt; (c) release the
    held concurrencyKey and clear it from the task before any notification
    is attempted; (d) invoke Notification Delivery.  Returns whether it
    actually performed the transition". *)
Definition tryCompleteTask (now : Z) (r : Ref) (bm : t) : bool * t :=
  match objects bm !! r with
  | None => (false, bm)
  | Some task =>
      if negb (status_eqb (status task) running) then (false, bm)
      else
        let bm1 := release_slot (concurrencyKey task) bm in
        let task' := terminate completed now (error task) task in
        let bm2 := store r task' bm1 in
        (true, notifyParentSession task' bm2)
  end.

(** Modelled from the spec: the configured thresholds with their defaults
    (§4.3). *)
Definition staleTimeout (c : Config) : Z :=
  default DEFAULT_STALE_TIMEOUT_MS (staleTimeoutMs c).

(** Modelled from the spec: the minimum-runtime guard with its default
    (§4.3). *)
Definition minRuntimeGuard (c : Config) : Z :=
  default DEFAULT_MIN_RUNTIME_GUARD_MS (minRuntimeGuardMs c).

(** Modelled from the spec: §4.3, "let age = now - startedAt,
    idle = now - progress.lastUpdate.  A task is declared stale, and
    cancelled, only when both idle > staleTimeoutMs and
    age > minRuntimeGuardMs".  A task that carries no progress snapshot
    has no idle time and is left alone. *)
Definition isStale (now : Z) (c : Config) (task : BackgroundTask) : bool :=
  match progress task with
  | Some p =>
      (now - lastUpdate p >? staleTimeout c)
      && (now - startedAt task >? minRuntimeGuard c)
  | None => false
  end.

(** Modelled from the spec: the threshold in whole minutes, rounded to the
    nearest minute (§4.3: "the configured threshold (e.g., expressed in
    minutes)"). *)
Definition staleMinutes (c : Config) : Z := (staleTimeout c + 30000) / 60000.

(** Modelled from the spec: the error recorded on a task cancelled by the
    watchdog: "error message stating a stale timeout occurred and the
    configured threshold" (§4.3). *)
Definition staleError (c : Config) : string :=
  "Stale timeout (no activity for " +:+ pretty (staleMinutes c) +:+ "min)".

(** Modelled from the spec: the watchdog's treatment of one task (§4.3):
    "release the task's concurrencyKey before issuing the external abort
    call to the execution collaborator; set status=cancelled,
    completedAt=now, error message ...". *)
Definition interrupt (now : Z) (bm : t) (r : Ref) : t :=
  match objects bm !! r with
  | None => bm
  | Some task =>
      if status_eqb (status task) running && isStale now (config bm) task
      then
        let bm1 := release_slot (concurrencyKey task) bm in
        let task' :=
          terminate cancelled now (Some (staleError (config bm))) task in
        emit (AbortStarted (sessionID task')) (store r task' bm1)
      else bm
  end.

(** Modelled from the spec: one poll of the Stall Watchdog: "For every
    task with status=running ..."; "Multiple stale tasks in the same poll
    cycle are each processed independently" (§4.3). *)
Definition checkAndInterruptStaleTasks (now : Z) (bm : t) : t :=
  List.fold_left (interrupt now) (JSMap.values (tasks bm)) bm.

(** Modelled from the spec: the registered task object for an execution
    session id: the first one in registry order. *)
Fixpoint find_ref (objs : gmap Ref BackgroundTask) (s : string)
    (refs : list Ref) : option (Ref * BackgroundTask) :=
  match refs with
  | [] => None
  | r :: rest =>
      match objs !! r with
      | Some task =>
          if String.eqb (sessionID task) s then Some (r, task)
          else find_ref objs s rest
      | None => find_ref objs s rest
      end
  end.

(** Modelled from the spec: [findBySession] on the production manager. *)
Definition findBySession (s : string) (bm : t)
  : option (Ref * BackgroundTask) :=
  find_ref (objects bm) s (JSMap.values (tasks bm)).

(** Modelled from the spec: "the task's previously stored concurrencyKey
    (if any ...)" (§4.2): the key the task object carries, and, for an
    object whose key a terminal transition has cleared, the key that was
    stored on it before. *)
Definition storedKey (r : Ref) (bm : t) : option string :=
  match objects bm !! r with
  | Some task =>
      match concurrencyKey task with
      | Some k => Some k
      | None => storedKeys bm !! r
      end
  | None => None
  end.

(** Modelled from the spec: a task with its [concurrencyKey] cleared,
    every other field kept. *)
Definition unkeyed (task : BackgroundTask) : BackgroundTask :=
  {| id := id task; sessionID := sessionID task;
     parentSessionID := parentSessionID task;
     parentMessageID := parentMessageID task;
     description := description task; prompt := prompt task;
     agent := agent task; status := status task;
     startedAt := startedAt task; completedAt := completedAt task;
     error := error task; progress := progress task;
     parentAgent := parentAgent task; parentModel := parentModel task;
     model := model task;
     concurrencyKey := None;
     concurrencyGroup := concurrencyGroup task;
     identity := identity task |}.

(** Modelled from the spec: the first step of a resume on a task that
    still references a slot.  §3: a slot is "released when that task
    terminates or when it is forcibly re-acquired during resume"; §5:
    "resume-driven re-acquisition" releases before any operation that may
    block.  The slot is released and the key cleared from the task; a task
    that references no slot is left as it is. *)
Definition surrender (r : Ref) (bm : t) : t :=
  match objects bm !! r with
  | Some task =>
      match concurrencyKey task with
      | Some k => store r (unkeyed task) (release_slot (Some k) bm)
      | None => bm
      end
  | None => bm
  end.

(** Modelled from the spec: the state transition of [resume] once the
    caller is admitted (§4.2): the assignments of the test double's
    [resume], and [concurrencyKey] set to the key just acquired. *)
Definition reenter (now : Z) (input : ResumeInput) (key : option string)
    (task : BackgroundTask) : BackgroundTask :=
  let task' := resume_reset now input task in
  {| id := id task'; sessionID := sessionID task';
     parentSessionID := parentSessionID task';
     parentMessageID := parentMessageID task';
     description := description task'; prompt := prompt task';
     agent := agent task'; status := status task';
     startedAt := startedAt task'; completedAt := completedAt task';
     error := error task'; progress := progress task';
     parentAgent := parentAgent task'; parentModel := parentModel task';
     model := model task';
     concurrencyKey := match key with
                       | Some k => Some k
                       | None => concurrencyKey task'
                       end;
     concurrencyGroup := concurrencyGroup task';
     identity := identity task' |}.

(** Modelled from the spec: the part of [resume] that runs once admission
    is granted: the transition, then "the actual delivery of the resume
    prompt to the execution collaborator happens after this state
    transition ... using the resumed task's resolved model, if one was
    configured on the task" (§4.2). *)
Definition resume_granted (now : Z) (input : ResumeInput) (r : Ref)
    (bm : t) : t :=
  match objects bm !! r with
  | None => bm
  | Some task =>
      let task' := reenter now input (storedKey r bm) task in
      emit (PromptStarted (sessionID task') (model task'))
           (store r task' bm)
  end.

(** Modelled from the spec: how a call of [resume] ends or pauses. *)
Inductive ResumeResult :=
| NotFound (message : string)           (* throws *)
| AlreadyRunning (r : Ref)              (* returns the unchanged task *)
| Resumed (r : Ref) (bm' : t)           (* returns the resumed task *)
| Parked (r : Ref) (bm' : t).           (* suspended inside [acquire] *)

(** Modelled from the spec: [resume] (§4.2): "if no task exists for
    sessionId, fails with a not-found condition naming the session id.  If
    the task is already running, this is a no-op that returns the
    unchanged task ...  Otherwise: re-acquire the Admission Gate using the
    task's previously stored concurrencyKey (if any — tasks without a key
    resume without re-acquiring); clear completedAt and error; ...".
    A slot the task still references is given back first ([surrender]),
    so the [acquire] never waits for the task's own slot.  [w] names this
    call's [acquire].  When the gate has no free slot the call is
    [Parked]; it goes on with [resume_granted] when a [release] hands [w]
    the slot. *)
Definition resume (now : Z) (input : ResumeInput)
    (w : ConcurrencyManager.Waiter) (bm : t) : ResumeResult :=
  match findBySession (ri_sessionId input) bm with
  | None => NotFound ("Task not found for session: " +:+ ri_sessionId input)
  | Some (r, task) =>
      if status_eqb (status task) running then AlreadyRunning r
      else
        match storedKey r bm with
        | None => Resumed r (resume_granted now input r bm)
        | Some k =>
            let bm0 := surrender r bm in
            let g := concurrencyManager bm0 in
            let bm1 :=
              emit (AcquireStarted k w)
                   (with_gate (ConcurrencyManager.acquire k w g) bm0) in
            if ConcurrencyManager.getCount k g
               <? ConcurrencyManager.getConcurrencyLimit k g
            then Resumed r (resume_granted now input r bm1)
            else Parked r bm1
        end
  end.

End BackgroundManager.

(* ===================================================================== *)
(** * [SkillMcpManager] (manager.test.ts, lines 1400-1873) *)
(* ===================================================================== *)

(** The manager of MCP clients is embedded method by method.  Its methods
    are [async]; each is embedded as it runs when no other method of the
    same manager runs between its [await]s.  The MCP SDK, the URL parser
    and the two helpers it imports are collaborators, taken as parameters. *)
Module SkillMcpManager.

(** [type ConnectionType = "stdio" | "http"]. *)
Inductive ConnectionType := stdio | http.

(** The fields of [ClaudeCodeMcpServer] that the manager reads. *)
Record ClaudeCodeMcpServer := {
  cfg_type : option string;
  cfg_url : option string;
  cfg_command : option string;
  cfg_args : option (list string);
  cfg_env : option (list (string * string));
  cfg_headers : option (list (string * string))
}.

(** The fields of [SkillMcpClientInfo]. *)
Record SkillMcpClientInfo := {
  info_sessionID : string;
  info_skillName : string;
  info_serverName : string
}.

(** An object of the SDK (a client, a transport, a timer), by identity. *)
Definition Handle := nat.

(** [ManagedClient]: the client, its transport and the bookkeeping. *)
Record ManagedClient := {
  client : Handle;
  transport : Handle;
  skillName : string;
  lastUsedAt : Z;
  connectionType : ConnectionType
}.

(** What a transport is constructed from. *)
Inductive TransportSpec :=
| HttpTransport (url : string) (headers : option (list (string * string)))
| StdioTransport (command : string) (args : list string)
                 (env : list (string * string)).

(** The calls the manager makes on the process, on timers and on the SDK,
    in the order it makes them. *)
Inductive Call :=
| ProcessOn (signal : string)
| SetInterval (timer : Handle) (ms : Z)
| Unref (timer : Handle)
| ClearInterval (timer : Handle)
| Connect (clientName : string) (client : Handle) (transport : Handle)
          (spec : TransportSpec)
| CloseClient (client : Handle)
| CloseTransport (transport : Handle).

(** The fields of the class, with two additions that are not fields:
    [fresh], the next unused object identity, and [calls], the log of the
    calls made so far. *)
Record t := {
  clients : JSMap.t ManagedClient;
  pendingConnections : JSMap.t Handle;
  cleanupRegistered : bool;
  cleanupInterval : option Handle;
  fresh : Handle;
  calls : list Call
}.

Definition create : t :=
  {| clients := []; pendingConnections := []; cleanupRegistered := false;
     cleanupInterval := None; fresh := 0%nat; calls := [] |}.

Definition IDLE_TIMEOUT : Z := 5 * 60 * 1000.

Definition with_clients (c : JSMap.t ManagedClient) (st : t) : t :=
  {| clients := c; pendingConnections := pendingConnections st;
     cleanupRegistered := cleanupRegistered st;
     cleanupInterval := cleanupInterval st; fresh := fresh st;
     calls := calls st |}.

Definition with_pending (p : JSMap.t Handle) (st : t) : t :=
  {| clients := clients st; pendingConnections := p;
     cleanupRegistered := cleanupRegistered st;
     cleanupInterval := cleanupInterval st; fresh := fresh st;
     calls := calls st |}.

Definition call (c : list Call) (st : t) : t :=
  {| clients := clients st; pendingConnections := pendingConnections st;
     cleanupRegistered := cleanupRegistered st;
     cleanupInterval := cleanupInterval st; fresh := fresh st;
     calls := calls st ++ c |}.

(** A new object: its identity, and the state with that identity used. *)
Definition alloc (st : t) : Handle * t :=
  (fresh st,
   {| clients := clients st; pendingConnections := pendingConnections st;
      cleanupRegistered := cleanupRegistered st;
      cleanupInterval := cleanupInterval st; fresh := S (fresh st);
      calls := calls st |}).

(** [config.type === t]. *)
Definition type_is (config : ClaudeCodeMcpServer) (t : string) : bool :=
  match cfg_type config with
  | Some ty => String.eqb ty t
  | None => false
  end.

Definition getConnectionType (config : ClaudeCodeMcpServer)
  : option ConnectionType :=
  if type_is config "http" || type_is config "sse" then Some http
  else if type_is config "stdio" then Some stdio
  else if truthy (cfg_url config) then Some http
  else if truthy (cfg_command config) then Some stdio
  else None.

Definition getClientKey (info : SkillMcpClientInfo) : string :=
  info_sessionID info +:+ ":" +:+ info_skillName info +:+ ":"
    +:+ info_serverName info.

Section Collaborators.

(** Whether the process runs on Windows ([process.platform === "win32"]). *)
Variable win32 : bool.
(** Whether [new URL(s)] succeeds. *)
Variable validURL : string -> bool.
(** [client.connect(transport)] on the client with the given identity and
    name: [None] when it resolves, the error's message when it throws. *)
Variable connect : Handle -> string -> TransportSpec -> option string.
(** [createCleanMcpEnvironment] of [./env-cleaner]. *)
Variable createCleanMcpEnvironment :
  option (list (string * string)) -> list (string * string).
(** [expandEnvVarsInObject] of [../claude-code-mcp-loader/env-expander]. *)
Variable expandEnvVarsInObject : ClaudeCodeMcpServer -> ClaudeCodeMcpServer.

Definition registerProcessCleanup (st : t) : t :=
  if cleanupRegistered st then st
  else
    call ([ProcessOn "SIGINT"; ProcessOn "SIGTERM"]
          ++ (if win32 then [ProcessOn "SIGBREAK"] else []))
      {| clients := clients st; pendingConnections := pendingConnections st;
         cleanupRegistered := true;
         cleanupInterval := cleanupInterval st; fresh := fresh st;
         calls := calls st |}.

Definition startCleanupTimer (st : t) : t :=
  match cleanupInterval st with
  | Some _ => st
  | None =>
      let (timer, st1) := alloc st in
      call [SetInterval timer 60000; Unref timer]
        {| clients := clients st1;
           pendingConnections := pendingConnections st1;
           cleanupRegistered := cleanupRegistered st1;
           cleanupInterval := Some timer; fresh := fresh st1;
           calls := calls st1 |}
  end.

Definition stopCleanupTimer (st : t) : t :=
  match cleanupInterval st with
  | Some timer =>
      call [ClearInterval timer]
        {| clients := clients st; pendingConnections := pendingConnections st;
           cleanupRegistered := cleanupRegistered st;
           cleanupInterval := None; fresh := fresh st;
           calls := calls st |}
  | None => st
  end.

(** The line feed of the message templates. *)
Definition nl : string := String (Ascii.ascii_of_nat 10) EmptyString.

(** [skill-mcp-${info.skillName}-${info.serverName}]. *)
Definition clientName (info : SkillMcpClientInfo) : string :=
  "skill-mcp-" +:+ info_skillName info +:+ "-" +:+ info_serverName info.

Definition noConnectionMessage (info : SkillMcpClientInfo) : string :=
  "MCP server " +:+ quote +:+ info_serverName info +:+ quote
  +:+ " has no valid connection configuration." +:+ nl +:+ nl
  +:+ "The MCP configuration in skill " +:+ quote +:+ info_skillName info
  +:+ quote +:+ " must specify either:" +:+ nl
  +:+ "  - A URL for HTTP connection (remote MCP server)" +:+ nl
  +:+ "  - A command for stdio connection (local MCP process)" +:+ nl +:+ nl
  +:+ "Examples:" +:+ nl
  +:+ "  HTTP:" +:+ nl
  +:+ "    mcp:" +:+ nl
  +:+ "      " +:+ info_serverName info +:+ ":" +:+ nl
  +:+ "        url: https://mcp.example.com/mcp" +:+ nl
  +:+ "        headers:" +:+ nl
  +:+ "          Authorization: Bearer ${API_KEY}" +:+ nl +:+ nl
  +:+ "  Stdio:" +:+ nl
  +:+ "    mcp:" +:+ nl
  +:+ "      " +:+ info_serverName info +:+ ":" +:+ nl
  +:+ "        command: npx" +:+ nl
  +:+ "        args: [-y, @some/mcp-server]".

Definition missingUrlMessage (info : SkillMcpClientInfo) : string :=
  "MCP server " +:+ quote +:+ info_serverName info +:+ quote
  +:+ " is configured for HTTP but missing 'url' field.".

Definition invalidUrlMessage (info : SkillMcpClientInfo) (url : string)
  : string :=
  "MCP server " +:+ quote +:+ info_serverName info +:+ quote
  +:+ " has invalid URL: " +:+ url +:+ nl +:+ nl
  +:+ "Expected a valid URL like: https://mcp.example.com/mcp".

Definition httpConnectMessage (info : SkillMcpClientInfo) (url reason : string)
  : string :=
  "Failed to connect to MCP server " +:+ quote +:+ info_serverName info
  +:+ quote +:+ "." +:+ nl +:+ nl
  +:+ "URL: " +:+ url +:+ nl
  +:+ "Reason: " +:+ reason +:+ nl +:+ nl
  +:+ "Hints:" +:+ nl
  +:+ "  - Verify the URL is correct and the server is running" +:+ nl
  +:+ "  - Check if authentication headers are required" +:+ nl
  +:+ "  - Ensure the server supports MCP over HTTP".

Definition missingCommandMessage (info : SkillMcpClientInfo) : string :=
  "MCP server " +:+ quote +:+ info_serverName info +:+ quote
  +:+ " is configured for stdio but missing 'command' field.".

(** [args.join(" ")]. *)
Fixpoint join (sep : string) (l : list string) : string :=
  match l with
  | [] => ""
  | [x] => x
  | x :: rest => x +:+ sep +:+ join sep rest
  end.

Definition stdioConnectMessage (info : SkillMcpClientInfo)
    (command : string) (args : list string) (reason : string) : string :=
  "Failed to connect to MCP server " +:+ quote +:+ info_serverName info
  +:+ quote +:+ "." +:+ nl +:+ nl
  +:+ "Command: " +:+ command +:+ " " +:+ join " " args +:+ nl
  +:+ "Reason: " +:+ reason +:+ nl +:+ nl
  +:+ "Hints:" +:+ nl
  +:+ "  - Ensure the command is installed and available in PATH" +:+ nl
  +:+ "  - Check if the MCP server package exists" +:+ nl
  +:+ "  - Verify the args are correct for this server".

(** The part shared by the two [create...Client] methods once the
    transport's arguments are known: build transport and client, connect,
    and on success register the client and start the idle timer.  [now] is
    the [Date.now()] read after the connection is up. *)
Definition connectAndRegister (now : Z) (info : SkillMcpClientInfo)
    (kind : ConnectionType) (spec : TransportSpec)
    (failure : string -> string) (st : t) : t * Outcome Handle :=
  let key := getClientKey info in
  let st1 := registerProcessCleanup st in
  let (tr, st2) := alloc st1 in
  let (cl, st3) := alloc st2 in
  let st4 := call [Connect (clientName info) cl tr spec] st3 in
  match connect cl (clientName info) spec with
  | Some reason => (call [CloseTransport tr] st4, Throws (failure reason))
  | None =>
      let managedClient :=
        {| client := cl; transport := tr; skillName := info_skillName info;
           lastUsedAt := now; connectionType := kind |} in
      (startCleanupTimer
         (with_clients (JSMap.set key managedClient (clients st4)) st4),
       Returns cl)
  end.

Definition createHttpClient (now : Z) (info : SkillMcpClientInfo)
    (config : ClaudeCodeMcpServer) (st : t) : t * Outcome Handle :=
  match cfg_url config with
  | Some url =>
      if String.eqb url "" then (st, Throws (missingUrlMessage info))
      else if negb (validURL url)
      then (st, Throws (invalidUrlMessage info url))
      else
        let headers :=
          match cfg_headers config with
          | Some (h :: hs) => Some (h :: hs)
          | _ => None
          end in
        connectAndRegister now info http (HttpTransport url headers)
                           (httpConnectMessage info url) st
  | None => (st, Throws (missingUrlMessage info))
  end.

Definition createStdioClient (now : Z) (info : SkillMcpClientInfo)
    (config : ClaudeCodeMcpServer) (st : t) : t * Outcome Handle :=
  match cfg_command config with
  | Some command =>
      if String.eqb command "" then (st, Throws (missingCommandMessage info))
      else
        let args := default [] (cfg_args config) in
        let mergedEnv := createCleanMcpEnvironment (cfg_env config) in
        connectAndRegister now info stdio
                           (StdioTransport command args mergedEnv)
                           (stdioConnectMessage info command args) st
  | None => (st, Throws (missingCommandMessage info))
  end.

Definition createClient (now : Z) (info : SkillMcpClientInfo)
    (config : ClaudeCodeMcpServer) (st : t) : t * Outcome Handle :=
  match getConnectionType config with
  | None => (st, Throws (noConnectionMessage info))
  | Some http => createHttpClient now info config st
  | Some stdio => createStdioClient now info config st
  end.

(** What [getOrCreateClient] resolves to: a client, or the promise of a
    connection that another call has in progress. *)
Inductive Got :=
| GotClient (client : Handle)
| GotPending (promise : Handle).

Definition getOrCreateClient (now : Z) (info : SkillMcpClientInfo)
    (config : ClaudeCodeMcpServer) (st : t) : t * Outcome Got :=
  let key := getClientKey info in
  match JSMap.get key (clients st) with
  | Some existing =>
      let touched :=
        {| client := client existing; transport := transport existing;
           skillName := skillName existing; lastUsedAt := now;
           connectionType := connectionType existing |} in
      (with_clients (JSMap.set key touched (clients st)) st,
       Returns (GotClient (client existing)))
  | None =>
      match JSMap.get key (pendingConnections st) with
      | Some pending => (st, Returns (GotPending pending))
      | None =>
          let expandedConfig := expandEnvVarsInObject config in
          let (connectionPromise, st0) := alloc st in
          let (st1, result) := createClient now info expandedConfig st0 in
          let st2 :=
            with_pending
              (JSMap.set key connectionPromise (pendingConnections st1)) st1 in
          let st3 :=
            with_pending (JSMap.delete key (pendingConnections st2)) st2 in
          (st3, match result with
                | Returns c => Returns (GotClient c)
                | Throws message => Throws message
                end)
      end
  end.

(** One iteration of the loops that drop a client: delete its entry, close
    the client, close the transport. *)
Definition drop_client (st : t) (e : string * ManagedClient) : t :=
  call [CloseClient (client (snd e)); CloseTransport (transport (snd e))]
    (with_clients (JSMap.delete (fst e) (clients st)) st).

Definition disconnectSession (sessionID : string) (st : t) : t :=
  List.fold_left
    (fun s e =>
       if String.prefix (sessionID +:+ ":") (fst e) then drop_client s e
       else s)
    (clients st) st.

Definition disconnectAll (st : t) : t :=
  let st1 := stopCleanupTimer st in
  let snapshot := JSMap.values (clients st1) in
  List.fold_left
    (fun s managed =>
       call [CloseClient (client managed); CloseTransport (transport managed)]
            s)
    snapshot (with_clients [] st1).

(** [now] is the [Date.now()] read at the top of the method. *)
Definition cleanupIdleClients (now : Z) (st : t) : t :=
  List.fold_left
    (fun s e =>
       if now - lastUsedAt (snd e) >? IDLE_TIMEOUT then drop_client s e
       else s)
    (clients st) st.

Definition getOrCreateClientWithRetry (now : Z) (info : SkillMcpClientInfo)
    (config : ClaudeCodeMcpServer) (st : t) : t * Outcome Got :=
  match getOrCreateClient now info config st with
  | (st1, Returns got) => (st1, Returns got)
  | (st1, Throws error) =>
      let key := getClientKey info in
      match JSMap.get key (clients st1) with
      | Some existing =>
          getOrCreateClient now info config
            (call [CloseClient (client existing);
                   CloseTransport (transport existing)]
               (with_clients (JSMap.delete key (clients st1)) st1))
      | None => (st1, Throws error)
      end
  end.

End Collaborators.

Definition getConnectedServers (st : t) : list string :=
  JSMap.keys (clients st).

(** [this.clients.has(key)]. *)
Definition isConnected (info : SkillMcpClientInfo) (st : t) : bool :=
  match JSMap.get (getClientKey info) (clients st) with
  | Some _ => true
  | None => false
  end.

End SkillMcpManager.

(* ===================================================================== *)
(** * Specification vocabulary *)
(* ===================================================================== *)

(** The task objects held by the registry. *)
Definition registered (m : MockBackgroundManager) (task : BackgroundTask)
  : Prop :=
  In task (JSMap.values (tasks m)).

(** The task objects held by the notification queues. *)
Definition queued (m : MockBackgroundManager) (task : BackgroundTask)
  : Prop :=
  exists q, In q (JSMap.values (notifications m)) /\ In task q.

(** One object, one state: two references that the registry or the queues
    hold to the same object read the same fields. *)
Definition coherent (m : MockBackgroundManager) : Prop :=
  forall a b,
    registered m a \/ queued m a -> registered m b \/ queued m b ->
    identity a = identity b -> a = b.

(** [descendant m s task]: [task] is reachable from session [s] by one or
    more hops along the [parentSessionID] edge: it is a direct child of [s],
    or a descendant of the execution session of a direct child of [s]. *)
Inductive descendant (m : MockBackgroundManager) (s : string)
  : BackgroundTask -> Prop :=
| desc_child task :
    registered m task -> parentSessionID task = s -> descendant m s task
| desc_hop child task :
    registered m child -> parentSessionID child = s ->
    descendant m (sessionID child) task -> descendant m s task.

(** The parent relation has no cycle: no registered task is reachable from
    its own execution session.  A self-parented task is the shortest cycle. *)
Definition acyclic (m : MockBackgroundManager) : Prop :=
  forall task, registered m task -> ~ descendant m (sessionID task) task.

(** Session [b] is [a] or the execution session of a descendant of [a]. *)
Definition session_reach (m : MockBackgroundManager) (a b : string) : Prop :=
  a = b \/ exists c, descendant m a c /\ sessionID c = b.

(** [createMockTask] of the test file, with [new Date()] being [now].  The
    object it returns is new; [o] is its identity. *)
Definition createMockTask (o : nat) (now : Z) (i s p : string)
  : BackgroundTask :=
  {| id := i; sessionID := s; parentSessionID := p;
     parentMessageID := "mock-message-id";
     description := "test task"; prompt := "test prompt";
     agent := "test-agent"; status := running; startedAt := now;
     completedAt := None; error := None; progress := None;
     parentAgent := None; parentModel := None; model := None;
     concurrencyKey := None; concurrencyGroup := None; identity := o |}.

(** ** Registries used as examples *)

Definition taskB := createMockTask 1 0 "task-b" "session-b" "session-a".
Definition taskC := createMockTask 2 0 "task-c" "session-c" "session-b".
Definition taskD := createMockTask 3 0 "task-d" "session-d" "session-c".
Definition taskY := createMockTask 4 0 "task-y" "session-y" "session-x".

(** Session A -> Task B -> Task C -> Task D, and the unrelated X -> Y. *)
Definition chainManager : MockBackgroundManager :=
  addTask taskY (addTask taskD (addTask taskC (addTask taskB emptyManager))).

(** Depth of a session in [chainManager], counted from the leaves. *)
Definition chainRank (s : string) : nat :=
  if String.eqb s "session-a" then 4%nat
  else if String.eqb s "session-b" then 3%nat
  else if String.eqb s "session-c" then 2%nat
  else if String.eqb s "session-x" then 2%nat
  else 1%nat.

(** A task whose parent session is its own execution session. *)
Definition selfParented : BackgroundTask :=
  createMockTask 5 0 "task-s" "session-s" "session-s".

Definition selfParentedManager : MockBackgroundManager :=
  addTask selfParented emptyManager.

(** Two tasks, each the child of the other's execution session. *)
Definition loopP := createMockTask 6 0 "task-p" "session-p" "session-q".
Definition loopQ := createMockTask 7 0 "task-q" "session-q" "session-p".

Definition loopManager : MockBackgroundManager :=
  addTask loopQ (addTask loopP emptyManager).

(** What a resumed task must look like against the task it was before and
    the caller's input: back to running, [completedAt] and [error] cleared,
    the parent context replaced, identity and accumulated tool calls kept. *)
Definition resumed_from (input : ResumeInput) (before after : BackgroundTask)
  : Prop :=
  status after = running
  /\ completedAt after = None
  /\ error after = None
  /\ parentSessionID after = ri_parentSessionID input
  /\ parentMessageID after = ri_parentMessageID input
  /\ parentModel after = ri_parentModel input
  /\ id after = id before
  /\ sessionID after = sessionID before
  /\ description after = description before
  /\ agent after = agent before
  /\ toolCallsOf after = toolCallsOf before.

(** ** Resume scenarios (test file, lines 567-719) *)

Definition completedTaskA : BackgroundTask :=
  {| id := "task-a"; sessionID := "session-a";
     parentSessionID := "session-parent";
     parentMessageID := "mock-message-id";
     description := "original description"; prompt := "test prompt";
     agent := "explore"; status := completed; startedAt := 0;
     completedAt := Some 5; error := Some "previous error";
     progress := Some {| toolCalls := 42; lastTool := Some "read";
                         lastUpdate := 4 |};
     parentAgent := None; parentModel := None; model := None;
     concurrencyKey := None; concurrencyGroup := None; identity := 9%nat |}.

Definition runningTaskA : BackgroundTask :=
  createMockTask 8 0 "task-a" "session-a" "session-parent".

Definition resumeInputA : ResumeInput :=
  {| ri_sessionId := "session-a"; ri_prompt := "continue";
     ri_parentSessionID := "session-new"; ri_parentMessageID := "msg-new";
     ri_parentModel :=
       Some {| providerID := "anthropic"; modelID := "claude-opus" |} |}.

Definition resumeInputMissing : ResumeInput :=
  {| ri_sessionId := "non-existent"; ri_prompt := "continue";
     ri_parentSessionID := "session-new"; ri_parentMessageID := "msg-new";
     ri_parentModel := None |}.

(** ** Gate scenarios *)

(** [new ConcurrencyManager({ defaultConcurrency: 1 })] after one
    [acquire("explore")] (caller 0), and then a second one (caller 1). *)
Definition gateOneHeld : ConcurrencyManager.t :=
  ConcurrencyManager.acquire "explore" 0%nat (ConcurrencyManager.create ∅ 1).

Definition gateOneWaiting : ConcurrencyManager.t :=
  ConcurrencyManager.acquire "explore" 1%nat gateOneHeld.

(** ** Vocabulary for the lifecycle manager *)

(** [sub] occurs in [s]. *)
Definition contains (sub s : string) : Prop :=
  exists pre post, s = pre +:+ sub +:+ post.

(** What one watchdog poll at time [now] makes of a task: a running task
    that is stale is cancelled, any other task is left as it is. *)
Definition watched (now : Z) (c : BackgroundManager.Config)
    (task : BackgroundTask) : BackgroundTask :=
  if status_eqb (status task) running && BackgroundManager.isStale now c task
  then BackgroundManager.terminate cancelled now
         (Some (BackgroundManager.staleError c)) task
  else task.

(** The calls a manager has made since an earlier state. *)
Definition effects_since (before after : BackgroundManager.t)
    (new : list BackgroundManager.Effect) : Prop :=
  BackgroundManager.effects after = BackgroundManager.effects before ++ new.

(** ** Manager scenarios *)

(** A running task that was admitted under [key], as the tests build it:
    an object literal with a [concurrencyKey] and no [concurrencyGroup].
    In the store of the manager the reference names the object. *)
Definition heldTask (i s p key : string) (started updated : Z)
  : BackgroundTask :=
  {| id := i; sessionID := s; parentSessionID := p;
     parentMessageID := "msg-1";
     description := "test task"; prompt := "test";
     agent := "explore"; status := running; startedAt := started;
     completedAt := None; error := None;
     progress := Some {| toolCalls := 2; lastTool := None;
                         lastUpdate := updated |};
     parentAgent := None; parentModel := None; model := None;
     concurrencyKey := Some key; concurrencyGroup := None;
     identity := 0%nat |}.

(** The reference of the first task object allocated. *)
Definition ref0 : BackgroundManager.Ref := 0%nat.

(** A manager with one registered task object (reference [ref0]) over a
    given gate. *)
Definition managerWith (task : BackgroundTask) (g : ConcurrencyManager.t)
    (staleTimeoutMs : option Z) : BackgroundManager.t :=
  {| BackgroundManager.objects := {[ ref0 := task ]};
     BackgroundManager.tasks := [(id task, ref0)];
     BackgroundManager.storedKeys := ∅;
     BackgroundManager.concurrencyManager := g;
     BackgroundManager.config :=
       {| BackgroundManager.staleTimeoutMs := staleTimeoutMs;
          BackgroundManager.minRuntimeGuardMs := None |};
     BackgroundManager.effects := [] |}.

(** The task of the completion tests, holding the only slot of its key. *)
Definition task1 : BackgroundTask :=
  heldTask "task-1" "session-1" "session-parent" "explore" 0 0.

(** [task1] holds the slot of "explore" and nobody waits. *)
Definition managerIdle : BackgroundManager.t :=
  managerWith task1 gateOneHeld None.

(** [task1] holds the slot of "explore" and caller 1 waits for it. *)
Definition managerContended : BackgroundManager.t :=
  managerWith task1 gateOneWaiting None.

(** The watchdog tests poll at [pollTime] with [staleTimeoutMs: 180_000]. *)
Definition pollTime : Z := 1000000.

(** age = 20s, idle = 200s. *)
Definition youngTask : BackgroundTask :=
  heldTask "task-1" "session-1" "parent-1" "test-agent"
               (pollTime - 20000) (pollTime - 200000).

(** age = 300s, idle = 200s. *)
Definition staleTask : BackgroundTask :=
  heldTask "task-3" "session-3" "parent-3" "test-agent"
               (pollTime - 300000) (pollTime - 200000).

Definition resumeInput1 : ResumeInput :=
  {| ri_sessionId := "session-1"; ri_prompt := "resume";
     ri_parentSessionID := "parent-session-2"; ri_parentMessageID := "msg-2";
     ri_parentModel := None |}.

(** [task1] once completed at time 10 on [managerIdle]. *)
Definition managerCompleted : BackgroundManager.t :=
  snd (BackgroundManager.tryCompleteTask 10 ref0 managerIdle).

(** A poll over the young task and over the stale task. *)
Definition managerYoung : BackgroundManager.t :=
  managerWith youngTask (ConcurrencyManager.create ∅ 5) (Some 180000).

Definition managerStale : BackgroundManager.t :=
  managerWith staleTask (ConcurrencyManager.create ∅ 5) (Some 180000).

(** The calls one poll makes for the task object [r], read off the store
    as it is when the poll begins: for a running stale task, the release
    of its key, if it holds one, and then the abort of its session. *)
Definition cancel_effects (now : Z) (bm : BackgroundManager.t)
    (r : BackgroundManager.Ref) : list BackgroundManager.Effect :=
  match BackgroundManager.objects bm !! r with
  | Some task =>
      if status_eqb (status task) running
         && BackgroundManager.isStale now (BackgroundManager.config bm) task
      then
        match concurrencyKey task with
        | Some k => [BackgroundManager.SlotReleased k]
        | None => []
        end ++ [BackgroundManager.AbortStarted (sessionID task)]
      else []
  | None => []
  end.

(** [task1] as [tryCompleteTask] leaves it at time 10. *)
Definition finishedTask1 : BackgroundTask :=
  BackgroundManager.terminate completed 10 None task1.

(** [task1] completed at time 10, after which caller 1 took the only slot
    of "explore". *)
Definition managerBusy : BackgroundManager.t :=
  BackgroundManager.with_gate
    (ConcurrencyManager.acquire "explore" 1%nat
       (BackgroundManager.concurrencyManager managerCompleted))
    managerCompleted.

(** The task of the test "should re-acquire using external task
    concurrency key" (lines 1011-1036): tracked under "external-key", with
    no [concurrencyGroup]. *)
Definition externalTask : BackgroundTask :=
  {| id := "task-1"; sessionID := "session-1";
     parentSessionID := "parent-session"; parentMessageID := "";
     description := "external task"; prompt := "";
     agent := "delegate_task"; status := running; startedAt := 0;
     completedAt := None; error := None; progress := None;
     parentAgent := None; parentModel := None; model := None;
     concurrencyKey := Some "external-key"; concurrencyGroup := None;
     identity := 0%nat |}.

(** The manager of that test once the task is tracked: the task holds a
    slot of "external-key". *)
Definition managerExternal : BackgroundManager.t :=
  managerWith externalTask
    (ConcurrencyManager.acquire "external-key" 0%nat
       (ConcurrencyManager.create ∅ 5))
    None.

(** A finished task whose slot was never given back: [task1] marked
    completed with its key still on it, the only slot of "explore" held. *)
Definition unreleasedTask1 : BackgroundTask :=
  {| id := "task-1"; sessionID := "session-1";
     parentSessionID := "session-parent"; parentMessageID := "msg-1";
     description := "test task"; prompt := "test";
     agent := "explore"; status := completed; startedAt := 0;
     completedAt := Some 10; error := None;
     progress := Some {| toolCalls := 2; lastTool := None; lastUpdate := 0 |};
     parentAgent := None; parentModel := None; model := None;
     concurrencyKey := Some "explore"; concurrencyGroup := None;
     identity := 0%nat |}.

Definition managerUnreleased : BackgroundManager.t :=
  managerWith unreleasedTask1 gateOneHeld None.

(** A finished task that was never admitted under a key. *)
Definition managerKeyless : BackgroundManager.t :=
  managerWith completedTaskA (ConcurrencyManager.create ∅ 1) None.

(** ** Vocabulary for the notification body *)

(** [currentMessage?.agent ?? task.parentAgent], read as a priority list. *)
Definition resolvedAgent (task : BackgroundTask)
    (currentMessage : option CurrentMessage) : option string :=
  match currentMessage with
  | Some {| cm_agent := Some a |} => Some a
  | _ => parentAgent task
  end.

(** The live model when it names both a provider and a model. *)
Definition fullModel (currentMessage : option CurrentMessage)
  : option (string * string) :=
  match currentMessage with
  | Some {| cm_model := Some {| mm_providerID := Some p;
                                mm_modelID := Some i |} |} =>
      if String.eqb p "" || String.eqb i "" then None else Some (p, i)
  | _ => None
  end.

(** ** Notification scenarios (test file, lines 757-866) *)

(** A completed task whose stored parent agent is [stored]. *)
Definition notifiedTask (stored : option string) : BackgroundTask :=
  {| id := "task-3"; sessionID := "session-child";
     parentSessionID := "session-parent"; parentMessageID := "msg-parent";
     description := "task incomplete model"; prompt := "test";
     agent := "explore"; status := completed; startedAt := 0;
     completedAt := Some 1; error := None; progress := None;
     parentAgent := stored;
     parentModel :=
       Some {| providerID := "anthropic"; modelID := "claude-opus" |};
     model := None; concurrencyKey := None; concurrencyGroup := None;
     identity := 12%nat |}.

(** A live message with an agent and a model that lacks its modelID. *)
Definition partialMessage : CurrentMessage :=
  {| cm_agent := Some "Live";
     cm_model := Some {| mm_providerID := Some "anthropic";
                         mm_modelID := None |} |}.

(** A live message with a full model and no agent. *)
Definition agentlessMessage : CurrentMessage :=
  {| cm_agent := None;
     cm_model := Some {| mm_providerID := Some "anthropic";
                         mm_modelID := Some "claude-opus-4-5" |} |}.

(** A live message with an agent and a full model. *)
Definition fullMessage : CurrentMessage :=
  {| cm_agent := Some "Sisyphus";
     cm_model := Some {| mm_providerID := Some "anthropic";
                         mm_modelID := Some "claude-opus-4-5" |} |}.

(** ** Vocabulary for the retention pruner *)

(** [now - startedAt > TASK_TTL_MS]. *)
Definition expired (now : Z) (task : BackgroundTask) : bool :=
  now - startedAt task >? TASK_TTL_MS.

(** What a loop over the entries of a [Map] does to the entry it visits. *)
Inductive MapAction (V : Type) :=
| Drop                (* [map.delete(key)] *)
| Put (v : V)         (* [map.set(key, v)] *)
| Keep.               (* nothing *)
Arguments Drop {V}.
Arguments Put {V} v.
Arguments Keep {V}.

Definition act {V : Type} (m : JSMap.t V) (e : string * V)
    (a : MapAction V) : JSMap.t V :=
  match a with
  | Drop => JSMap.delete (fst e) m
  | Put v => JSMap.set (fst e) v m
  | Keep => m
  end.

(** What is left of the visited entry. *)
Definition outcome {V : Type} (e : string * V) (a : MapAction V)
  : list (string * V) :=
  match a with
  | Drop => []
  | Put v => [(fst e, v)]
  | Keep => [e]
  end.

(** The queues with every notification that fails [keep] taken out, and
    every queue left empty removed. *)
Definition keep_queues (keep : BackgroundTask -> bool)
    (notifs : JSMap.t (list BackgroundTask)) : JSMap.t (list BackgroundTask) :=
  List.flat_map
    (fun e => let q := List.filter keep (snd e) in
              if len q =? 0 then [] else [(fst e, q)])
    notifs.

(** The number of queued notifications that satisfy [p]. *)
Definition count_queued (p : BackgroundTask -> bool)
    (notifs : JSMap.t (list BackgroundTask)) : Z :=
  List.fold_right (fun e n => len (List.filter p (snd e)) + n) 0 notifs.

(** The notification carries the id of one of the pruned tasks. *)
Definition carries (ids : list string) (task : BackgroundTask) : bool :=
  List.existsb (String.eqb (id task)) ids.

(** ** Pruner scenarios (test file, lines 454-565): [now] is 31 minutes
    after the stale task started. *)

Definition pruneTime : Z := 31 * 60 * 1000.

Definition taskStale : BackgroundTask :=
  createMockTask 10 0 "task-stale" "session-stale" "session-parent".

Definition taskFresh : BackgroundTask :=
  createMockTask 11 pruneTime "task-fresh" "session-fresh" "session-parent".

(** The stale task registered and queued for notification. *)
Definition managerStaleNotified : MockBackgroundManager :=
  markForNotification taskStale (addTask taskStale emptyManager).

(** The stale task queued for notification without being registered. *)
Definition managerOrphanNotification : MockBackgroundManager :=
  markForNotification taskStale emptyManager.

(** A stale and a fresh task, both registered and queued. *)
Definition managerMixed : MockBackgroundManager :=
  markForNotification taskFresh
    (markForNotification taskStale
       (addTask taskFresh (addTask taskStale emptyManager))).

(** ** Vocabulary for the MCP client manager *)

Module SM := SkillMcpManager.

(** The string has no colon. *)
Fixpoint colon_free (s : string) : bool :=
  match s with
  | EmptyString => true
  | String c rest => negb (Ascii.eqb c ":"%char) && colon_free rest
  end.

(** The closing calls for a list of dropped clients, in order. *)
Definition closes (l : list SkillMcpManager.ManagedClient)
  : list SkillMcpManager.Call :=
  List.flat_map
    (fun managed =>
       [SkillMcpManager.CloseClient (SkillMcpManager.client managed);
        SkillMcpManager.CloseTransport (SkillMcpManager.transport managed)])
    l.

(** How often a call occurs in a log. *)
Definition count_calls (p : SkillMcpManager.Call -> bool)
    (log : list SkillMcpManager.Call) : nat :=
  List.length (List.filter p log).

Definition is_sigint (c : SkillMcpManager.Call) : bool :=
  match c with
  | SkillMcpManager.ProcessOn s => String.eqb s "SIGINT"
  | _ => false
  end.

Definition is_set_interval (c : SkillMcpManager.Call) : bool :=
  match c with
  | SkillMcpManager.SetInterval _ _ => true
  | _ => false
  end.

Definition is_clear_interval (c : SkillMcpManager.Call) : bool :=
  match c with
  | SkillMcpManager.ClearInterval _ => true
  | _ => false
  end.

(** The public methods of the manager that change its state, as calls. *)
Inductive SkillOp :=
| OpGetOrCreate (now : Z) (info : SkillMcpManager.SkillMcpClientInfo)
                (config : SkillMcpManager.ClaudeCodeMcpServer)
| OpDisconnectSession (sessionID : string)
| OpDisconnectAll
| OpCleanupIdle (now : Z).

Section SkillRuns.
Variable win32 : bool.
Variable validURL : string -> bool.
Variable connect :
  SkillMcpManager.Handle -> string -> SkillMcpManager.TransportSpec
  -> option string.
Variable createCleanMcpEnvironment :
  option (list (string * string)) -> list (string * string).
Variable expandEnvVarsInObject :
  SkillMcpManager.ClaudeCodeMcpServer -> SkillMcpManager.ClaudeCodeMcpServer.

Definition skill_step (st : SkillMcpManager.t) (o : SkillOp)
  : SkillMcpManager.t :=
  match o with
  | OpGetOrCreate now info config =>
      fst (SkillMcpManager.getOrCreateClientWithRetry win32 validURL connect
             createCleanMcpEnvironment expandEnvVarsInObject now info config
             st)
  | OpDisconnectSession s => SkillMcpManager.disconnectSession s st
  | OpDisconnectAll => SkillMcpManager.disconnectAll st
  | OpCleanupIdle now => SkillMcpManager.cleanupIdleClients now st
  end.

(** The manager after a sequence of calls on a new instance. *)
Definition skill_run (ops : list SkillOp) : SkillMcpManager.t :=
  List.fold_left skill_step ops SkillMcpManager.create.

End SkillRuns.

(** What every reachable state of the manager satisfies. *)
Record skill_invariant (st : SkillMcpManager.t) : Prop := {
  inv_wf : JSMap.wf (SkillMcpManager.clients st);
  inv_pending : SkillMcpManager.pendingConnections st = [];
  inv_handlers :
    count_calls is_sigint (SkillMcpManager.calls st)
    = if SkillMcpManager.cleanupRegistered st then 1%nat else 0%nat;
  inv_timer :
    (count_calls is_set_interval (SkillMcpManager.calls st)
     = count_calls is_clear_interval (SkillMcpManager.calls st)
       + match SkillMcpManager.cleanupInterval st with
         | Some _ => 1
         | None => 0
         end)%nat;
  inv_covered :
    SkillMcpManager.clients st <> [] ->
    SkillMcpManager.cleanupRegistered st = true
    /\ SkillMcpManager.cleanupInterval st <> None
}.

(** The objects a list of entries holds: each client and its transport. *)
Definition objects (l : list SkillMcpManager.ManagedClient)
  : list SkillMcpManager.Handle :=
  List.flat_map
    (fun managed =>
       [SkillMcpManager.client managed; SkillMcpManager.transport managed])
    l.

(** The objects a log has [close()] called on, in order. *)
Definition closed (log : list SkillMcpManager.Call)
  : list SkillMcpManager.Handle :=
  List.flat_map
    (fun c =>
       match c with
       | SkillMcpManager.CloseClient h => [h]
       | SkillMcpManager.CloseTransport h => [h]
       | _ => []
       end)
    log.

(** The objects the manager has registered or has closed. *)
Definition handled (st : SkillMcpManager.t) : list SkillMcpManager.Handle :=
  objects (JSMap.values (SkillMcpManager.clients st))
  ++ closed (SkillMcpManager.calls st).

(** No object is registered twice, closed twice, or closed while it is
    registered; all of them were created by this manager. *)
Record handles_invariant (st : SkillMcpManager.t) : Prop := {
  hi_distinct : List.NoDup (handled st);
  hi_created :
    List.Forall (fun h => (h < SkillMcpManager.fresh st)%nat) (handled st)
}.

(** ** MCP scenarios *)

Definition infoA : SkillMcpManager.SkillMcpClientInfo :=
  {| SkillMcpManager.info_sessionID := "session-1";
     SkillMcpManager.info_skillName := "test-skill";
     SkillMcpManager.info_serverName := "test-server" |}.

Definition infoB : SkillMcpManager.SkillMcpClientInfo :=
  {| SkillMcpManager.info_sessionID := "session-2";
     SkillMcpManager.info_skillName := "test-skill";
     SkillMcpManager.info_serverName := "test-server" |}.

(** [{ type: "http", command: "node" }]: explicit type, no url. *)
Definition configHttpNoUrl : SkillMcpManager.ClaudeCodeMcpServer :=
  {| SkillMcpManager.cfg_type := Some "http";
     SkillMcpManager.cfg_url := None;
     SkillMcpManager.cfg_command := Some "node";
     SkillMcpManager.cfg_args := None; SkillMcpManager.cfg_env := None;
     SkillMcpManager.cfg_headers := None |}.

(** [{ command: "node", args: ["-e", "process.exit(0)"] }]. *)
Definition configStdio : SkillMcpManager.ClaudeCodeMcpServer :=
  {| SkillMcpManager.cfg_type := None;
     SkillMcpManager.cfg_url := None;
     SkillMcpManager.cfg_command := Some "node";
     SkillMcpManager.cfg_args := Some ["-e"; "process.exit(0)"];
     SkillMcpManager.cfg_env := None;
     SkillMcpManager.cfg_headers := None |}.

(** [{}]: nothing to connect with. *)
Definition configEmpty : SkillMcpManager.ClaudeCodeMcpServer :=
  {| SkillMcpManager.cfg_type := None;
     SkillMcpManager.cfg_url := None;
     SkillMcpManager.cfg_command := None;
     SkillMcpManager.cfg_args := None; SkillMcpManager.cfg_env := None;
     SkillMcpManager.cfg_headers := None |}.

(** Collaborators for the scenarios: every URL parses, the environment is
    passed as given, nothing is expanded. *)
Definition anyURL (s : string) : bool := true.
Definition plainEnv (e : option (list (string * string)))
  : list (string * string) := default [] e.
Definition noExpand (c : SkillMcpManager.ClaudeCodeMcpServer)
  : SkillMcpManager.ClaudeCodeMcpServer := c.
(** Every connection comes up. *)
Definition connectOk (client : SkillMcpManager.Handle) (name : string)
    (spec : SkillMcpManager.TransportSpec) : option string := None.
(** Every connection is refused. *)
Definition connectRefused (client : SkillMcpManager.Handle) (name : string)
    (spec : SkillMcpManager.TransportSpec) : option string :=
  Some "ECONNREFUSED".

(** A manager with the clients of [infoA] and [infoB] connected at times
    1000 and 2000. *)
Definition skillTwoClients : SkillMcpManager.t :=
  skill_run false anyURL connectOk plainEnv noExpand
    [OpGetOrCreate 1000 infoA configStdio;
     OpGetOrCreate 2000 infoB configStdio].

(** The handlers [registerProcessCleanup] installs from state [st]: none
    when they are installed already. *)
Definition handler_calls (win32 : bool) (st : SkillMcpManager.t)
  : list SkillMcpManager.Call :=
  if SkillMcpManager.cleanupRegistered st then []
  else [SkillMcpManager.ProcessOn "SIGINT";
        SkillMcpManager.ProcessOn "SIGTERM"]
       ++ (if win32 then [SkillMcpManager.ProcessOn "SIGBREAK"] else []).

(** The timer calls [startCleanupTimer] makes when its timer is [timer]:
    none when one is running already. *)
Definition timer_calls (st : SkillMcpManager.t)
    (timer : SkillMcpManager.Handle) : list SkillMcpManager.Call :=
  match SkillMcpManager.cleanupInterval st with
  | Some _ => []
  | None => [SkillMcpManager.SetInterval timer 60000;
             SkillMcpManager.Unref timer]
  end.

(** The entry with [existing.lastUsedAt = now] assigned. *)
Definition touched (now : Z) (existing : SkillMcpManager.ManagedClient)
  : SkillMcpManager.ManagedClient :=
  {| SkillMcpManager.client := SkillMcpManager.client existing;
     SkillMcpManager.transport := SkillMcpManager.transport existing;
     SkillMcpManager.skillName := SkillMcpManager.skillName existing;
     SkillMcpManager.lastUsedAt := now;
     SkillMcpManager.connectionType :=
       SkillMcpManager.connectionType existing |}.

(** The error messages raised before any connection is attempted. *)
Definition validation_message (info : SkillMcpManager.SkillMcpClientInfo)
    (message : string) : Prop :=
  message = SkillMcpManager.noConnectionMessage info
  \/ message = SkillMcpManager.missingUrlMessage info
  \/ message = SkillMcpManager.missingCommandMessage info
  \/ exists url, message = SkillMcpManager.invalidUrlMessage info url.

(* ===================================================================== *)
(** * Basic facts *)
(* ===================================================================== *)

Lemma status_eqb_eq a b : status_eqb a b = true <-> a = b.
Proof. destruct a, b; simpl; split; intros H; congruence. Qed.


(* ===================================================================== *)
(** * The descendant closure *)
(* ===================================================================== *)

Lemma task_eq_dec (a b : BackgroundTask) : {a = b} + {a <> b}.
Proof.
  repeat decide equality; try apply Z.eq_dec; try apply string_dec.
Qed.

Section Descendants.
Variable m : MockBackgroundManager.

Lemma in_direct_children s task :
  In task (getTasksByParentSession m s)
  <-> registered m task /\ parentSessionID task = s.
Proof.
  unfold getTasksByParentSession, registered.
  rewrite List.filter_In, String.eqb_eq. reflexivity.
Qed.

(** What the loop over the direct children returns, given what each
    recursive call returns. *)
Lemma collect_descendants_In rec children result :
  collect_descendants rec children = Some result ->
  forall task,
    In task result <->
    exists child, In child children /\
      (task = child \/
       exists ds, rec (sessionID child) = Some ds /\ In task ds).
Proof.
  revert result.
  induction children as [|c rest IH]; simpl; intros result H task.
  - inversion H; subst. split; [intros [] | intros (c & [] & _)].
  - destruct (rec (sessionID c)) as [ds|] eqn:Hc; [|discriminate].
    destruct (collect_descendants rec rest) as [r|] eqn:Hr; [|discriminate].
    inversion H; subst; clear H. simpl. rewrite in_app_iff, (IH r eq_refl).
    split.
    + intros [<- | [Hin | (c' & Hc' & Ht)]].
      * exists c. auto.
      * exists c. split; [auto|]. right. exists ds. auto.
      * exists c'. auto.
    + intros (c' & [<- | Hc'] & Ht).
      * destruct Ht as [-> | (ds' & Hds & Hin)]; [auto|].
        rewrite Hc in Hds. inversion Hds; subst. auto.
      * right. right. exists c'. auto.
Qed.

Lemma collect_descendants_ext rec rec' children result :
  (forall c ds, In c children -> rec (sessionID c) = Some ds ->
                rec' (sessionID c) = Some ds) ->
  collect_descendants rec children = Some result ->
  collect_descendants rec' children = Some result.
Proof.
  revert result.
  induction children as [|c rest IH]; simpl; intros result Hext H; [exact H|].
  destruct (rec (sessionID c)) as [ds|] eqn:Hc; [|discriminate].
  destruct (collect_descendants rec rest) as [r|] eqn:Hr; [|discriminate].
  rewrite (Hext c ds (or_introl eq_refl) Hc).
  rewrite (IH r); auto.
Qed.

Lemma collect_descendants_total rec children :
  (forall c, In c children -> exists ds, rec (sessionID c) = Some ds) ->
  exists result, collect_descendants rec children = Some result.
Proof.
  induction children as [|c rest IH]; simpl; intros Hall; [eauto|].
  destruct (Hall c (or_introl eq_refl)) as [ds ->].
  destruct IH as [r ->]; eauto.
Qed.

(** More fuel never changes a result. *)
Lemma getAllDescendantTasks_mono fuel :
  forall fuel' s result,
    (fuel <= fuel')%nat ->
    getAllDescendantTasks fuel m s = Some result ->
    getAllDescendantTasks fuel' m s = Some result.
Proof.
  induction fuel as [|f IH]; intros fuel' s result Hle H; [discriminate|].
  destruct fuel' as [|f']; [lia|]. simpl in *.
  eapply collect_descendants_ext; [|exact H].
  intros c ds _ Hc. apply IH; [lia | exact Hc].
Qed.

(** A returned list holds exactly the descendants. *)
Lemma getAllDescendantTasks_spec fuel :
  forall s result,
    getAllDescendantTasks fuel m s = Some result ->
    forall task, In task result <-> descendant m s task.
Proof.
  induction fuel as [|f IH]; intros s result H task; [discriminate|].
  simpl in H. rewrite (collect_descendants_In _ _ _ H). split.
  - intros (c & Hc & Ht). apply in_direct_children in Hc as [Hreg Hpar].
    destruct Ht as [-> | (ds & Hds & Hin)].
    + now apply desc_child.
    + apply desc_hop with c; auto. now apply (IH _ _ Hds).
  - intros Hd. destruct Hd as [t Hreg Hpar | c t Hreg Hpar Hd].
    + exists t. split; [now apply in_direct_children | now left].
    + exists c. split; [now apply in_direct_children|].
      destruct (getAllDescendantTasks f m (sessionID c)) as [ds|] eqn:Hc.
      * right. exists ds. split; [reflexivity|]. now apply (IH _ _ Hc).
      * exfalso.
        assert (Hin : In c (getTasksByParentSession m s))
          by now apply in_direct_children.
        clear -H Hc Hin.
        revert result H.
        induction (getTasksByParentSession m s) as [|c' rest IHr];
          simpl; intros result H; [destruct Hin|].
        destruct Hin as [-> | Hin].
        -- rewrite Hc in H. discriminate.
        -- destruct (getAllDescendantTasks f m (sessionID c')); [|discriminate].
           destruct (collect_descendants _ rest) eqn:Hr; [|discriminate].
           eapply IHr; eauto.
Qed.

(** One more hop at the far end of a chain. *)
Lemma descendant_snoc s child task :
  descendant m s child -> registered m task ->
  parentSessionID task = sessionID child -> descendant m s task.
Proof.
  induction 1 as [s c Hreg Hpar | s c c' Hreg Hpar _ IH]; intros Ht Hp.
  - apply desc_hop with c; auto. now apply desc_child.
  - apply desc_hop with c; auto.
Qed.

Lemma session_reach_child a s task :
  session_reach m a s -> registered m task -> parentSessionID task = s ->
  descendant m a task.
Proof.
  intros [-> | (c & Hd & <-)] Hreg Hpar.
  - now apply desc_child.
  - now apply descendant_snoc with c.
Qed.

(** Along one branch of the recursion the tasks visited are pairwise
    distinct when there is no cycle, so the call stack is no deeper than
    the registry is long. *)
Lemma getAllDescendantTasks_total_path (Hacyc : acyclic m) fuel :
  forall path s,
    List.NoDup path ->
    (forall p, In p path -> registered m p /\ session_reach m (sessionID p) s) ->
    (List.length (tasks m) < fuel + List.length path)%nat ->
    exists result, getAllDescendantTasks fuel m s = Some result.
Proof.
  induction fuel as [|f IH]; intros path s Hnd Hpath Hlen.
  - exfalso.
    assert (List.length path <= List.length (JSMap.values (tasks m)))%nat.
    { apply List.NoDup_incl_length; [exact Hnd|].
      intros p Hp. now apply Hpath. }
    unfold JSMap.values in H. rewrite List.length_map in H. lia.
  - simpl. apply collect_descendants_total. intros c Hc.
    apply in_direct_children in Hc as [Hreg Hpar].
    apply (IH (c :: path)).
    + constructor; [|exact Hnd]. intros Hin.
      destruct (Hpath c Hin) as [_ Hreach].
      apply (Hacyc c Hreg). now apply session_reach_child with s.
    + intros p [<- | Hp].
      * split; [exact Hreg | now left].
      * destruct (Hpath p Hp) as [Hr Hreach]. split; [exact Hr|].
        right. exists c. split; [|reflexivity].
        now apply session_reach_child with s.
    + simpl. lia.
Qed.

Lemma getAllDescendantTasks_total (Hacyc : acyclic m) s :
  exists result,
    getAllDescendantTasks (S (List.length (tasks m))) m s = Some result.
Proof.
  apply (getAllDescendantTasks_total_path Hacyc _ [] s).
  - constructor.
  - intros p [].
  - simpl. lia.
Qed.

(** A self-parented task makes every call on its session recurse for
    ever: whatever the depth allowed, the bound is reached. *)
Lemma getAllDescendantTasks_self_parented task :
  registered m task -> parentSessionID task = sessionID task ->
  forall fuel, getAllDescendantTasks fuel m (sessionID task) = None.
Proof.
  intros Hreg Hpar fuel. induction fuel as [|f IH]; [reflexivity|].
  simpl.
  assert (Hin : In task (getTasksByParentSession m (sessionID task)))
    by now apply in_direct_children.
  revert Hin.
  induction (getTasksByParentSession m (sessionID task)) as [|c rest IHr];
    simpl; intros Hin; [destruct Hin|].
  destruct Hin as [-> | Hin].
  - now rewrite IH.
  - destruct (getAllDescendantTasks f m (sessionID c)); [|reflexivity].
    now rewrite (IHr Hin).
Qed.

(** A rank that drops along every parent edge rules out cycles. *)
Lemma ranked_acyclic (rank : string -> nat) :
  (forall task, registered m task ->
                (rank (sessionID task) < rank (parentSessionID task))%nat) ->
  acyclic m.
Proof.
  intros Hrank.
  assert (Hd : forall s task, descendant m s task ->
                              (rank (sessionID task) < rank s)%nat).
  { induction 1 as [s t Hreg Hpar | s c t Hreg Hpar _ IH].
    - subst s. now apply Hrank.
    - subst s. specialize (Hrank c Hreg). lia. }
  intros task Hreg Hcyc. specialize (Hd _ _ Hcyc). lia.
Qed.

End Descendants.

(** ** The example registries *)

Lemma chainManager_registered task :
  registered chainManager task <->
  task = taskB \/ task = taskC \/ task = taskD \/ task = taskY.
Proof.
  unfold registered. simpl. intuition congruence.
Qed.

Lemma chainManager_acyclic : acyclic chainManager.
Proof.
  apply ranked_acyclic with chainRank. intros task Hreg.
  apply chainManager_registered in Hreg as [-> | [-> | [-> | ->]]];
    vm_compute; lia.
Qed.

Lemma loopManager_diverges fuel :
  getAllDescendantTasks fuel loopManager "session-p" = None
  /\ getAllDescendantTasks fuel loopManager "session-q" = None.
Proof.
  induction fuel as [|f [IHp IHq]]; [split; reflexivity|].
  split; cbn [getAllDescendantTasks].
  - change (getTasksByParentSession loopManager "session-p") with [loopQ].
    cbn [collect_descendants].
    change (sessionID loopQ) with "session-q". now rewrite IHq.
  - change (getTasksByParentSession loopManager "session-q") with [loopP].
    cbn [collect_descendants].
    change (sessionID loopP) with "session-p". now rewrite IHp.
Qed.

(* ===================================================================== *)
(** * The admission gate *)
(* ===================================================================== *)

Module CM := ConcurrencyManager.

Section Gate.
Variable g : CM.t.
Variable k : string.

Lemma acquire_full w :
  CM.getConcurrencyLimit k g <= CM.getCount k g ->
  CM.resolved (CM.acquire k w g) = CM.resolved g
  /\ CM.waiting k (CM.acquire k w g) = CM.waiting k g ++ [w]
  /\ (forall k', k' <> k ->
        CM.waiting k' (CM.acquire k w g) = CM.waiting k' g)
  /\ (forall k', CM.getCount k' (CM.acquire k w g) = CM.getCount k' g)
  /\ (forall k', CM.getConcurrencyLimit k' (CM.acquire k w g)
                 = CM.getConcurrencyLimit k' g).
Proof.
  intros Hfull. unfold CM.acquire.
  destruct (Z.ltb_spec (CM.getCount k g) (CM.getConcurrencyLimit k g));
    [lia|].
  repeat split; simpl.
  - unfold CM.waiting at 1. simpl. now rewrite lookup_insert_eq.
  - intros k' Hne. unfold CM.waiting at 1. simpl.
    now rewrite lookup_insert_ne by congruence.
Qed.

Lemma acquire_free w :
  CM.getCount k g < CM.getConcurrencyLimit k g ->
  CM.resolved (CM.acquire k w g) = CM.resolved g ++ [(k, w)]
  /\ CM.getCount k (CM.acquire k w g) = CM.getCount k g + 1
  /\ (forall k', k' <> k ->
        CM.getCount k' (CM.acquire k w g) = CM.getCount k' g)
  /\ (forall k', CM.waiting k' (CM.acquire k w g) = CM.waiting k' g)
  /\ (forall k', CM.getConcurrencyLimit k' (CM.acquire k w g)
                 = CM.getConcurrencyLimit k' g).
Proof.
  intros Hfree. unfold CM.acquire.
  destruct (Z.ltb_spec (CM.getCount k g) (CM.getConcurrencyLimit k g));
    [|lia].
  repeat split; simpl.
  - unfold CM.getCount at 1. simpl. now rewrite lookup_insert_eq.
  - intros k' Hne. unfold CM.getCount at 1. simpl.
    now rewrite lookup_insert_ne by congruence.
Qed.


Lemma release_handoff w rest :
  0 < CM.getCount k g -> CM.waiting k g = w :: rest ->
  CM.resolved (CM.release k g) = CM.resolved g ++ [(k, w)]
  /\ CM.waiting k (CM.release k g) = rest
  /\ (forall k', k' <> k ->
        CM.waiting k' (CM.release k g) = CM.waiting k' g)
  /\ (forall k', CM.getCount k' (CM.release k g) = CM.getCount k' g)
  /\ (forall k', CM.getConcurrencyLimit k' (CM.release k g)
                 = CM.getConcurrencyLimit k' g).
Proof.
  intros Hheld Hq. unfold CM.release.
  destruct (Z.leb_spec (CM.getCount k g) 0); [lia|]. rewrite Hq.
  repeat split; simpl.
  - unfold CM.waiting at 1. simpl. now rewrite lookup_insert_eq.
  - intros k' Hne. unfold CM.waiting at 1. simpl.
    now rewrite lookup_insert_ne by congruence.
Qed.

Lemma release_free :
  0 < CM.getCount k g -> CM.waiting k g = [] ->
  CM.resolved (CM.release k g) = CM.resolved g
  /\ CM.getCount k (CM.release k g) = CM.getCount k g - 1
  /\ (forall k', k' <> k ->
        CM.getCount k' (CM.release k g) = CM.getCount k' g)
  /\ (forall k', CM.waiting k' (CM.release k g) = CM.waiting k' g)
  /\ (forall k', CM.getConcurrencyLimit k' (CM.release k g)
                 = CM.getConcurrencyLimit k' g).
Proof.
  intros Hheld Hq. unfold CM.release.
  destruct (Z.leb_spec (CM.getCount k g) 0); [lia|]. rewrite Hq.
  repeat split; simpl.
  - unfold CM.getCount at 1. simpl. now rewrite lookup_insert_eq.
  - intros k' Hne. unfold CM.getCount at 1. simpl.
    now rewrite lookup_insert_ne by congruence.
Qed.

End Gate.






(* ===================================================================== *)
(** * Resume on the test double *)
(* ===================================================================== *)

Lemma find_session_None s l :
  find_session s l = None <-> forall task, In task l -> sessionID task <> s.
Proof.
  induction l as [|t rest IH]; simpl.
  - split; [intros _ task [] | reflexivity].
  - destruct (String.eqb_spec (sessionID t) s) as [Heq | Hne].
    + split; [discriminate|]. intros H. now destruct (H t (or_introl eq_refl)).
    + rewrite IH. split.
      * intros H task [<- | Hin]; auto.
      * intros H task Hin. apply H. now right.
Qed.

Lemma find_session_Some s l task :
  find_session s l = Some task -> In task l /\ sessionID task = s.
Proof.
  induction l as [|t rest IH]; simpl; [discriminate|].
  destruct (String.eqb_spec (sessionID t) s) as [Heq | Hne].
  - intros H. inversion H; subst. auto.
  - intros H. destruct (IH H). auto.
Qed.

(** With one task per execution session, the task found is the task. *)
Lemma find_session_unique s l task :
  In task l -> sessionID task = s ->
  (forall other, In other l -> sessionID other = s -> other = task) ->
  find_session s l = Some task.
Proof.
  intros Hin Hs Huniq.
  destruct (find_session s l) as [found|] eqn:Hfind.
  - apply find_session_Some in Hfind as [Hin' Hs'].
    now rewrite (Huniq found Hin' Hs').
  - rewrite find_session_None in Hfind. now destruct (Hfind task Hin).
Qed.

(** ** Mutating a task object in place *)

Lemma mutated_same task' t :
  identity t = identity task' -> mutated task' t = task'.
Proof. intros H. unfold mutated. now rewrite H, Nat.eqb_refl. Qed.

Lemma mutated_other task' t :
  identity t <> identity task' -> mutated task' t = t.
Proof.
  intros H. unfold mutated.
  destruct (Nat.eqb_spec (identity t) (identity task')); [contradiction|].
  reflexivity.
Qed.

Lemma values_mutated {K V : Type} (f : V -> V) (l : list (K * V)) :
  List.map snd (List.map (fun e => (fst e, f (snd e))) l)
  = List.map f (List.map snd l).
Proof. rewrite !List.map_map. reflexivity. Qed.

Lemma keys_mutated {V : Type} (f : V -> V) (l : JSMap.t V) :
  JSMap.keys (List.map (fun e => (fst e, f (snd e))) l) = JSMap.keys l.
Proof. unfold JSMap.keys. rewrite List.map_map. reflexivity. Qed.

Lemma get_mutated {V : Type} (f : V -> V) (k : string) (l : JSMap.t V) :
  JSMap.get k (List.map (fun e => (fst e, f (snd e))) l)
  = option_map f (JSMap.get k l).
Proof.
  induction l as [|[k0 v0] l IH]; simpl; [reflexivity|].
  destruct (String.eqb k0 k); [reflexivity | exact IH].
Qed.

(** The mutated object is the one [findBySession] finds afterwards, as long
    as the mutation keeps its session id. *)
Lemma find_session_mutated s l existing task' :
  find_session s l = Some existing ->
  identity task' = identity existing -> sessionID task' = s ->
  find_session s (List.map (mutated task') l) = Some task'.
Proof.
  intros Hfind Hid Hs. induction l as [|t rest IH]; simpl in *; [discriminate|].
  destruct (String.eqb_spec (sessionID t) s) as [Heq | Hne].
  - inversion Hfind; subst t. rewrite (mutated_same task' existing);
      [|now symmetry].
    now rewrite Hs, String.eqb_refl.
  - destruct (Nat.eqb_spec (identity t) (identity task')) as [Hi | Hi].
    + rewrite (mutated_same _ _ Hi). now rewrite Hs, String.eqb_refl.
    + rewrite (mutated_other _ _ Hi).
      destruct (String.eqb_spec (sessionID t) s); [contradiction|].
      now apply IH.
Qed.

Lemma resume_reset_resumed now input task :
  resumed_from input task (resume_reset now input task).
Proof. unfold resumed_from. simpl. repeat split; reflexivity. Qed.

Lemma status_not_running st :
  st <> running -> status_eqb st running = false.
Proof. destruct st; simpl; congruence. Qed.

(* ===================================================================== *)
(** * The lifecycle manager *)
(* ===================================================================== *)

Module BM := BackgroundManager.

Lemma release_slot_frame key bm :
  BM.objects (BM.release_slot key bm) = BM.objects bm
  /\ BM.tasks (BM.release_slot key bm) = BM.tasks bm
  /\ BM.config (BM.release_slot key bm) = BM.config bm.
Proof. destruct key; simpl; auto. Qed.

Lemma release_slot_gate key bm :
  BM.concurrencyManager (BM.release_slot key bm)
  = match key with
    | Some k => CM.release k (BM.concurrencyManager bm)
    | None => BM.concurrencyManager bm
    end.
Proof. destruct key; reflexivity. Qed.

Lemma release_slot_effects key bm :
  BM.effects (BM.release_slot key bm)
  = BM.effects bm ++ match key with
                     | Some k => [BM.SlotReleased k]
                     | None => []
                     end.
Proof. destruct key; simpl; [reflexivity | now rewrite app_nil_r]. Qed.

Section Completion.
Variables (now : Z) (r : BM.Ref) (bm : BM.t) (task : BackgroundTask).
Hypothesis Hobj : BM.objects bm !! r = Some task.

Lemma tryCompleteTask_terminal :
  status task <> running -> BM.tryCompleteTask now r bm = (false, bm).
Proof.
  intros Hst. unfold BM.tryCompleteTask.
  rewrite Hobj, (status_not_running _ Hst). reflexivity.
Qed.

Lemma tryCompleteTask_running :
  status task = running ->
  exists bm',
    BM.tryCompleteTask now r bm = (true, bm')
    /\ BM.objects bm'
       = <[r := BM.terminate completed now (error task) task]> (BM.objects bm)
    /\ BM.tasks bm' = BM.tasks bm
    /\ BM.config bm' = BM.config bm
    /\ BM.concurrencyManager bm'
       = match concurrencyKey task with
         | Some k => CM.release k (BM.concurrencyManager bm)
         | None => BM.concurrencyManager bm
         end
    /\ BM.effects bm'
       = BM.effects bm
         ++ match concurrencyKey task with
            | Some k => [BM.SlotReleased k]
            | None => []
            end
         ++ [BM.NotifyStarted (parentSessionID task) (id task)].
Proof.
  intros Hst. unfold BM.tryCompleteTask. rewrite Hobj, Hst. simpl.
  eexists. split; [reflexivity|].
  destruct (release_slot_frame (concurrencyKey task) bm) as (Ho & Ht & Hc).
  simpl. rewrite Ho, Ht, Hc, release_slot_gate, release_slot_effects.
  rewrite <- app_assoc. auto.
Qed.

End Completion.

(** ** The watchdog *)

Lemma watched_idempotent now c task :
  watched now c (watched now c task) = watched now c task.
Proof.
  unfold watched.
  destruct (status_eqb (status task) running && BM.isStale now c task)
    eqn:Hw; [|now rewrite Hw].
  reflexivity.
Qed.

Lemma interrupt_frame now bm r :
  BM.tasks (BM.interrupt now bm r) = BM.tasks bm
  /\ BM.config (BM.interrupt now bm r) = BM.config bm.
Proof.
  unfold BM.interrupt. destruct (BM.objects bm !! r) as [task|]; [|auto].
  destruct (status_eqb (status task) running && BM.isStale now _ task); [|auto].
  simpl. destruct (release_slot_frame (concurrencyKey task) bm) as (_ & -> & ->).
  auto.
Qed.

Lemma interrupt_objects now bm r r' :
  BM.objects (BM.interrupt now bm r) !! r'
  = if decide (r' = r)
    then watched now (BM.config bm) <$> BM.objects bm !! r'
    else BM.objects bm !! r'.
Proof.
  unfold BM.interrupt.
  destruct (decide (r' = r)) as [-> | Hne].
  - destruct (BM.objects bm !! r) as [task|] eqn:Hobj; [|now rewrite Hobj].
    unfold watched. simpl.
    destruct (status_eqb (status task) running && BM.isStale now _ task).
    + simpl. destruct (release_slot_frame (concurrencyKey task) bm) as (-> & _).
      now rewrite lookup_insert_eq.
    + now rewrite Hobj.
  - destruct (BM.objects bm !! r) as [task|]; [|reflexivity].
    destruct (status_eqb (status task) running && BM.isStale now _ task);
      [|reflexivity].
    simpl. destruct (release_slot_frame (concurrencyKey task) bm) as (-> & _).
    now rewrite lookup_insert_ne by congruence.
Qed.

Lemma poll_frame now refs :
  forall bm,
    BM.tasks (List.fold_left (BM.interrupt now) refs bm) = BM.tasks bm
    /\ BM.config (List.fold_left (BM.interrupt now) refs bm) = BM.config bm.
Proof.
  induction refs as [|r refs IH]; intros bm; simpl; [auto|].
  destruct (IH (BM.interrupt now bm r)) as (-> & ->).
  apply interrupt_frame.
Qed.

(** A poll treats every registered object once, however often the registry
    refers to it, and touches no other object. *)
Lemma poll_objects now refs :
  forall bm r,
    BM.objects (List.fold_left (BM.interrupt now) refs bm) !! r
    = if decide (r ∈ refs)
      then watched now (BM.config bm) <$> BM.objects bm !! r
      else BM.objects bm !! r.
Proof.
  induction refs as [|r0 refs IH]; intros bm r; simpl.
  - destruct (decide (r ∈ [])) as [Hin | _]; [|reflexivity].
    now apply not_elem_of_nil in Hin.
  - rewrite IH. destruct (interrupt_frame now bm r0) as (_ & ->).
    rewrite interrupt_objects.
    destruct (decide (r ∈ r0 :: refs)) as [Hin | Hnin];
      destruct (decide (r ∈ refs)) as [Hin' | Hnin'];
      destruct (decide (r = r0)) as [-> | Hne];
      try reflexivity.
    + destruct (BM.objects bm !! r0); simpl; [|reflexivity].
      now rewrite watched_idempotent.
    + apply elem_of_cons in Hin as [? | ?]; contradiction.
    + exfalso. apply Hnin. now right.
    + exfalso. apply Hnin. now right.
    + exfalso. apply Hnin. now left.
Qed.

Lemma interrupt_effects now bm r :
  BM.effects (BM.interrupt now bm r)
  = BM.effects bm ++ cancel_effects now bm r.
Proof.
  unfold BM.interrupt, cancel_effects.
  destruct (BM.objects bm !! r) as [task|]; [|now rewrite app_nil_r].
  destruct (status_eqb (status task) running && BM.isStale now _ task);
    [|now rewrite app_nil_r].
  simpl. rewrite release_slot_effects, <- app_assoc. reflexivity.
Qed.

Lemma cancel_effects_ext now bm bm' r :
  BM.objects bm' !! r = BM.objects bm !! r ->
  BM.config bm' = BM.config bm ->
  cancel_effects now bm' r = cancel_effects now bm r.
Proof. unfold cancel_effects. now intros -> ->. Qed.

(** The calls of a whole poll: task by task, in registry order. *)
Lemma poll_effects now refs :
  List.NoDup refs ->
  forall bm,
    BM.effects (List.fold_left (BM.interrupt now) refs bm)
    = BM.effects bm ++ List.flat_map (cancel_effects now bm) refs.
Proof.
  induction 1 as [|r0 refs Hnin Hnd IH]; intros bm; simpl.
  - now rewrite app_nil_r.
  - rewrite IH, interrupt_effects, <- app_assoc. f_equal. f_equal.
    clear IH. induction refs as [|r refs IHr]; simpl; [reflexivity|].
    rewrite IHr.
    + f_equal. apply cancel_effects_ext.
      * rewrite interrupt_objects.
        destruct (decide (r = r0)) as [-> | _]; [|reflexivity].
        exfalso. apply Hnin. now left.
      * apply interrupt_frame.
    + intros Hin. apply Hnin. now right.
    + now inversion Hnd.
Qed.

Lemma append_assoc (a b c : string) : (a +:+ b) +:+ c = a +:+ b +:+ c.
Proof.
  induction a as [|ch a IH]; [reflexivity|].
  change (String ch ((a +:+ b) +:+ c) = String ch (a +:+ b +:+ c)).
  now rewrite IH.
Qed.

Lemma staleError_contains c :
  contains "Stale timeout" (BM.staleError c)
  /\ contains (pretty (BM.staleMinutes c) +:+ "min") (BM.staleError c).
Proof.
  unfold contains, BM.staleError. split.
  - exists "", (" (no activity for " +:+ pretty (BM.staleMinutes c) +:+ "min)").
    reflexivity.
  - exists "Stale timeout (no activity for ", ")".
    now rewrite append_assoc.
Qed.

(** ** Resume with re-admission *)

Lemma find_ref_Some objs s refs r task :
  BM.find_ref objs s refs = Some (r, task) ->
  objs !! r = Some task /\ sessionID task = s /\ In r refs.
Proof.
  induction refs as [|r0 refs IH]; simpl; [discriminate|].
  destruct (objs !! r0) as [t0|] eqn:Hobj.
  - destruct (String.eqb_spec (sessionID t0) s) as [Heq | Hne].
    + intros H. inversion H; subst. auto.
    + intros H. destruct (IH H) as (? & ? & ?). auto.
  - intros H. destruct (IH H) as (? & ? & ?). auto.
Qed.

Lemma reenter_resumed now input key task :
  resumed_from input task (BM.reenter now input key task)
  /\ concurrencyKey (BM.reenter now input key task)
     = match key with
       | Some k => Some k
       | None => concurrencyKey task
       end
  /\ concurrencyGroup (BM.reenter now input key task) = concurrencyGroup task
  /\ model (BM.reenter now input key task) = model task.
Proof. unfold resumed_from. simpl. repeat split; reflexivity. Qed.

(** *** The key on record *)

Lemma unkeyed_id task : concurrencyKey task = None -> BM.unkeyed task = task.
Proof. destruct task. simpl. now intros ->. Qed.

Lemma unkeyed_resumed now input key task :
  resumed_from input task (BM.reenter now input key (BM.unkeyed task))
  /\ concurrencyKey (BM.reenter now input key (BM.unkeyed task)) = key
  /\ model (BM.reenter now input key (BM.unkeyed task)) = model task
  /\ sessionID (BM.reenter now input key (BM.unkeyed task)) = sessionID task.
Proof.
  unfold resumed_from. simpl. repeat split; try reflexivity.
  now destruct key.
Qed.

(** A write keeps on record the key the object carried before it. *)
Lemma storedKey_store r old task' bm :
  BM.objects bm !! r = Some old ->
  BM.storedKey r (BM.store r task' bm)
  = match concurrencyKey task' with
    | Some k => Some k
    | None => BM.storedKey r bm
    end.
Proof.
  intros Hobj. unfold BM.storedKey, BM.store. simpl.
  rewrite lookup_insert_eq, Hobj.
  destruct (concurrencyKey task'); [reflexivity|].
  destruct (concurrencyKey old); [now rewrite lookup_insert_eq | reflexivity].
Qed.

Lemma storedKey_release_slot r key bm :
  BM.storedKey r (BM.release_slot key bm) = BM.storedKey r bm.
Proof. now destruct key. Qed.

(** A terminal transition clears the key from the task and leaves it on
    record. *)
Lemma storedKey_tryCompleteTask now r bm task :
  BM.objects bm !! r = Some task ->
  BM.storedKey r (snd (BM.tryCompleteTask now r bm)) = BM.storedKey r bm.
Proof.
  intros Hobj. unfold BM.tryCompleteTask. rewrite Hobj.
  destruct (negb (status_eqb (status task) running)); [reflexivity|].
  cbn [snd]. unfold BM.notifyParentSession.
  change (BM.storedKey r (BM.emit ?e ?b)) with (BM.storedKey r b).
  rewrite (storedKey_store r task);
    [|now destruct (release_slot_frame (concurrencyKey task) bm) as (-> & _)].
  simpl. apply storedKey_release_slot.
Qed.

Lemma storedKey_interrupt now r bm task :
  BM.objects bm !! r = Some task ->
  BM.storedKey r (BM.interrupt now bm r) = BM.storedKey r bm.
Proof.
  intros Hobj. unfold BM.interrupt. rewrite Hobj.
  destruct (status_eqb (status task) running && BM.isStale now _ task);
    [|reflexivity].
  change (BM.storedKey r (BM.emit ?e ?b)) with (BM.storedKey r b).
  rewrite (storedKey_store r task);
    [|now destruct (release_slot_frame (concurrencyKey task) bm) as (-> & _)].
  simpl. apply storedKey_release_slot.
Qed.

Lemma storedKey_held r bm task k :
  BM.objects bm !! r = Some task -> concurrencyKey task = Some k ->
  BM.storedKey r bm = Some k.
Proof. intros Hobj Hk. unfold BM.storedKey. now rewrite Hobj, Hk. Qed.

(** *** Giving back the slot a finished task still references *)

Lemma surrender_spec r bm task :
  BM.objects bm !! r = Some task ->
  let bm0 := BM.surrender r bm in
  BM.objects bm0 !! r = Some (BM.unkeyed task)
  /\ BM.concurrencyManager bm0
     = match concurrencyKey task with
       | Some k => CM.release k (BM.concurrencyManager bm)
       | None => BM.concurrencyManager bm
       end
  /\ BM.effects bm0
     = BM.effects bm ++ match concurrencyKey task with
                        | Some k => [BM.SlotReleased k]
                        | None => []
                        end
  /\ BM.storedKey r bm0 = BM.storedKey r bm
  /\ BM.tasks bm0 = BM.tasks bm
  /\ BM.config bm0 = BM.config bm.
Proof.
  intros Hobj. unfold BM.surrender. rewrite Hobj.
  destruct (concurrencyKey task) as [k|] eqn:Hk.
  - split; [simpl; now rewrite lookup_insert_eq|].
    split; [reflexivity|]. split; [reflexivity|].
    split; [|split; reflexivity].
    rewrite (storedKey_store r task); [|exact Hobj]. simpl.
    change (BM.storedKey r (BM.release_slot (Some k) bm))
      with (BM.storedKey r bm).
    reflexivity.
  - rewrite app_nil_r, (unkeyed_id task Hk). repeat split; auto.
Qed.

Lemma surrender_idle r bm task :
  BM.objects bm !! r = Some task -> concurrencyKey task = None ->
  BM.surrender r bm = bm.
Proof. intros Hobj Hk. unfold BM.surrender. now rewrite Hobj, Hk. Qed.

(** The part of [resume] after admission, on whatever the task object is
    by then. *)
Lemma resume_granted_spec now input r bm task :
  BM.objects bm !! r = Some task ->
  let bm' := BM.resume_granted now input r bm in
  BM.objects bm' !! r = Some (BM.reenter now input (BM.storedKey r bm) task)
  /\ BM.concurrencyManager bm' = BM.concurrencyManager bm
  /\ BM.effects bm'
     = BM.effects bm ++ [BM.PromptStarted (sessionID task) (model task)].
Proof.
  intros Hobj. unfold BM.resume_granted. rewrite Hobj. simpl.
  now rewrite lookup_insert_eq.
Qed.

(* ===================================================================== *)
(** * The notification body *)
(* ===================================================================== *)

Lemma truthy_Some s : truthy (Some s) = negb (String.eqb s "").
Proof. reflexivity. Qed.

Lemma body_lookups (task : BackgroundTask) (text : string)
    (a : option string) (v : option BodyValue) :
  let body0 : gmap string BodyValue := {[ "parts" := VParts [text] ]} in
  let body1 := match a with
               | Some x => <["agent" := VString x]> body0
               | None => body0
               end in
  let body2 := match v with
               | Some x => <["model" := x]> body1
               | None => body1
               end in
  body2 !! "agent" = VString <$> a
  /\ body2 !! "model" = v
  /\ body2 !! "parts" = Some (VParts [text]).
Proof.
  destruct a as [x|], v as [y|]; simpl;
    repeat split;
    repeat first
      [ rewrite lookup_insert_eq
      | rewrite lookup_insert_ne by discriminate
      | rewrite lookup_singleton_eq
      | rewrite lookup_singleton_ne by discriminate ];
    reflexivity.
Qed.

Lemma body_keys (text : string) (a : option string) (v : option BodyValue)
    (k : string) :
  let body0 : gmap string BodyValue := {[ "parts" := VParts [text] ]} in
  let body1 := match a with
               | Some x => <["agent" := VString x]> body0
               | None => body0
               end in
  let body2 := match v with
               | Some x => <["model" := x]> body1
               | None => body1
               end in
  is_Some (body2 !! k) -> k = "parts" \/ k = "agent" \/ k = "model".
Proof.
  destruct (decide (k = "parts")) as [-> | Hp]; [auto|].
  destruct (decide (k = "agent")) as [-> | Ha]; [auto|].
  destruct (decide (k = "model")) as [-> | Hm]; [auto|].
  destruct a as [x|], v as [y|]; simpl;
    repeat first
      [ rewrite lookup_insert_ne by congruence
      | rewrite lookup_singleton_ne by congruence ];
    intros [? H]; discriminate H.
Qed.

(* ===================================================================== *)
(** * The retention pruner *)
(* ===================================================================== *)

Lemma filter_all {A : Type} (f : A -> bool) (l : list A) :
  (forall x, In x l -> f x = true) -> List.filter f l = l.
Proof.
  induction l as [|x l IH]; simpl; intros H; [reflexivity|].
  rewrite (H x (or_introl eq_refl)), IH; auto.
Qed.

Lemma filter_length_le {A : Type} (f : A -> bool) (l : list A) :
  (List.length (List.filter f l) <= List.length l)%nat.
Proof.
  induction l as [|x l IH]; simpl; [lia|]. destruct (f x); simpl; lia.
Qed.

Lemma filter_same_length {A : Type} (f : A -> bool) (l : list A) :
  List.length (List.filter f l) = List.length l -> List.filter f l = l.
Proof.
  induction l as [|x l IH]; simpl; [reflexivity|].
  destruct (f x); simpl; intros H.
  - now rewrite IH by lia.
  - pose proof (filter_length_le f l). lia.
Qed.

Section MapLoops.
Context {V : Type}.

Lemma delete_absent (k : string) (m : JSMap.t V) :
  ~ In k (JSMap.keys m) -> JSMap.delete k m = m.
Proof.
  intros Hk. unfold JSMap.delete. apply filter_all.
  intros [k' v'] Hin. simpl.
  destruct (String.eqb_spec k' k) as [-> | _]; [|reflexivity].
  exfalso. apply Hk. unfold JSMap.keys.
  now apply (List.in_map fst) in Hin.
Qed.

Lemma delete_middle (k : string) (v : V) (p rest : JSMap.t V) :
  ~ In k (JSMap.keys p) -> ~ In k (JSMap.keys rest) ->
  JSMap.delete k (p ++ (k, v) :: rest) = p ++ rest.
Proof.
  intros Hp Hrest.
  pose proof (delete_absent k p Hp) as Hdp.
  pose proof (delete_absent k rest Hrest) as Hdr.
  unfold JSMap.delete in *.
  rewrite List.filter_app, Hdp.
  change (List.filter (fun e => negb (String.eqb (fst e) k)) ((k, v) :: rest))
    with (if negb (String.eqb k k)
          then (k, v) :: List.filter (fun e => negb (String.eqb (fst e) k)) rest
          else List.filter (fun e => negb (String.eqb (fst e) k)) rest).
  now rewrite String.eqb_refl, Hdr.
Qed.

Lemma set_middle (k : string) (v v' : V) (p rest : JSMap.t V) :
  ~ In k (JSMap.keys p) ->
  JSMap.set k v' (p ++ (k, v) :: rest) = p ++ (k, v') :: rest.
Proof.
  induction p as [|[k0 v0] p IH]; simpl; intros Hp.
  - now rewrite String.eqb_refl.
  - destruct (String.eqb_spec k0 k) as [-> | Hne]; [exfalso; auto|].
    rewrite IH; auto.
Qed.

(** A loop over the entries of a [Map] that only deletes or overwrites the
    entry it is visiting rebuilds the map entry by entry. *)
Lemma keyed_pass (action : string * V -> MapAction V) (l : JSMap.t V) :
  forall p,
    List.NoDup (JSMap.keys (p ++ l)) ->
    List.fold_left (fun m e => act m e (action e)) l (p ++ l)
    = p ++ List.flat_map (fun e => outcome e (action e)) l.
Proof.
  induction l as [|[k v] l IH]; intros p Hnd; simpl; [reflexivity|].
  assert (Hkeys : ~ In k (JSMap.keys p) /\ ~ In k (JSMap.keys l)
                  /\ List.NoDup (JSMap.keys (p ++ l))).
  { unfold JSMap.keys in *. rewrite List.map_app in Hnd. simpl in Hnd.
    pose proof (List.NoDup_remove_1 _ _ _ Hnd) as H1.
    pose proof (List.NoDup_remove_2 _ _ _ Hnd) as H2.
    rewrite List.in_app_iff in H2. rewrite List.map_app. tauto. }
  destruct Hkeys as (Hp & Hl & Hnd').
  destruct (action (k, v)) as [|v'|] eqn:Ha; simpl.
  - rewrite delete_middle by assumption. now apply IH.
  - rewrite set_middle by assumption.
    change (p ++ (k, v') :: l) with (p ++ [(k, v')] ++ l).
    rewrite app_assoc, IH, <- app_assoc; [reflexivity|].
    unfold JSMap.keys in *. rewrite <- app_assoc, List.map_app. simpl.
    rewrite List.map_app in Hnd. exact Hnd.
  - change (p ++ (k, v) :: l) with (p ++ [(k, v)] ++ l).
    rewrite app_assoc, IH, <- app_assoc; [reflexivity|].
    rewrite <- app_assoc. exact Hnd.
Qed.

Lemma keyed_pass_whole (action : string * V -> MapAction V) (l : JSMap.t V) :
  JSMap.wf l ->
  List.fold_left (fun m e => act m e (action e)) l l
  = List.flat_map (fun e => outcome e (action e)) l.
Proof. intros Hwf. exact (keyed_pass action l [] Hwf). Qed.

(** Such a loop never introduces a key, and keeps the keys in order. *)
Lemma outcome_keys_wf (action : string * V -> MapAction V) (l : JSMap.t V) :
  JSMap.wf l ->
  JSMap.wf (List.flat_map (fun e => outcome e (action e)) l).
Proof.
  unfold JSMap.wf, JSMap.keys.
  induction l as [|[k v] l IH]; simpl; intros Hnd; [constructor|].
  inversion Hnd as [|? ? Hk Hnd']; subst.
  assert (Hsub : forall k', In k' (List.map fst
                    (List.flat_map (fun e => outcome e (action e)) l)) ->
                 In k' (List.map fst l)).
  { clear. induction l as [|[k0 v0] l IH]; simpl; [auto|].
    intros k'. rewrite List.map_app, List.in_app_iff.
    intros [Hin | Hin]; [|right; now apply IH].
    destruct (action (k0, v0)); simpl in Hin; tauto. }
  rewrite List.map_app.
  destruct (action (k, v)); simpl; auto; constructor; auto.
Qed.

End MapLoops.

(** ** What the two loops of the pruner compute *)

Lemma fresh_not_expired now task :
  (now - startedAt task <=? TASK_TTL_MS) = negb (expired now task).
Proof. unfold expired. rewrite Z.gtb_ltb. apply Z.leb_antisym. Qed.

Lemma len_zero {A : Type} (l : list A) : (len l =? 0) = true <-> l = [].
Proof.
  unfold len. rewrite Z.eqb_eq. destruct l; simpl; split; intros H;
    try reflexivity; try discriminate; lia.
Qed.

Lemma keep_queues_ext f g notifs :
  (forall task, f task = g task) -> keep_queues f notifs = keep_queues g notifs.
Proof.
  intros Hfg. unfold keep_queues.
  induction notifs as [|[k q] l IH]; simpl; [reflexivity|].
  rewrite IH. now rewrite (List.filter_ext f g Hfg).
Qed.

Lemma filter_filter {A : Type} (f g : A -> bool) (l : list A) :
  List.filter f (List.filter g l) = List.filter (fun x => g x && f x) l.
Proof.
  induction l as [|x l IH]; simpl; [reflexivity|].
  destruct (g x); simpl; [destruct (f x)|]; now rewrite IH.
Qed.

Lemma keep_queues_compose f g notifs :
  keep_queues f (keep_queues g notifs)
  = keep_queues (fun task => g task && f task) notifs.
Proof.
  unfold keep_queues.
  induction notifs as [|[k q] l IH]; simpl; [reflexivity|].
  rewrite <- IH, <- filter_filter.
  destruct (len (List.filter g q) =? 0) eqn:Hg; simpl.
  - apply len_zero in Hg. rewrite Hg. reflexivity.
  - destruct (len (List.filter f (List.filter g q)) =? 0); reflexivity.
Qed.

Lemma keep_queues_wf f notifs :
  JSMap.wf notifs -> JSMap.wf (keep_queues f notifs).
Proof.
  intros Hwf.
  apply (outcome_keys_wf
           (fun e => let q := List.filter f (snd e) in
                     if len q =? 0 then Drop else Put q)) in Hwf.
  unfold keep_queues.
  erewrite List.flat_map_ext; [exact Hwf|].
  intros [k q]. simpl. destruct (len (List.filter f q) =? 0); reflexivity.
Qed.

Lemma fold_left_ext {A B : Type} (f g : A -> B -> A) (l : list B) :
  (forall a b, f a b = g a b) ->
  forall a, List.fold_left f l a = List.fold_left g l a.
Proof.
  intros Hfg. induction l as [|b l IH]; intros a; simpl; [reflexivity|].
  now rewrite Hfg, IH.
Qed.

(** [clearNotificationsForTask] as an action on the visited queue. *)
Lemma clear_step_act taskId notifs e :
  clear_step taskId notifs e
  = act notifs e
      (let q := List.filter (fun t => negb (String.eqb (id t) taskId))
                            (snd e) in
       if len q =? 0 then Drop else Put q).
Proof. unfold clear_step. simpl. destruct (len _ =? 0); reflexivity. Qed.

Lemma clearNotificationsForTask_spec taskId notifs :
  JSMap.wf notifs ->
  clearNotificationsForTask taskId notifs
  = keep_queues (fun t => negb (String.eqb (id t) taskId)) notifs.
Proof.
  intros Hwf. unfold clearNotificationsForTask.
  rewrite (fold_left_ext _ _ notifs (clear_step_act taskId)).
  rewrite (keyed_pass_whole _ notifs Hwf).
  unfold keep_queues. apply List.flat_map_ext. intros [k q]. simpl.
  destruct (len _ =? 0); reflexivity.
Qed.

Lemma count_queued_ext p p' notifs :
  (forall task, p task = p' task) ->
  count_queued p notifs = count_queued p' notifs.
Proof.
  intros Hp. unfold count_queued.
  induction notifs as [|[k q] l IH]; simpl; [reflexivity|].
  now rewrite IH, (List.filter_ext p p' Hp).
Qed.

Lemma count_queued_keep p g notifs :
  count_queued p (keep_queues g notifs)
  = count_queued (fun task => g task && p task) notifs.
Proof.
  unfold count_queued, keep_queues.
  induction notifs as [|[k q] l IH]; simpl; [reflexivity|].
  rewrite <- IH, <- filter_filter.
  destruct (len (List.filter g q) =? 0) eqn:Hg; simpl; [|reflexivity].
  apply len_zero in Hg. rewrite Hg. reflexivity.
Qed.

(** Clearing the notifications of several tasks, one after the other, seen
    through a later filter or count. *)
Lemma clear_many_spec ids :
  forall notifs,
    JSMap.wf notifs ->
    let cleared :=
      List.fold_left (fun n k => clearNotificationsForTask k n) ids notifs in
    JSMap.wf cleared
    /\ (forall f, keep_queues f cleared
                  = keep_queues (fun t => negb (carries ids t) && f t) notifs)
    /\ (forall p, count_queued p cleared
                  = count_queued (fun t => negb (carries ids t) && p t) notifs).
Proof.
  induction ids as [|k ids IH]; intros notifs Hwf; simpl.
  - split; [exact Hwf|]. split; intros f.
    + now apply keep_queues_ext.
    + now apply count_queued_ext.
  - rewrite clearNotificationsForTask_spec by exact Hwf.
    destruct (IH (keep_queues (fun t => negb (String.eqb (id t) k)) notifs))
      as (Hwf' & Hkeep & Hcount); [now apply keep_queues_wf|].
    split; [exact Hwf'|]. split; intros f.
    + rewrite Hkeep, keep_queues_compose. apply keep_queues_ext.
      intros t. unfold carries. simpl.
      destruct (String.eqb (id t) k); reflexivity.
    + rewrite Hcount, count_queued_keep. apply count_queued_ext.
      intros t. unfold carries. simpl.
      destruct (String.eqb (id t) k); reflexivity.
Qed.

Lemma len_filter_split {A : Type} (f : A -> bool) (l : list A) :
  len l - len (List.filter f l) = len (List.filter (fun x => negb (f x)) l).
Proof.
  unfold len. induction l as [|x l IH]; simpl; [reflexivity|].
  destruct (f x); simpl; lia.
Qed.

(** The action of the second loop on the queue it visits. *)
Lemma sweep_step_act now c notifs e :
  prune_notification_step now (c, notifs) e
  = (c + len (List.filter (expired now) (snd e)),
     act notifs e
       (let q := List.filter (fun t => negb (expired now t)) (snd e) in
        if len (snd e) =? 0 then Drop
        else if len q =? 0 then Drop
        else if negb (len q =? len (snd e)) then Put q else Keep)).
Proof.
  unfold prune_notification_step.
  rewrite (List.filter_ext _ _ (fresh_not_expired now)).
  destruct (len (snd e) =? 0) eqn:Hq.
  - apply len_zero in Hq. rewrite Hq. simpl. f_equal. unfold len. simpl. lia.
  - rewrite len_filter_split.
    rewrite (List.filter_ext (fun x => negb (negb (expired now x)))
                             (expired now))
      by (intros x; apply negb_involutive).
    simpl.
    destruct (len (List.filter _ (snd e)) =? 0); [reflexivity|].
    destruct (negb _); reflexivity.
Qed.

Lemma sweep_loop now l :
  forall c notifs,
    List.fold_left (prune_notification_step now) l (c, notifs)
    = (c + count_queued (expired now) l,
       List.fold_left
         (fun m e =>
            act m e
              (let q := List.filter (fun t => negb (expired now t)) (snd e) in
               if len (snd e) =? 0 then Drop
               else if len q =? 0 then Drop
               else if negb (len q =? len (snd e)) then Put q else Keep))
         l notifs).
Proof.
  induction l as [|e l IH]; intros c notifs; cbn [List.fold_left].
  - unfold count_queued. simpl. f_equal. lia.
  - rewrite sweep_step_act, IH. unfold count_queued. simpl. f_equal. lia.
Qed.

Lemma sweep_spec now notifs c :
  JSMap.wf notifs ->
  List.fold_left (prune_notification_step now) notifs (c, notifs)
  = (c + count_queued (expired now) notifs,
     keep_queues (fun t => negb (expired now t)) notifs).
Proof.
  intros Hwf. rewrite sweep_loop, (keyed_pass_whole _ notifs Hwf).
  f_equal. unfold keep_queues. apply List.flat_map_ext. intros [k q]. simpl.
  destruct (len q =? 0) eqn:Hq.
  - apply len_zero in Hq. subst q. reflexivity.
  - destruct (len (List.filter _ q) =? 0) eqn:Hv; [reflexivity|].
    destruct (len (List.filter _ q) =? len q) eqn:Hsame; simpl; [|reflexivity].
    apply Z.eqb_eq in Hsame. unfold len in Hsame.
    rewrite filter_same_length by lia. reflexivity.
Qed.

Lemma prune_tasks_loop now l :
  forall a,
    List.fold_left (prune_task_step now) l a
    = let ids := List.map fst
                   (List.filter (fun e => expired now (snd e)) l) in
      {| acc_pruned := acc_pruned a ++ ids;
         acc_tasks :=
           List.fold_left
             (fun m e => act m e (if expired now (snd e) then Drop else Keep))
             l (acc_tasks a);
         acc_notifs :=
           List.fold_left (fun n k => clearNotificationsForTask k n) ids
                          (acc_notifs a) |}.
Proof.
  induction l as [|e l IH]; intros [pruned ts ns]; simpl.
  - now rewrite app_nil_r.
  - rewrite IH. unfold prune_task_step, expired. simpl.
    destruct (now - startedAt (snd e) >? TASK_TTL_MS); simpl.
    + now rewrite <- app_assoc.
    + reflexivity.
Qed.

Lemma prune_tasks_kept now (l : JSMap.t BackgroundTask) :
  List.flat_map
    (fun e => outcome e (if expired now (snd e) then Drop else Keep)) l
  = List.filter (fun e => negb (expired now (snd e))) l.
Proof.
  induction l as [|e l IH]; simpl; [reflexivity|].
  rewrite IH. destruct (expired now (snd e)); reflexivity.
Qed.

Lemma getNotificationCount_sum (l : list (list BackgroundTask)) :
  forall c,
    List.fold_left (fun count queue => count + len queue) l c
    = c + List.fold_right (fun q n => len q + n) 0 l.
Proof.
  induction l as [|q l IH]; intros c; simpl; [lia|]. rewrite IH. lia.
Qed.

Lemma getNotificationCount_queued m :
  getNotificationCount m = count_queued (fun _ => true) (notifications m).
Proof.
  unfold getNotificationCount. rewrite getNotificationCount_sum.
  unfold count_queued, JSMap.values.
  induction (notifications m) as [|[k q] l IH]; simpl; [reflexivity|].
  rewrite (filter_all _ q) by reflexivity. simpl in IH. lia.
Qed.

Lemma count_queued_split p g notifs :
  count_queued p notifs
  = count_queued (fun t => g t && p t) notifs
    + count_queued (fun t => negb (g t) && p t) notifs.
Proof.
  unfold count_queued.
  induction notifs as [|[k q] l IH]; simpl; [reflexivity|].
  rewrite IH.
  assert (Hq : len (List.filter p q)
               = len (List.filter (fun t => g t && p t) q)
                 + len (List.filter (fun t => negb (g t) && p t) q)).
  { unfold len. clear. induction q as [|t q IH]; simpl; [reflexivity|].
    destruct (g t), (p t); simpl; lia. }
  lia.
Qed.

(** The pruner in closed form.  [ids] are the keys of the expired tasks. *)
Theorem pruneStaleTasksAndNotifications_spec (now : Z)
    (m : MockBackgroundManager) :
  JSMap.wf (tasks m) -> JSMap.wf (notifications m) ->
  let ids := List.map fst
               (List.filter (fun e => expired now (snd e)) (tasks m)) in
  let result := fst (pruneStaleTasksAndNotifications now m) in
  let m' := snd (pruneStaleTasksAndNotifications now m) in
  prunedTasks result = ids
  /\ tasks m' = List.filter (fun e => negb (expired now (snd e))) (tasks m)
  /\ notifications m'
     = keep_queues (fun t => negb (carries ids t) && negb (expired now t))
                   (notifications m)
  /\ prunedNotifications result
     = count_queued (fun t => negb (carries ids t) && expired now t)
                    (notifications m)
  /\ getNotificationCount m - getNotificationCount m'
     = prunedNotifications result
       + count_queued (carries ids) (notifications m)
  /\ resumeCalls m' = resumeCalls m.
Proof.
  intros Hwt Hwn ids result m'.
  unfold result, m', pruneStaleTasksAndNotifications.
  rewrite prune_tasks_loop. cbn [acc_pruned acc_tasks acc_notifs].
  fold ids.
  destruct (clear_many_spec ids (notifications m) Hwn)
    as (Hwf' & Hkeep & Hcount).
  set (cleared := List.fold_left _ ids (notifications m)) in *.
  rewrite (sweep_spec now cleared 0 Hwf').
  cbn [fst snd prunedTasks prunedNotifications tasks notifications
       resumeCalls].
  rewrite (keyed_pass_whole _ (tasks m) Hwt), prune_tasks_kept.
  rewrite Hkeep, Hcount.
  split; [reflexivity|]. split; [reflexivity|]. split; [reflexivity|].
  split; [lia|]. split; [|reflexivity].
  rewrite !getNotificationCount_queued.
  cbn [notifications]. rewrite count_queued_keep.
  rewrite (count_queued_split (fun _ => true) (carries ids) (notifications m)).
  rewrite (count_queued_split (fun t => negb (carries ids t) && true)
             (expired now) (notifications m)).
  rewrite (count_queued_ext
             (fun t => carries ids t && true) (carries ids))
    by (intros t; apply andb_true_r).
  rewrite (count_queued_ext
             (fun t => expired now t && (negb (carries ids t) && true))
             (fun t => negb (carries ids t) && expired now t))
    by (intros t; destruct (expired now t), (carries ids t); reflexivity).
  rewrite (count_queued_ext
             (fun t => negb (expired now t) && (negb (carries ids t) && true))
             (fun t => (negb (carries ids t) && negb (expired now t)) && true))
    by (intros t; destruct (expired now t), (carries ids t); reflexivity).
  lia.
Qed.

(** ** The maps of a manager stay well formed *)

Lemma set_keys {V : Type} (k : string) (v : V) (m : JSMap.t V) :
  JSMap.keys (JSMap.set k v m)
  = if List.existsb (String.eqb k) (JSMap.keys m) then JSMap.keys m
    else JSMap.keys m ++ [k].
Proof.
  induction m as [|[k' v'] m IH]; simpl; [reflexivity|].
  rewrite (String.eqb_sym k k').
  destruct (String.eqb k' k) eqn:Hk; simpl; [reflexivity|].
  unfold JSMap.keys in *. rewrite IH.
  destruct (List.existsb _ _); reflexivity.
Qed.

Lemma set_wf {V : Type} (k : string) (v : V) (m : JSMap.t V) :
  JSMap.wf m -> JSMap.wf (JSMap.set k v m).
Proof.
  unfold JSMap.wf. intros Hwf. rewrite set_keys.
  destruct (List.existsb (String.eqb k) (JSMap.keys m)) eqn:Hex; [exact Hwf|].
  apply List.NoDup_app; [exact Hwf | repeat constructor; intros [] |].
  intros x Hx [Heq | []]. subst x.
  assert (List.existsb (String.eqb k) (JSMap.keys m) = true); [|congruence].
  apply List.existsb_exists. exists k. split; [exact Hx|].
  apply String.eqb_refl.
Qed.

Lemma addTask_wf task m :
  JSMap.wf (tasks m) -> JSMap.wf (tasks (addTask task m)).
Proof. apply set_wf. Qed.

Lemma markForNotification_wf task m :
  JSMap.wf (notifications m) ->
  JSMap.wf (notifications (markForNotification task m)).
Proof. apply set_wf. Qed.

(* ===================================================================== *)
(** * The registry and the notification queues as maps *)
(* ===================================================================== *)

Section MapAccess.
Context {V : Type}.

Lemma get_set_eq (k : string) (v : V) (m : JSMap.t V) :
  JSMap.get k (JSMap.set k v m) = Some v.
Proof.
  induction m as [|[k' v'] m IH]; simpl.
  - now rewrite String.eqb_refl.
  - destruct (String.eqb k' k) eqn:Hk; simpl; rewrite Hk; [reflexivity|].
    exact IH.
Qed.

Lemma get_set_ne (k k' : string) (v : V) (m : JSMap.t V) :
  k' <> k -> JSMap.get k' (JSMap.set k v m) = JSMap.get k' m.
Proof.
  intros Hne. induction m as [|[k0 v0] m IH]; simpl.
  - destruct (String.eqb_spec k k'); [congruence | reflexivity].
  - destruct (String.eqb_spec k0 k) as [-> | Hk0]; simpl.
    + destruct (String.eqb_spec k k'); [congruence | reflexivity].
    + destruct (String.eqb k0 k'); [reflexivity | exact IH].
Qed.

Lemma get_None_keys (k : string) (m : JSMap.t V) :
  JSMap.get k m = None <-> ~ In k (JSMap.keys m).
Proof.
  induction m as [|[k0 v0] m IH]; simpl; [tauto|].
  destruct (String.eqb_spec k0 k) as [-> | Hne].
  - split; [discriminate | intros H; exfalso; auto].
  - rewrite IH. unfold JSMap.keys. tauto.
Qed.

Lemma set_fresh (k : string) (v : V) (m : JSMap.t V) :
  JSMap.get k m = None -> JSMap.set k v m = m ++ [(k, v)].
Proof.
  induction m as [|[k0 v0] m IH]; simpl; [reflexivity|].
  destruct (String.eqb k0 k); [discriminate|].
  intros H. now rewrite IH.
Qed.

Lemma set_present_length (k : string) (v v0 : V) (m : JSMap.t V) :
  JSMap.get k m = Some v0 ->
  List.length (JSMap.set k v m) = List.length m
  /\ JSMap.keys (JSMap.set k v m) = JSMap.keys m.
Proof.
  induction m as [|[k1 v1] m IH]; simpl; [discriminate|].
  destruct (String.eqb k1 k); simpl; [auto|].
  intros H. destruct (IH H) as [-> Hk]. unfold JSMap.keys in *.
  now rewrite Hk.
Qed.

(** In a well-formed map an entry is what [get] returns for its key. *)
Lemma get_In (k : string) (v : V) (m : JSMap.t V) :
  JSMap.wf m -> (In (k, v) m <-> JSMap.get k m = Some v).
Proof.
  unfold JSMap.wf, JSMap.keys.
  induction m as [|[k0 v0] m IH]; simpl; intros Hwf.
  - split; [intros [] | discriminate].
  - inversion Hwf as [|? ? Hk0 Hwf']; subst.
    destruct (String.eqb_spec k0 k) as [-> | Hne].
    + split.
      * intros [Heq | Hin]; [congruence|].
        exfalso. apply Hk0. now apply (List.in_map fst) in Hin.
      * intros Heq. left. congruence.
    + rewrite <- (IH Hwf'). split; [|auto].
      intros [Heq | Hin]; [congruence | exact Hin].
Qed.

(** Filtering on the values: what [get] sees afterwards. *)
Lemma get_filter (p : V -> bool) (k : string) (m : JSMap.t V) :
  JSMap.wf m ->
  JSMap.get k (List.filter (fun e => p (snd e)) m)
  = match JSMap.get k m with
    | Some v => if p v then Some v else None
    | None => None
    end.
Proof.
  unfold JSMap.wf, JSMap.keys.
  induction m as [|[k0 v0] m IH]; simpl; intros Hwf; [reflexivity|].
  inversion Hwf as [|? ? Hk0 Hwf']; subst.
  destruct (String.eqb_spec k0 k) as [-> | Hne].
  - destruct (p v0); simpl; [now rewrite String.eqb_refl|].
    rewrite (IH Hwf').
    assert (Hnone : JSMap.get k m = None) by now apply get_None_keys.
    now rewrite Hnone.
  - destruct (p v0); simpl.
    + destruct (String.eqb_spec k0 k); [contradiction | now apply IH].
    + now apply IH.
Qed.

Lemma delete_set_absent (k : string) (v : V) (m : JSMap.t V) :
  JSMap.get k m = None -> JSMap.delete k (JSMap.set k v m) = m.
Proof.
  intros H. rewrite (set_fresh k v m H).
  apply get_None_keys in H.
  replace (m ++ [(k, v)]) with (m ++ (k, v) :: []) by reflexivity.
  rewrite delete_middle; [apply app_nil_r | exact H | intros []].
Qed.

End MapAccess.

Lemma getTaskCount_length m :
  getTaskCount m = Z.of_nat (List.length (tasks m)).
Proof. reflexivity. Qed.

Lemma find_session_app s l l' :
  find_session s (l ++ l')
  = match find_session s l with
    | Some task => Some task
    | None => find_session s l'
    end.
Proof.
  induction l as [|t l IH]; simpl; [reflexivity|].
  destruct (String.eqb (sessionID t) s); [reflexivity | exact IH].
Qed.

(** What [get] sees after the queues were filtered. *)
Lemma get_keep_queues keep s notifs :
  JSMap.wf notifs ->
  JSMap.get s (keep_queues keep notifs)
  = match JSMap.get s notifs with
    | Some q => match List.filter keep q with
                | [] => None
                | q' => Some q'
                end
    | None => None
    end.
Proof.
  unfold JSMap.wf, JSMap.keys, keep_queues.
  induction notifs as [|[k q] l IH]; simpl; intros Hwf; [reflexivity|].
  inversion Hwf as [|? ? Hk Hwf']; subst.
  destruct (String.eqb_spec k s) as [-> | Hne].
  - destruct (List.filter keep q) as [|t q'] eqn:Hq; simpl.
    + rewrite (IH Hwf').
      assert (Hnone : JSMap.get s l = None) by now apply get_None_keys.
      now rewrite Hnone.
    + now rewrite String.eqb_refl.
  - destruct (len (List.filter keep q) =? 0); simpl.
    + now apply IH.
    + destruct (String.eqb_spec k s); [contradiction | now apply IH].
Qed.

Lemma keep_queues_nonempty keep notifs s q :
  In (s, q) (keep_queues keep notifs) -> q <> [].
Proof.
  unfold keep_queues. rewrite List.in_flat_map.
  intros ([k q0] & _ & Hin). simpl in Hin.
  destruct (len (List.filter keep q0) =? 0) eqn:Hq; [destruct Hin|].
  destruct Hin as [Heq | []]. inversion Heq; subst.
  intros Hnil. rewrite Hnil in Hq. discriminate.
Qed.

Lemma pending_keep_queues keep s notifs :
  JSMap.wf notifs ->
  default [] (JSMap.get s (keep_queues keep notifs))
  = List.filter keep (default [] (JSMap.get s notifs)).
Proof.
  intros Hwf. rewrite get_keep_queues by exact Hwf.
  destruct (JSMap.get s notifs) as [q|]; [|reflexivity].
  simpl. destruct (List.filter keep q); reflexivity.
Qed.

Lemma manager_ext (a b : MockBackgroundManager) :
  tasks a = tasks b -> notifications a = notifications b ->
  resumeCalls a = resumeCalls b -> a = b.
Proof. destruct a, b; simpl; intros -> -> ->; reflexivity. Qed.

Lemma filter_wf {V : Type} (p : string * V -> bool) (m : JSMap.t V) :
  JSMap.wf m -> JSMap.wf (List.filter p m).
Proof.
  unfold JSMap.wf, JSMap.keys.
  induction m as [|e l IH]; simpl; intros Hwf; [constructor|].
  inversion Hwf as [|? ? Hk Hwf']; subst.
  destruct (p e); simpl; [|auto].
  constructor; [|auto].
  intros Hin. apply Hk. apply List.in_map_iff in Hin as (e' & He' & Hin).
  apply List.filter_In in Hin as [Hin _].
  apply List.in_map_iff. eauto.
Qed.

Lemma count_queued_none p notifs :
  (forall task, p task = false) -> count_queued p notifs = 0.
Proof.
  intros Hp. unfold count_queued.
  induction notifs as [|[k q] l IH]; simpl; [reflexivity|].
  rewrite IH.
  assert (Hq : List.filter p q = []).
  { clear -Hp. induction q as [|t q IH]; simpl; [reflexivity|].
    now rewrite Hp. }
  now rewrite Hq.
Qed.

(** A task that is expired at some time is expired at every later time. *)
Lemma expired_mono now1 now2 task :
  now1 <= now2 -> expired now1 task = true -> expired now2 task = true.
Proof. unfold expired. rewrite !Z.gtb_lt. lia. Qed.

(** The ids pruned by a later prune are those of the earlier prune together
    with those the later one finds among the tasks the earlier one kept. *)
Lemma carries_cumulative now1 now2 (l : JSMap.t BackgroundTask) task :
  now1 <= now2 ->
  carries (List.map fst (List.filter (fun e => expired now2 (snd e)) l)) task
  = carries (List.map fst (List.filter (fun e => expired now1 (snd e)) l)) task
    || carries
         (List.map fst
            (List.filter (fun e => expired now2 (snd e))
               (List.filter (fun e => negb (expired now1 (snd e))) l))) task.
Proof.
  intros Hle. unfold carries.
  induction l as [|[k t] l IH]; simpl; [reflexivity|].
  destruct (expired now1 t) eqn:H1; simpl.
  - rewrite (expired_mono now1 now2 t Hle H1). simpl. rewrite IH.
    now rewrite orb_assoc.
  - destruct (expired now2 t); simpl; rewrite IH.
    + destruct (String.eqb (id task) k); simpl;
        [now rewrite orb_true_r | reflexivity].
    + reflexivity.
Qed.

(** ** What a mutation in place leaves alone *)

(** A search for another session id is not affected when every reference
    to the mutated object read the session id the object keeps. *)
Lemma find_session_mutated_other s' l task' :
  (forall t, In t l -> identity t = identity task' ->
             sessionID t = sessionID task') ->
  s' <> sessionID task' ->
  find_session s' (List.map (mutated task') l) = find_session s' l.
Proof.
  intros Hsame Hne. induction l as [|t l IH]; simpl; [reflexivity|].
  assert (IH' : find_session s' (List.map (mutated task') l)
                = find_session s' l).
  { apply IH. intros t0 Hin. apply Hsame. now right. }
  destruct (Nat.eqb_spec (identity t) (identity task')) as [Hid | Hid].
  - rewrite (mutated_same _ _ Hid), (Hsame t (or_introl eq_refl) Hid).
    destruct (String.eqb_spec (sessionID task') s'); [congruence | exact IH'].
  - rewrite (mutated_other _ _ Hid).
    destruct (String.eqb (sessionID t) s'); [reflexivity | exact IH'].
Qed.

Lemma mutated_In task' existing l :
  In existing l -> identity task' = identity existing ->
  In task' (List.map (mutated task') l).
Proof.
  intros Hin Hid. apply List.in_map_iff. exists existing.
  split; [apply mutated_same; now symmetry | exact Hin].
Qed.

(** Every reference after the mutation is the mutated object or a
    reference to another object, unchanged. *)
Lemma mutated_cases task' l a :
  In a (List.map (mutated task') l) ->
  a = task' \/ (In a l /\ identity a <> identity task').
Proof.
  intros Hin. apply List.in_map_iff in Hin as (t & <- & Hin).
  unfold mutated.
  destruct (Nat.eqb_spec (identity t) (identity task')); [now left|].
  right. auto.
Qed.

(** ** More on the descendant closure *)

Lemma descendant_trans m s child task :
  descendant m s child -> descendant m (sessionID child) task ->
  descendant m s task.
Proof.
  induction 1 as [s c Hreg Hpar | s c c' Hreg Hpar _ IH]; intros Hd.
  - now apply desc_hop with c.
  - apply desc_hop with c; auto.
Qed.

Lemma collect_descendants_child rec children result child :
  collect_descendants rec children = Some result -> In child children ->
  exists ds, rec (sessionID child) = Some ds.
Proof.
  revert result.
  induction children as [|c rest IH]; simpl; intros result H Hin;
    [destruct Hin|].
  destruct (rec (sessionID c)) as [ds|] eqn:Hc; [|discriminate].
  destruct (collect_descendants rec rest) as [r|] eqn:Hr; [|discriminate].
  destruct Hin as [<- | Hin]; [eauto|]. now apply (IH r).
Qed.

(** A call that returns has had every call below it return. *)
Lemma getAllDescendantTasks_subcalls fuel m :
  forall s result task,
    getAllDescendantTasks fuel m s = Some result -> In task result ->
    exists sub, getAllDescendantTasks fuel m (sessionID task) = Some sub.
Proof.
  induction fuel as [|f IH]; intros s result task H Hin; [discriminate|].
  pose proof H as H'. simpl in H'.
  apply (collect_descendants_In _ _ _ H') in Hin as (c & Hc & Ht).
  destruct Ht as [-> | (ds & Hds & Hin)].
  - destruct (collect_descendants_child _ _ _ c H' Hc) as [ds Hds].
    exists ds. apply getAllDescendantTasks_mono with f; [lia | exact Hds].
  - destruct (IH _ _ _ Hds Hin) as [sub Hsub].
    exists sub. apply getAllDescendantTasks_mono with f; [lia | exact Hsub].
Qed.

(* ===================================================================== *)
(** * The MCP client manager *)
(* ===================================================================== *)

(** ** Keys and prefixes *)

Lemma prefix_append (p r : string) : String.prefix p (p +:+ r) = true.
Proof.
  induction p as [|c p IH]; [now destruct r|].
  change (String c p +:+ r) with (String c (p +:+ r)). simpl.
  destruct (Ascii.ascii_dec c c); [exact IH | contradiction].
Qed.

Lemma prefix_split (p s : string) :
  String.prefix p s = true -> exists r, s = p +:+ r.
Proof.
  revert s. induction p as [|c p IH]; intros s H.
  - exists s. reflexivity.
  - destruct s as [|c' s]; [discriminate|]. simpl in H.
    destruct (Ascii.ascii_dec c c') as [<- | _]; [|discriminate].
    destruct (IH s H) as [r ->]. exists r. reflexivity.
Qed.

(** Where the first colon is tells the two sides apart. *)
Lemma colon_split (a a' r r' : string) :
  colon_free a = true -> colon_free a' = true ->
  a +:+ ":" +:+ r = a' +:+ ":" +:+ r' -> a = a' /\ r = r'.
Proof.
  revert a'. induction a as [|c a IH]; intros [|c' a'] Ha Ha' H.
  - change (String ":" r = String ":" r') in H. inversion H. auto.
  - change (String ":" r = String c' (a' +:+ ":" +:+ r')) in H.
    inversion H; subst. simpl in Ha'. discriminate.
  - change (String c (a +:+ ":" +:+ r) = String ":" r') in H.
    inversion H; subst. simpl in Ha. discriminate.
  - change (String c (a +:+ ":" +:+ r) = String c' (a' +:+ ":" +:+ r')) in H.
    inversion H; subst. simpl in Ha, Ha'.
    apply andb_true_iff in Ha as [_ Ha], Ha' as [_ Ha'].
    destruct (IH a' Ha Ha' H2) as [-> ->]. auto.
Qed.

Lemma key_of_session (info : SM.SkillMcpClientInfo) :
  SM.getClientKey info
  = (SM.info_sessionID info +:+ ":")
    +:+ (SM.info_skillName info +:+ ":" +:+ SM.info_serverName info).
Proof. unfold SM.getClientKey. now rewrite append_assoc. Qed.

(** The keys of a session all start with the session id and a colon, and
    among colon-free session ids only its own keys do. *)
Lemma key_prefix (s : string) (info : SM.SkillMcpClientInfo) :
  (SM.info_sessionID info = s ->
   String.prefix (s +:+ ":") (SM.getClientKey info) = true)
  /\ (colon_free s = true -> colon_free (SM.info_sessionID info) = true ->
      String.prefix (s +:+ ":") (SM.getClientKey info) = true ->
      SM.info_sessionID info = s).
Proof.
  split.
  - intros <-. rewrite key_of_session. apply prefix_append.
  - intros Hs Hi Hp. apply prefix_split in Hp as [r Hr].
    unfold SM.getClientKey in Hr. rewrite append_assoc in Hr.
    now destruct (colon_split _ _ _ _ Hi Hs Hr).
Qed.

(** ** The loops that drop clients *)

Lemma call_nil (st : SM.t) : SM.call [] st = st.
Proof. destruct st. unfold SM.call. simpl. now rewrite app_nil_r. Qed.

Lemma with_clients_same (st : SM.t) : SM.with_clients (SM.clients st) st = st.
Proof. now destruct st. Qed.

Lemma drop_loop (pred : string * SM.ManagedClient -> bool)
    (l : JSMap.t SM.ManagedClient) :
  forall st,
    List.fold_left (fun s e => if pred e then SM.drop_client s e else s) l st
    = SM.call (closes (List.map snd (List.filter pred l)))
        (SM.with_clients
           (List.fold_left
              (fun m e => act m e (if pred e then Drop else Keep))
              l (SM.clients st))
           st).
Proof.
  induction l as [|e l IH]; intros st; simpl.
  - now rewrite with_clients_same, call_nil.
  - rewrite IH. destruct (pred e); [|reflexivity].
    unfold SM.drop_client, SM.call, SM.with_clients. simpl.
    now rewrite <- app_assoc.
Qed.

Lemma drop_outcome {V : Type} (pred : string * V -> bool) (l : JSMap.t V) :
  List.flat_map (fun e => outcome e (if pred e then Drop else Keep)) l
  = List.filter (fun e => negb (pred e)) l.
Proof.
  induction l as [|e l IH]; simpl; [reflexivity|].
  rewrite IH. destruct (pred e); reflexivity.
Qed.

(** A drop loop on a well-formed map: the entries kept, the calls made. *)
Lemma drop_loop_spec (pred : string * SM.ManagedClient -> bool) (st : SM.t) :
  JSMap.wf (SM.clients st) ->
  List.fold_left (fun s e => if pred e then SM.drop_client s e else s)
                 (SM.clients st) st
  = SM.call (closes (List.map snd (List.filter pred (SM.clients st))))
      (SM.with_clients
         (List.filter (fun e => negb (pred e)) (SM.clients st)) st).
Proof.
  intros Hwf. rewrite drop_loop.
  now rewrite (keyed_pass_whole _ (SM.clients st) Hwf), drop_outcome.
Qed.

Lemma disconnectAll_spec (st : SM.t) :
  SM.disconnectAll st
  = SM.call (closes (JSMap.values (SM.clients st)))
      (SM.with_clients [] (SM.stopCleanupTimer st)).
Proof.
  unfold SM.disconnectAll.
  assert (Hc : SM.clients (SM.stopCleanupTimer st) = SM.clients st).
  { unfold SM.stopCleanupTimer. now destruct (SM.cleanupInterval st). }
  rewrite Hc.
  generalize (SM.with_clients [] (SM.stopCleanupTimer st)).
  induction (JSMap.values (SM.clients st)) as [|c l IH]; intros s; simpl.
  - now rewrite call_nil.
  - rewrite IH. unfold SM.call. simpl. now rewrite <- app_assoc.
Qed.

(** ** Creating a client *)

Section Creation.
Variable win32 : bool.
Variable validURL : string -> bool.
Variable connect : SM.Handle -> string -> SM.TransportSpec -> option string.
Variable createCleanMcpEnvironment :
  option (list (string * string)) -> list (string * string).
Variable expandEnvVarsInObject : SM.ClaudeCodeMcpServer -> SM.ClaudeCodeMcpServer.

Lemma registerProcessCleanup_spec (st : SM.t) :
  let st' := SM.registerProcessCleanup win32 st in
  SM.clients st' = SM.clients st
  /\ SM.pendingConnections st' = SM.pendingConnections st
  /\ SM.cleanupRegistered st' = true
  /\ SM.cleanupInterval st' = SM.cleanupInterval st
  /\ SM.fresh st' = SM.fresh st
  /\ SM.calls st' = SM.calls st ++ handler_calls win32 st.
Proof.
  unfold SM.registerProcessCleanup, handler_calls.
  destruct (SM.cleanupRegistered st) eqn:Hr; simpl.
  - rewrite app_nil_r. repeat split; auto.
  - repeat split; auto.
Qed.

Lemma startCleanupTimer_spec (st : SM.t) :
  let st' := SM.startCleanupTimer st in
  SM.clients st' = SM.clients st
  /\ SM.pendingConnections st' = SM.pendingConnections st
  /\ SM.cleanupRegistered st' = SM.cleanupRegistered st
  /\ SM.cleanupInterval st' <> None
  /\ SM.calls st' = SM.calls st ++ timer_calls st (SM.fresh st).
Proof.
  unfold SM.startCleanupTimer, timer_calls.
  destruct (SM.cleanupInterval st) eqn:Hi; simpl.
  - rewrite app_nil_r, Hi. repeat split; auto; discriminate.
  - repeat split; discriminate.
Qed.

(** A connection that fails: nothing is registered, the transport is
    closed. *)
Lemma connectAndRegister_refused now info kind spec failure st reason :
  connect (S (SM.fresh st)) (SM.clientName info) spec = Some reason ->
  exists st',
    SM.connectAndRegister win32 connect now info kind spec failure st
    = (st', Throws (failure reason))
    /\ SM.clients st' = SM.clients st
    /\ SM.pendingConnections st' = SM.pendingConnections st
    /\ SM.cleanupRegistered st' = true
    /\ SM.cleanupInterval st' = SM.cleanupInterval st
    /\ SM.fresh st' = S (S (SM.fresh st))
    /\ SM.calls st'
       = SM.calls st ++ handler_calls win32 st
         ++ [SM.Connect (SM.clientName info) (S (SM.fresh st)) (SM.fresh st)
                        spec;
             SM.CloseTransport (SM.fresh st)].
Proof.
  intros Hc.
  unfold SM.connectAndRegister, SM.registerProcessCleanup, handler_calls.
  destruct st as [c p r i f l]. destruct r; simpl in *; rewrite Hc;
    eexists; (split; [reflexivity|]); simpl;
    rewrite <- ?app_assoc, ?app_nil_r; repeat split.
Qed.

(** A connection that comes up: the client is registered under the key of
    [info], the handlers are installed and the idle timer runs. *)
Lemma connectAndRegister_connected now info kind spec failure st :
  connect (S (SM.fresh st)) (SM.clientName info) spec = None ->
  exists st',
    SM.connectAndRegister win32 connect now info kind spec failure st
    = (st', Returns (S (SM.fresh st)))
    /\ SM.clients st'
       = JSMap.set (SM.getClientKey info)
           {| SM.client := S (SM.fresh st); SM.transport := SM.fresh st;
              SM.skillName := SM.info_skillName info;
              SM.lastUsedAt := now; SM.connectionType := kind |}
           (SM.clients st)
    /\ SM.pendingConnections st' = SM.pendingConnections st
    /\ SM.cleanupRegistered st' = true
    /\ SM.cleanupInterval st' <> None
    /\ (S (S (SM.fresh st)) <= SM.fresh st')%nat
    /\ SM.calls st'
       = SM.calls st ++ handler_calls win32 st
         ++ [SM.Connect (SM.clientName info) (S (SM.fresh st)) (SM.fresh st)
                        spec]
         ++ timer_calls st (S (S (SM.fresh st))).
Proof.
  intros Hc.
  unfold SM.connectAndRegister, SM.registerProcessCleanup,
    SM.startCleanupTimer, handler_calls, timer_calls.
  destruct st as [c p r i f l]. destruct r, i; simpl in *; rewrite Hc;
    eexists; (split; [reflexivity|]); simpl;
    rewrite <- ?app_assoc, ?app_nil_r; repeat split; (discriminate || lia).
Qed.

(** A creation that fails: either the configuration is rejected and
    nothing has happened, or the connection was refused and its transport
    has been closed.  No client is registered. *)
Lemma createClient_throws now info config st st' message :
  SM.createClient win32 validURL connect createCleanMcpEnvironment
    now info config st = (st', Throws message) ->
  SM.clients st' = SM.clients st
  /\ SM.pendingConnections st' = SM.pendingConnections st
  /\ SM.cleanupInterval st' = SM.cleanupInterval st
  /\ (validation_message info message /\ st' = st
      \/ exists spec reason,
           connect (S (SM.fresh st)) (SM.clientName info) spec = Some reason
           /\ SM.cleanupRegistered st' = true
           /\ SM.fresh st' = S (S (SM.fresh st))
           /\ SM.calls st'
              = SM.calls st ++ handler_calls win32 st
                ++ [SM.Connect (SM.clientName info) (S (SM.fresh st))
                               (SM.fresh st) spec;
                    SM.CloseTransport (SM.fresh st)]).
Proof.
  assert (Hcr : forall kind spec failure,
             SM.connectAndRegister win32 connect now info kind spec failure st
             = (st', Throws message) ->
             SM.clients st' = SM.clients st
             /\ SM.pendingConnections st' = SM.pendingConnections st
             /\ SM.cleanupInterval st' = SM.cleanupInterval st
             /\ (validation_message info message /\ st' = st
                 \/ exists spec reason,
                   connect (S (SM.fresh st)) (SM.clientName info) spec
                   = Some reason
                   /\ SM.cleanupRegistered st' = true
                   /\ SM.fresh st' = S (S (SM.fresh st))
                   /\ SM.calls st'
                      = SM.calls st ++ handler_calls win32 st
                        ++ [SM.Connect (SM.clientName info) (S (SM.fresh st))
                                       (SM.fresh st) spec;
                            SM.CloseTransport (SM.fresh st)])).
  { intros kind spec failure H.
    destruct (connect (S (SM.fresh st)) (SM.clientName info) spec)
      as [reason|] eqn:Hc.
    - destruct (connectAndRegister_refused now info kind spec failure st
                  reason Hc) as (s & Hs & H1 & H2 & H3 & H4 & H5 & H6).
      rewrite Hs in H. inversion H; subst s.
      repeat split; auto. right. exists spec, reason. auto.
    - destruct (connectAndRegister_connected now info kind spec failure st Hc)
        as (s & Hs & _).
      rewrite Hs in H. discriminate. }
  assert (Hv : forall m, validation_message info m ->
                         ((st, Throws m) : SM.t * Outcome SM.Handle) = (st', Throws message) ->
             SM.clients st' = SM.clients st
             /\ SM.pendingConnections st' = SM.pendingConnections st
             /\ SM.cleanupInterval st' = SM.cleanupInterval st
             /\ (validation_message info message /\ st' = st
                 \/ exists spec reason,
                   connect (S (SM.fresh st)) (SM.clientName info) spec
                   = Some reason
                   /\ SM.cleanupRegistered st' = true
                   /\ SM.fresh st' = S (S (SM.fresh st))
                   /\ SM.calls st'
                      = SM.calls st ++ handler_calls win32 st
                        ++ [SM.Connect (SM.clientName info) (S (SM.fresh st))
                                       (SM.fresh st) spec;
                            SM.CloseTransport (SM.fresh st)])).
  { intros m Hm H. inversion H; subst. repeat split; auto. }
  unfold SM.createClient, SM.createHttpClient, SM.createStdioClient,
    validation_message in *.
  destruct (SM.getConnectionType config) as [[|]|].
  - destruct (SM.cfg_command config) as [command|]; [|apply Hv; auto].
    destruct (String.eqb command ""); [apply Hv; auto|]. apply Hcr.
  - destruct (SM.cfg_url config) as [url|]; [|apply Hv; auto].
    destruct (String.eqb url ""); [apply Hv; auto|].
    destruct (validURL url); simpl; [apply Hcr|].
    apply Hv. right. right. right. eauto.
  - apply Hv; auto.
Qed.

(** A creation that succeeds. *)
Lemma createClient_returns now info config st st' c :
  SM.createClient win32 validURL connect createCleanMcpEnvironment
    now info config st = (st', Returns c) ->
  exists kind spec,
    SM.getConnectionType config = Some kind
    /\ connect (S (SM.fresh st)) (SM.clientName info) spec = None
    /\ c = S (SM.fresh st)
    /\ SM.clients st'
       = JSMap.set (SM.getClientKey info)
           {| SM.client := S (SM.fresh st); SM.transport := SM.fresh st;
              SM.skillName := SM.info_skillName info;
              SM.lastUsedAt := now; SM.connectionType := kind |}
           (SM.clients st)
    /\ SM.pendingConnections st' = SM.pendingConnections st
    /\ SM.cleanupRegistered st' = true
    /\ SM.cleanupInterval st' <> None
    /\ (S (S (SM.fresh st)) <= SM.fresh st')%nat
    /\ SM.calls st'
       = SM.calls st ++ handler_calls win32 st
         ++ [SM.Connect (SM.clientName info) (S (SM.fresh st)) (SM.fresh st)
                        spec]
         ++ timer_calls st (S (S (SM.fresh st))).
Proof.
  assert (Hcr : forall kind spec failure,
             SM.getConnectionType config = Some kind ->
             SM.connectAndRegister win32 connect now info kind spec failure st
             = (st', Returns c) ->
             exists kind spec,
               SM.getConnectionType config = Some kind
               /\ connect (S (SM.fresh st)) (SM.clientName info) spec = None
               /\ c = S (SM.fresh st)
               /\ SM.clients st'
                  = JSMap.set (SM.getClientKey info)
                      {| SM.client := S (SM.fresh st);
                         SM.transport := SM.fresh st;
                         SM.skillName := SM.info_skillName info;
                         SM.lastUsedAt := now; SM.connectionType := kind |}
                      (SM.clients st)
               /\ SM.pendingConnections st' = SM.pendingConnections st
               /\ SM.cleanupRegistered st' = true
               /\ SM.cleanupInterval st' <> None
               /\ (S (S (SM.fresh st)) <= SM.fresh st')%nat
               /\ SM.calls st'
                  = SM.calls st ++ handler_calls win32 st
                    ++ [SM.Connect (SM.clientName info) (S (SM.fresh st))
                                   (SM.fresh st) spec]
                    ++ timer_calls st (S (S (SM.fresh st)))).
  { intros kind spec failure Hk H.
    destruct (connect (S (SM.fresh st)) (SM.clientName info) spec)
      as [reason|] eqn:Hc.
    - destruct (connectAndRegister_refused now info kind spec failure st
                  reason Hc) as (s & Hs & _).
      rewrite Hs in H. discriminate.
    - destruct (connectAndRegister_connected now info kind spec failure st Hc)
        as (s & Hs & H1 & H2 & H3 & H4 & H5 & H6).
      rewrite Hs in H. inversion H; subst s c.
      exists kind, spec. repeat split; auto. }
  unfold SM.createClient, SM.createHttpClient, SM.createStdioClient.
  destruct (SM.getConnectionType config) as [[|]|] eqn:Hk.
  - destruct (SM.cfg_command config) as [command|]; [|discriminate].
    destruct (String.eqb command ""); [discriminate|]. now apply Hcr.
  - destruct (SM.cfg_url config) as [url|]; [|discriminate].
    destruct (String.eqb url ""); [discriminate|].
    destruct (validURL url); simpl; [now apply Hcr | discriminate].
  - discriminate.
Qed.

Lemma createClient_pending now info config st :
  SM.pendingConnections
    (fst (SM.createClient win32 validURL connect createCleanMcpEnvironment
            now info config st))
  = SM.pendingConnections st.
Proof.
  destruct (SM.createClient win32 validURL connect createCleanMcpEnvironment
              now info config st) as [st' [message|c]] eqn:H; simpl.
  - now destruct (createClient_throws _ _ _ _ _ _ H) as (_ & Hp & _).
  - now destruct (createClient_returns _ _ _ _ _ _ H)
      as (? & ? & _ & _ & _ & _ & Hp & _).
Qed.

(** ** Getting a client *)

Lemma getOrCreateClient_existing now info config st e :
  JSMap.get (SM.getClientKey info) (SM.clients st) = Some e ->
  SM.getOrCreateClient win32 validURL connect createCleanMcpEnvironment
    expandEnvVarsInObject now info config st
  = (SM.with_clients
       (JSMap.set (SM.getClientKey info) (touched now e) (SM.clients st)) st,
     Returns (SM.GotClient (SM.client e))).
Proof. intros H. unfold SM.getOrCreateClient. now rewrite H. Qed.

(** With no client and no connection in progress, [getOrCreateClient] is
    [createClient] on the expanded configuration; the entry of
    [pendingConnections] is gone when it ends. *)
Lemma getOrCreateClient_absent now info config st :
  JSMap.get (SM.getClientKey info) (SM.clients st) = None ->
  JSMap.get (SM.getClientKey info) (SM.pendingConnections st) = None ->
  SM.getOrCreateClient win32 validURL connect createCleanMcpEnvironment
    expandEnvVarsInObject now info config st
  = (fst (SM.createClient win32 validURL connect createCleanMcpEnvironment
            now info (expandEnvVarsInObject config) (snd (SM.alloc st))),
     match snd (SM.createClient win32 validURL connect
                  createCleanMcpEnvironment now info
                  (expandEnvVarsInObject config) (snd (SM.alloc st))) with
     | Returns c => Returns (SM.GotClient c)
     | Throws message => Throws message
     end).
Proof.
  intros Hc Hp. unfold SM.getOrCreateClient. rewrite Hc, Hp.
  cbn [SM.alloc snd].
  pose proof (createClient_pending now info (expandEnvVarsInObject config)
                (snd (SM.alloc st))) as Hpend.
  cbn [SM.alloc snd SM.pendingConnections] in Hpend.
  destruct (SM.createClient _ _ _ _ _ _ _ _) as [st1 result].
  cbn [fst snd] in *. f_equal.
  destruct st1 as [c p r i f l]. unfold SM.with_pending. simpl in *. subst p.
  now rewrite delete_set_absent.
Qed.

(** A call that throws has registered nothing under its key. *)
Lemma getOrCreateClient_throws now info config st st' message :
  SM.getOrCreateClient win32 validURL connect createCleanMcpEnvironment
    expandEnvVarsInObject now info config st = (st', Throws message) ->
  JSMap.get (SM.getClientKey info) (SM.clients st) = None
  /\ JSMap.get (SM.getClientKey info) (SM.pendingConnections st) = None
  /\ SM.createClient win32 validURL connect createCleanMcpEnvironment
       now info (expandEnvVarsInObject config) (snd (SM.alloc st))
     = (st', Throws message).
Proof.
  intros H.
  destruct (JSMap.get (SM.getClientKey info) (SM.clients st)) as [e|] eqn:Hc.
  { rewrite (getOrCreateClient_existing _ _ _ _ _ Hc) in H. discriminate. }
  destruct (JSMap.get (SM.getClientKey info) (SM.pendingConnections st))
    as [p|] eqn:Hp.
  { unfold SM.getOrCreateClient in H. rewrite Hc, Hp in H. discriminate. }
  rewrite (getOrCreateClient_absent _ _ _ _ Hc Hp) in H.
  destruct (SM.createClient _ _ _ _ _ _ _ _) as [st1 [m|c]];
    simpl in H; inversion H; subst. auto.
Qed.

(** The retry of [getOrCreateClientWithRetry] needs a client registered
    under the key after a failure; a failure registers none. *)
Lemma getOrCreateClientWithRetry_once now info config st :
  SM.getOrCreateClientWithRetry win32 validURL connect
    createCleanMcpEnvironment expandEnvVarsInObject now info config st
  = SM.getOrCreateClient win32 validURL connect createCleanMcpEnvironment
      expandEnvVarsInObject now info config st.
Proof.
  unfold SM.getOrCreateClientWithRetry.
  destruct (SM.getOrCreateClient _ _ _ _ _ _ _ _ _) as [st1 [message|got]]
    eqn:H; [|reflexivity].
  destruct (getOrCreateClient_throws _ _ _ _ _ _ H) as (Hc & _ & Hcreate).
  destruct (createClient_throws _ _ _ _ _ _ Hcreate) as (Hcl & _).
  cbn [SM.alloc snd SM.clients] in Hcl. now rewrite Hcl, Hc.
Qed.

End Creation.

(** ** What every state of the manager satisfies *)

Lemma count_calls_app p (a b : list SM.Call) :
  count_calls p (a ++ b) = (count_calls p a + count_calls p b)%nat.
Proof.
  unfold count_calls. now rewrite List.filter_app, List.length_app.
Qed.

Lemma count_calls_closes p (l : list SM.ManagedClient) :
  (forall h, p (SM.CloseClient h) = false) ->
  (forall h, p (SM.CloseTransport h) = false) ->
  count_calls p (closes l) = 0%nat.
Proof.
  intros Hc Ht. unfold count_calls.
  induction l as [|m l IH]; simpl; [reflexivity|].
  now rewrite Hc, Ht.
Qed.

Lemma closed_app (a b : list SM.Call) : closed (a ++ b) = closed a ++ closed b.
Proof. unfold closed. apply List.flat_map_app. Qed.

Lemma closed_closes (l : list SM.ManagedClient) : closed (closes l) = objects l.
Proof.
  induction l as [|m l IH]; simpl; [reflexivity|].
  unfold closed, closes, objects in *. simpl. now rewrite IH.
Qed.

Lemma closed_handlers win32 st : closed (handler_calls win32 st) = [].
Proof.
  unfold handler_calls.
  now destruct (SM.cleanupRegistered st), win32.
Qed.

Lemma closed_connect name c t spec (log : list SM.Call) :
  closed (SM.Connect name c t spec :: log) = closed log.
Proof. reflexivity. Qed.

Lemma closed_timer st timer : closed (timer_calls st timer) = [].
Proof. unfold timer_calls. now destruct (SM.cleanupInterval st). Qed.

(** The entries a drop loop removes and the ones it keeps are all the
    entries. *)
Lemma objects_split (pred : string * SM.ManagedClient -> bool)
    (l : JSMap.t SM.ManagedClient) :
  Permutation
    (objects (JSMap.values (List.filter (fun e => negb (pred e)) l))
     ++ objects (List.map snd (List.filter pred l)))
    (objects (JSMap.values l)).
Proof.
  unfold JSMap.values.
  induction l as [|e l IH]; simpl; [constructor|].
  destruct (pred e); simpl.
  - etransitivity; [symmetry; apply Permutation_middle|].
    constructor.
    etransitivity; [symmetry; apply Permutation_middle|].
    now constructor.
  - now do 2 constructor.
Qed.

(** Overwriting an entry with a touched copy keeps its objects. *)
Lemma objects_touched k now e (m : JSMap.t SM.ManagedClient) :
  JSMap.get k m = Some e ->
  objects (JSMap.values (JSMap.set k (touched now e) m))
  = objects (JSMap.values m).
Proof.
  unfold JSMap.values.
  induction m as [|[k0 v0] m IH]; simpl; [discriminate|].
  destruct (String.eqb k0 k); simpl.
  - intros H. inversion H; subst. reflexivity.
  - intros H. unfold objects in *. simpl. now rewrite (IH H).
Qed.

Lemma get_nil_absent {V : Type} (k : string) (m : JSMap.t V) :
  m = [] -> JSMap.get k m = None.
Proof. now intros ->. Qed.

Lemma get_some_nonempty {V : Type} (k : string) (v : V) (m : JSMap.t V) :
  JSMap.get k m = Some v -> m <> [].
Proof. now destruct m. Qed.

Lemma set_nonempty {V : Type} (k : string) (v : V) (m : JSMap.t V) :
  JSMap.set k v m <> [].
Proof. destruct m as [|[k0 v0] m]; simpl; [|destruct (String.eqb k0 k)]; discriminate. Qed.

(** *** The loops that drop clients *)

Lemma drop_invariant (pred : string * SM.ManagedClient -> bool) (st : SM.t) :
  skill_invariant st ->
  skill_invariant
    (List.fold_left (fun s e => if pred e then SM.drop_client s e else s)
                    (SM.clients st) st).
Proof.
  intros [Hwf Hp Hh Ht Hc]. rewrite (drop_loop_spec pred st Hwf).
  destruct st as [c p r i f l]. unfold SM.call, SM.with_clients. simpl in *.
  split; simpl.
  - now apply filter_wf.
  - exact Hp.
  - rewrite count_calls_app, count_calls_closes; [lia|..]; reflexivity.
  - rewrite !count_calls_app, !count_calls_closes; [lia|..]; reflexivity.
  - intros Hne. apply Hc. intros ->. now apply Hne.
Qed.

Lemma drop_handles (pred : string * SM.ManagedClient -> bool) (st : SM.t) :
  JSMap.wf (SM.clients st) -> handles_invariant st ->
  handles_invariant
    (List.fold_left (fun s e => if pred e then SM.drop_client s e else s)
                    (SM.clients st) st).
Proof.
  intros Hwf [Hd Hb]. rewrite (drop_loop_spec pred st Hwf).
  assert (Hperm :
            Permutation (handled st)
              (handled
                 (SM.call
                    (closes (List.map snd (List.filter pred (SM.clients st))))
                    (SM.with_clients
                       (List.filter (fun e => negb (pred e)) (SM.clients st))
                       st)))).
  { unfold handled. destruct st as [c p r i f l]. simpl.
    rewrite closed_app, closed_closes.
    rewrite <- (objects_split pred c).
    rewrite <- !app_assoc. apply Permutation_app_head.
    apply Permutation_app_comm. }
  split.
  - exact (Permutation_NoDup Hperm Hd).
  - refine (Permutation_Forall Hperm _). exact Hb.
Qed.

(** *** [disconnectAll] *)

Lemma disconnectAll_invariant (st : SM.t) :
  skill_invariant st -> skill_invariant (SM.disconnectAll st).
Proof.
  intros [Hwf Hp Hh Ht Hc]. rewrite disconnectAll_spec.
  unfold SM.stopCleanupTimer.
  destruct st as [c p r i f l]. simpl in *.
  destruct i as [timer|]; unfold SM.call, SM.with_clients; split; simpl;
    try (constructor; fail); try exact Hp; try (intros []; reflexivity);
    rewrite ?count_calls_app, ?count_calls_closes; try reflexivity;
    simpl; unfold count_calls in *; simpl; lia.
Qed.

Lemma disconnectAll_handles (st : SM.t) :
  handles_invariant st -> handles_invariant (SM.disconnectAll st).
Proof.
  intros [Hd Hb]. rewrite disconnectAll_spec.
  assert (Hperm :
            Permutation (handled st)
              (handled
                 (SM.call (closes (JSMap.values (SM.clients st)))
                    (SM.with_clients [] (SM.stopCleanupTimer st))))).
  { unfold handled, SM.stopCleanupTimer. destruct st as [c p r i f l].
    simpl. destruct i; simpl; rewrite ?closed_app, closed_closes; simpl;
      rewrite ?app_nil_r; apply Permutation_app_comm. }
  assert (Hf : SM.fresh
                 (SM.call (closes (JSMap.values (SM.clients st)))
                    (SM.with_clients [] (SM.stopCleanupTimer st)))
               = SM.fresh st).
  { unfold SM.stopCleanupTimer. now destruct (SM.cleanupInterval st). }
  split.
  - exact (Permutation_NoDup Hperm Hd).
  - rewrite Hf. refine (Permutation_Forall Hperm _). exact Hb.
Qed.

(** *** [getOrCreateClient] *)

Lemma handled_extend (L : list SM.Handle) (f f' : SM.Handle) (new : list SM.Handle) :
  List.NoDup L -> List.Forall (fun h => (h < f)%nat) L -> (f <= f')%nat ->
  List.NoDup new -> List.Forall (fun h => (f <= h < f')%nat) new ->
  List.NoDup (new ++ L) /\ List.Forall (fun h => (h < f')%nat) (new ++ L).
Proof.
  intros HL HbL Hff Hnew Hbnew.
  rewrite List.Forall_forall in HbL, Hbnew. split.
  - induction new as [|h new IH]; simpl; [exact HL|].
    inversion Hnew as [|? ? Hh Hnew']; subst.
    constructor.
    + intros Hin. apply List.in_app_or in Hin as [Hin | Hin]; [auto|].
      specialize (HbL h Hin). specialize (Hbnew h (or_introl eq_refl)). lia.
    + apply IH; [exact Hnew'|]. intros x Hx. apply Hbnew. now right.
  - apply List.Forall_forall. intros h Hin.
    apply List.in_app_or in Hin as [Hin | Hin].
    + specialize (Hbnew h Hin). lia.
    + specialize (HbL h Hin). lia.
Qed.

Section Reachable.
Variable win32 : bool.
Variable validURL : string -> bool.
Variable connect : SM.Handle -> string -> SM.TransportSpec -> option string.
Variable createCleanMcpEnvironment :
  option (list (string * string)) -> list (string * string).
Variable expandEnvVarsInObject : SM.ClaudeCodeMcpServer -> SM.ClaudeCodeMcpServer.

Lemma getOrCreateClient_invariant now info config st :
  skill_invariant st ->
  skill_invariant
    (fst (SM.getOrCreateClient win32 validURL connect
            createCleanMcpEnvironment expandEnvVarsInObject now info config
            st)).
Proof.
  intros [Hwf Hp Hh Ht Hc].
  destruct (JSMap.get (SM.getClientKey info) (SM.clients st)) as [e|] eqn:Hg.
  - rewrite (getOrCreateClient_existing _ _ _ _ _ now info config st e Hg).
    destruct st as [c p r i f l]. simpl in *. split; simpl; auto.
    + now apply set_wf.
    + intros _. apply Hc. now apply (get_some_nonempty _ _ _ Hg).
  - rewrite getOrCreateClient_absent;
      [|exact Hg | now apply get_nil_absent].
    cbn [fst].
    destruct (SM.createClient _ _ _ _ _ _ _ _) as [st' [message|cl]] eqn:Hcr;
      cbn [fst].
    + destruct (createClient_throws _ _ _ _ _ _ _ _ _ _ Hcr)
        as (H1 & H2 & H3 & [[_ ->] | (spec & reason & _ & Hr & _ & Hl)]).
      * destruct st as [c p r i f l]. simpl in *. now split.
      * destruct st as [c p r i f l], st' as [c' p' r' i' f' l'].
        unfold handler_calls in Hl. simpl in *. subst c' p' i' r' l'.
        split; simpl; auto.
        -- rewrite !count_calls_app.
           destruct r, win32; unfold count_calls in *; simpl in *; lia.
        -- rewrite !count_calls_app.
           destruct r, win32; unfold count_calls in *; simpl in *; lia.
        -- intros Hne. split; [reflexivity|]. now apply Hc.
    + destruct (createClient_returns _ _ _ _ _ _ _ _ _ _ Hcr)
        as (kind & spec & _ & _ & _ & H1 & H2 & H3 & H4 & _ & Hl).
      destruct st as [c p r i f l], st' as [c' p' r' i' f' l'].
      unfold handler_calls, timer_calls in Hl. simpl in *. subst c' p' r' l'.
      split; simpl; auto.
      * now apply set_wf.
      * rewrite !count_calls_app.
        destruct r, win32, i; unfold count_calls in *; simpl in *; lia.
      * rewrite !count_calls_app.
        destruct i' as [t'|]; [|contradiction].
        destruct r, win32, i; unfold count_calls in *; simpl in *; lia.
Qed.

Lemma getOrCreateClient_handles now info config st :
  skill_invariant st -> handles_invariant st ->
  handles_invariant
    (fst (SM.getOrCreateClient win32 validURL connect
            createCleanMcpEnvironment expandEnvVarsInObject now info config
            st)).
Proof.
  intros [Hwf Hp _ _ _] [Hd Hb].
  destruct (JSMap.get (SM.getClientKey info) (SM.clients st)) as [e|] eqn:Hg.
  - rewrite (getOrCreateClient_existing _ _ _ _ _ now info config st e Hg).
    unfold handled in *. destruct st as [c p r i f l]. simpl in *.
    split; unfold handled; simpl; now rewrite (objects_touched _ _ _ _ Hg).
  - rewrite getOrCreateClient_absent;
      [|exact Hg | now apply get_nil_absent].
    cbn [fst].
    destruct (SM.createClient _ _ _ _ _ _ _ _) as [st' [message|cl]] eqn:Hcr;
      cbn [fst].
    + destruct (createClient_throws _ _ _ _ _ _ _ _ _ _ Hcr)
        as (H1 & H2 & H3 & [[_ ->] | (spec & reason & _ & Hr & Hf & Hl)]).
      * destruct st as [c p r i f l]. unfold handled in *. simpl in *.
        split; [exact Hd|]. unfold handled. simpl.
        eapply List.Forall_impl; [|exact Hb]. simpl. intros; lia.
      * destruct st as [c p r i f l], st' as [c' p' r' i' f' l'].
        unfold handled in *. simpl in *. subst c' p' i' r' l' f'.
        enough (List.NoDup (objects (JSMap.values c) ++ closed l ++ [S f])
                /\ List.Forall (fun h => (h < S (S (S f)))%nat)
                     (objects (JSMap.values c) ++ closed l ++ [S f])) as [? ?].
        { split; unfold handled; simpl;
            rewrite !closed_app, closed_handlers; simpl; assumption. }
        destruct (handled_extend _ f (S (S (S f))) [S f] Hd Hb) as [Hn Hall].
        { lia. }
        { repeat constructor. intros []. }
        { repeat constructor; lia. }
        assert (Hperm : Permutation ([S f] ++ objects (JSMap.values c) ++ closed l)
                          (objects (JSMap.values c) ++ closed l ++ [S f])).
        { rewrite (app_assoc (objects (JSMap.values c))).
          apply Permutation_app_comm. }
        split.
        -- exact (Permutation_NoDup Hperm Hn).
        -- refine (Permutation_Forall Hperm _). exact Hall.
    + destruct (createClient_returns _ _ _ _ _ _ _ _ _ _ Hcr)
        as (kind & spec & _ & _ & _ & H1 & H2 & H3 & H4 & Hf & Hl).
      destruct st as [c p r i f l], st' as [c' p' r' i' f' l'].
      unfold handled in *. simpl in *. subst c' p' r' l'.
      enough (List.NoDup
                ((objects (JSMap.values c) ++ [S (S f); S f]) ++ closed l)
              /\ List.Forall (fun h => (h < f')%nat)
                   ((objects (JSMap.values c) ++ [S (S f); S f])
                    ++ closed l)) as [? ?].
      { split; unfold handled; simpl;
          rewrite (set_fresh _ _ _ Hg), !closed_app, closed_handlers,
            closed_connect, closed_timer; simpl; rewrite app_nil_r;
          unfold JSMap.values, objects in *;
          rewrite List.map_app, List.flat_map_app; simpl; assumption. }
      destruct (handled_extend _ f f' [S (S f); S f] Hd Hb) as [Hn Hall].
      { lia. }
      { repeat constructor; simpl; [intros [H|[]]; lia | intros []]. }
      { repeat constructor; lia. }
      assert (Hperm :
                Permutation
                  ([S (S f); S f] ++ objects (JSMap.values c) ++ closed l)
                  ((objects (JSMap.values c) ++ [S (S f); S f]) ++ closed l)).
      { rewrite app_assoc. apply Permutation_app_tail.
        apply Permutation_app_comm. }
      split.
      * exact (Permutation_NoDup Hperm Hn).
      * refine (Permutation_Forall Hperm _). exact Hall.
Qed.

(** Every call of a run keeps both invariants. *)
Lemma skill_step_invariant st o :
  skill_invariant st /\ handles_invariant st ->
  skill_invariant
    (skill_step win32 validURL connect createCleanMcpEnvironment
       expandEnvVarsInObject st o)
  /\ handles_invariant
       (skill_step win32 validURL connect createCleanMcpEnvironment
          expandEnvVarsInObject st o).
Proof.
  intros [Hs Hh]. destruct o as [now info config|s| |now]; simpl.
  - rewrite getOrCreateClientWithRetry_once.
    split; [now apply getOrCreateClient_invariant
           |now apply getOrCreateClient_handles].
  - split; [apply drop_invariant | apply drop_handles]; auto.
    now destruct Hs.
  - split; [now apply disconnectAll_invariant
           |now apply disconnectAll_handles].
  - split; [apply drop_invariant | apply drop_handles]; auto.
    now destruct Hs.
Qed.

Lemma skill_run_invariant ops st :
  skill_invariant st /\ handles_invariant st ->
  skill_invariant
    (List.fold_left
       (skill_step win32 validURL connect createCleanMcpEnvironment
          expandEnvVarsInObject) ops st)
  /\ handles_invariant
       (List.fold_left
          (skill_step win32 validURL connect createCleanMcpEnvironment
             expandEnvVarsInObject) ops st).
Proof.
  revert st. induction ops as [|o ops IH]; intros st H; simpl; [exact H|].
  apply IH. now apply skill_step_invariant.
Qed.

Lemma create_invariant :
  skill_invariant SM.create /\ handles_invariant SM.create.
Proof.
  split; split; simpl; try reflexivity; try constructor;
    match goal with H : [] <> [] |- _ => now contradiction H end.
Qed.

End Reachable.

(** ** Lookups after the operations *)

(** Filtering on the keys: what [get] sees afterwards. *)
Lemma get_filter_key {V : Type} (q : string -> bool) (k : string)
    (m : JSMap.t V) :
  JSMap.get k (List.filter (fun e => q (fst e)) m)
  = if q k then JSMap.get k m else None.
Proof.
  induction m as [|[k0 v0] m IH]; simpl; [now destruct (q k)|].
  destruct (String.eqb_spec k0 k) as [-> | Hne].
  - destruct (q k) eqn:Hq; simpl; [now rewrite String.eqb_refl | exact IH].
  - destruct (q k0); simpl; [|exact IH].
    destruct (String.eqb_spec k0 k); [contradiction | exact IH].
Qed.

Lemma disconnectSession_spec (s : string) (st : SM.t) :
  JSMap.wf (SM.clients st) ->
  SM.disconnectSession s st
  = SM.call
      (closes
         (List.map snd
            (List.filter (fun e => String.prefix (s +:+ ":") (fst e))
                         (SM.clients st))))
      (SM.with_clients
         (List.filter (fun e => negb (String.prefix (s +:+ ":") (fst e)))
                      (SM.clients st))
         st).
Proof.
  intros Hwf. unfold SM.disconnectSession.
  exact (drop_loop_spec (fun e => String.prefix (s +:+ ":") (fst e)) st Hwf).
Qed.

Lemma cleanupIdleClients_spec (now : Z) (st : SM.t) :
  JSMap.wf (SM.clients st) ->
  SM.cleanupIdleClients now st
  = SM.call
      (closes
         (List.map snd
            (List.filter
               (fun e => now - SM.lastUsedAt (snd e) >? SM.IDLE_TIMEOUT)
               (SM.clients st))))
      (SM.with_clients
         (List.filter
            (fun e => negb (now - SM.lastUsedAt (snd e) >? SM.IDLE_TIMEOUT))
            (SM.clients st))
         st).
Proof.
  intros Hwf. unfold SM.cleanupIdleClients.
  exact (drop_loop_spec
           (fun e => now - SM.lastUsedAt (snd e) >? SM.IDLE_TIMEOUT) st Hwf).
Qed.

(** An entry found by its key is among the values, so a loop that closes
    the entries of a kind closes it when it is of that kind. *)
Lemma closes_In (pred : string * SM.ManagedClient -> bool) k e
    (m : JSMap.t SM.ManagedClient) :
  JSMap.wf m -> JSMap.get k m = Some e -> pred (k, e) = true ->
  In (SM.CloseClient (SM.client e))
     (closes (List.map snd (List.filter pred m)))
  /\ In (SM.CloseTransport (SM.transport e))
        (closes (List.map snd (List.filter pred m))).
Proof.
  intros Hwf Hg Hp. apply (get_In k e m Hwf) in Hg.
  assert (Hin : In e (List.map snd (List.filter pred m))).
  { apply List.in_map_iff. exists (k, e). split; [reflexivity|].
    apply List.filter_In. auto. }
  unfold closes. split; apply List.in_flat_map; exists e; simpl; auto.
Qed.

Lemma handler_calls_alloc win32 st :
  handler_calls win32 (snd (SM.alloc st)) = handler_calls win32 st.
Proof. reflexivity. Qed.

Section Returned.
Variable win32 : bool.
Variable validURL : string -> bool.
Variable connect : SM.Handle -> string -> SM.TransportSpec -> option string.
Variable createCleanMcpEnvironment :
  option (list (string * string)) -> list (string * string).
Variable expandEnvVarsInObject : SM.ClaudeCodeMcpServer -> SM.ClaudeCodeMcpServer.

(** The client [getOrCreateClient] returns is the one registered under
    the key, used last at the time of the call. *)
Lemma getOrCreateClient_returns now info config st st1 c :
  SM.getOrCreateClient win32 validURL connect createCleanMcpEnvironment
    expandEnvVarsInObject now info config st
  = (st1, Returns (SM.GotClient c)) ->
  exists e,
    JSMap.get (SM.getClientKey info) (SM.clients st1) = Some e
    /\ SM.client e = c
    /\ SM.lastUsedAt e = now
    /\ (JSMap.wf (SM.clients st) -> JSMap.wf (SM.clients st1)).
Proof.
  intros H.
  destruct (JSMap.get (SM.getClientKey info) (SM.clients st)) as [e|] eqn:Hc.
  { rewrite (getOrCreateClient_existing _ _ _ _ _ _ _ _ _ _ Hc) in H.
    inversion H; subst. exists (touched now e). simpl.
    rewrite get_set_eq. repeat split. intros Hwf. now apply set_wf. }
  destruct (JSMap.get (SM.getClientKey info) (SM.pendingConnections st))
    as [p|] eqn:Hp.
  { unfold SM.getOrCreateClient in H. rewrite Hc, Hp in H. discriminate. }
  rewrite (getOrCreateClient_absent _ _ _ _ _ _ _ _ _ Hc Hp) in H.
  destruct (SM.createClient _ _ _ _ _ _ _ _) as [st' [m|c']] eqn:Hcr;
    simpl in H; inversion H; subst.
  destruct (createClient_returns _ _ _ _ _ _ _ _ _ _ Hcr)
    as (kind & spec & _ & _ & Hcl & Hcls & _).
  eexists. rewrite Hcls, get_set_eq. split; [reflexivity|].
  simpl. repeat split; [now symmetry|]. intros Hwf. now apply set_wf.
Qed.

End Returned.

Lemma nodup_app_disjoint {A : Type} (l k : list A) :
  List.NoDup (l ++ k) -> forall x, In x l -> ~ In x k.
Proof.
  induction l as [|a l IH]; simpl; intros Hn x Hin; [destruct Hin|].
  inversion Hn as [|? ? Ha Hn']; subst.
  destruct Hin as [-> | Hin]; [|now apply IH].
  intros Hk. apply Ha. apply List.in_or_app. now right.
Qed.

(** The objects of an entry found by its key are among the registered. *)
Lemma objects_In k e (m : JSMap.t SM.ManagedClient) :
  JSMap.get k m = Some e ->
  In (SM.client e) (objects (JSMap.values m))
  /\ In (SM.transport e) (objects (JSMap.values m)).
Proof.
  unfold JSMap.values, objects.
  induction m as [|[k0 v0] m IH]; simpl; [discriminate|].
  destruct (String.eqb k0 k).
  - intros H. inversion H; subst. auto.
  - intros H. destruct (IH H). auto.
Qed.

(* ===================================================================== *)
(** * The tests of the test file, replayed on the model *)
(* ===================================================================== *)

Example test_descendants_three_levels :
  getAllDescendantTasks 5 chainManager "session-a"
  = Some [taskB; taskC; taskD].
Proof. reflexivity. Qed.

Example test_direct_children_only :
  getTasksByParentSession chainManager "session-a" = [taskB].
Proof. reflexivity. Qed.

Example test_descendants_empty :
  getAllDescendantTasks 1 emptyManager "session-a" = Some [].
Proof. reflexivity. Qed.

Example test_prune_fresh_untouched :
  pruneStaleTasksAndNotifications pruneTime (addTask taskFresh emptyManager)
  = ({| prunedTasks := []; prunedNotifications := 0 |},
     addTask taskFresh emptyManager).
Proof. reflexivity. Qed.

Example test_prune_keeps_fresh_drops_stale :
  let pruned := pruneStaleTasksAndNotifications pruneTime managerMixed in
  prunedTasks (fst pruned) = ["task-stale"]
  /\ tasks (snd pruned) = [("task-fresh", taskFresh)]
  /\ notifications (snd pruned) = [("session-parent", [taskFresh])].
Proof. vm_compute. repeat split; reflexivity. Qed.

(** A task exactly at the retention window is not pruned. *)
Example test_prune_boundary :
  pruneStaleTasksAndNotifications TASK_TTL_MS (addTask taskStale emptyManager)
  = ({| prunedTasks := []; prunedNotifications := 0 |},
     addTask taskStale emptyManager).
Proof. reflexivity. Qed.

Example test_resume_not_found :
  resume 9 resumeInputMissing emptyManager
  = Throws "Task not found for session: non-existent".
Proof. reflexivity. Qed.

Example test_resume_running_ignored :
  resume 9 resumeInputA (addTask runningTaskA emptyManager)
  = Returns (addTask runningTaskA emptyManager, runningTaskA).
Proof. reflexivity. Qed.

Example test_resume_preserves_tool_calls :
  match resume 9 resumeInputA (addTask completedTaskA emptyManager) with
  | Returns (m', task') =>
      toolCallsOf task' = 42 /\ status task' = running
      /\ resumeCalls m' = [("session-a", "continue")]
  | Throws _ => False
  end.
Proof. vm_compute. repeat split; reflexivity. Qed.

(** "should unblock queued task even when prompt hangs": capacity 1, the
    second [acquire] waits, and the [release] admits it. *)
Example test_release_unblocks_waiter :
  CM.resolved gateOneWaiting = [("explore", 0%nat)]
  /\ CM.resolved (CM.release "explore" gateOneWaiting)
     = [("explore", 0%nat); ("explore", 1%nat)].
Proof. vm_compute. split; reflexivity. Qed.

(** "should release concurrency and clear key on completion" and "should
    prevent double completion and double release". *)
Example test_complete_twice :
  let first := BM.tryCompleteTask 10 ref0 managerIdle in
  let second := BM.tryCompleteTask 20 ref0 (snd first) in
  fst first = true
  /\ CM.getCount "explore" (BM.concurrencyManager (snd first)) = 0
  /\ fst second = false
  /\ CM.getCount "explore" (BM.concurrencyManager (snd second)) = 0.
Proof. vm_compute. repeat split; reflexivity. Qed.

(** "should release concurrency before abort": the task claims a key that
    the gate never granted; the release is then a no-op. *)
Example test_interrupt_releases_first :
  let bm := BM.checkAndInterruptStaleTasks pollTime managerStale in
  BM.effects bm = [BM.SlotReleased "test-agent"; BM.AbortStarted "session-3"]
  /\ (concurrencyKey <$> BM.objects bm !! ref0) = Some None
  /\ CM.getCount "test-agent" (BM.concurrencyManager bm) = 0.
Proof. vm_compute. repeat split; reflexivity. Qed.

(* ===================================================================== *)
(** * Claims on the task hierarchy *)
(* ===================================================================== *)

(** C8, as stated, fails on a registry with a cycle: in [loopManager] the
    task [loopQ] is reachable from "session-p" in one hop (and [loopP] in
    two), yet no depth of call stack lets [getAllDescendantTasks] return. *)
Lemma C8_counterexample :
  descendant loopManager "session-p" loopQ
  /\ descendant loopManager "session-p" loopP
  /\ ~ exists fuel result,
        getAllDescendantTasks fuel loopManager "session-p" = Some result.
Proof.
  assert (HQ : registered loopManager loopQ) by (right; left; reflexivity).
  assert (HP : registered loopManager loopP) by (left; reflexivity).
  split; [|split].
  - now apply desc_child.
  - apply desc_hop with loopQ; [exact HQ | reflexivity |].
    now apply desc_child.
  - intros (fuel & result & H).
    destruct (loopManager_diverges fuel) as [Hp _]. congruence.
Qed.

(** C8 (amended): for every task registry whose parentSessionID edges have
    no cycle, [getAllDescendantTasks(s)] returns, and the list it returns
    holds exactly the tasks reachable from [s] by one or more hops along the
    parentSessionID edge (so nothing from an unrelated subtree); for any
    registry it returns the empty list for a session with no children; and
    [getTasksByParentSession(s)] returns exactly the registered tasks whose
    parentSessionID is [s]. *)
Theorem C8_descendants_exact (m : MockBackgroundManager) (s : string) :
  (acyclic m ->
   exists result,
     (forall fuel, (List.length (tasks m) < fuel)%nat ->
                   getAllDescendantTasks fuel m s = Some result)
     /\ (forall task, In task result <-> descendant m s task))
  /\ ((forall task, registered m task -> parentSessionID task <> s) ->
      forall fuel, getAllDescendantTasks (S fuel) m s = Some [])
  /\ (forall task, In task (getTasksByParentSession m s)
                   <-> registered m task /\ parentSessionID task = s).
Proof.
  split; [|split].
  - intros Hacyc.
    destruct (getAllDescendantTasks_total m Hacyc s) as [result Hres].
    exists result. split.
    + intros fuel Hfuel.
      apply getAllDescendantTasks_mono with (S (List.length (tasks m)));
        [lia | exact Hres].
    + now apply getAllDescendantTasks_spec with (S (List.length (tasks m))).
  - intros Hnone fuel. simpl.
    assert (Hnil : getTasksByParentSession m s = []).
    { destruct (getTasksByParentSession m s) as [|c rest] eqn:Hc;
        [reflexivity|].
      assert (Hin : In c (getTasksByParentSession m s))
        by (rewrite Hc; now left).
      apply in_direct_children in Hin as [Hreg Hpar].
      now destruct (Hnone c Hreg). }
    now rewrite Hnil.
  - intros task. apply in_direct_children.
Qed.

(** C8 at the chain A -> B -> C -> D with an unrelated X -> Y: the
    descendants of "session-a" are exactly B, C and D. *)
Lemma C8_descendants_exact_witness :
  acyclic chainManager
  /\ getAllDescendantTasks 5 chainManager "session-a"
     = Some [taskB; taskC; taskD]
  /\ (forall task, In task [taskB; taskC; taskD]
                   <-> descendant chainManager "session-a" task)
  /\ getAllDescendantTasks 1 chainManager "session-d" = Some []
  /\ (forall task, In task (getTasksByParentSession chainManager "session-a")
                   <-> registered chainManager task
                       /\ parentSessionID task = "session-a").
Proof.
  split; [exact chainManager_acyclic|].
  destruct (C8_descendants_exact chainManager "session-a")
    as (Hclosure & _).
  destruct (Hclosure chainManager_acyclic) as (result & Hfuel & Hspec).
  assert (Hres : result = [taskB; taskC; taskD]).
  { specialize (Hfuel 5%nat). simpl in Hfuel.
    assert (H5 : (4 < 5)%nat) by lia. specialize (Hfuel H5).
    vm_compute in Hfuel. inversion Hfuel. reflexivity. }
  subst result. split; [reflexivity|]. split; [exact Hspec|].
  destruct (C8_descendants_exact chainManager "session-a")
    as (_ & _ & Hdirect).
  split; [|exact Hdirect].
  destruct (C8_descendants_exact chainManager "session-d")
    as (_ & Hempty & _).
  apply Hempty. intros task Hreg.
  apply chainManager_registered in Hreg as [-> | [-> | [-> | ->]]];
    vm_compute; discriminate.
Defined.

(** C10, as stated, fails on the case it names: with a self-parented task
    registered, [getAllDescendantTasks] on that task's session reaches any
    bound on the depth of its recursion, so the call never returns. *)
Lemma C10_counterexample :
  registered selfParentedManager selfParented
  /\ parentSessionID selfParented = sessionID selfParented
  /\ ~ exists fuel result,
        getAllDescendantTasks fuel selfParentedManager "session-s"
        = Some result.
Proof.
  assert (Hreg : registered selfParentedManager selfParented)
    by (left; reflexivity).
  split; [exact Hreg|]. split; [reflexivity|].
  intros (fuel & result & H).
  pose proof (getAllDescendantTasks_self_parented
                selfParentedManager selfParented Hreg eq_refl fuel) as Hnone.
  change (sessionID selfParented) with "session-s" in Hnone. congruence.
Qed.

(** C10 (amended): [getAllDescendantTasks(s)] terminates and returns a
    finite list for every finite task registry whose parentSessionID edges
    have no cycle: a call stack one deeper than the number of registered
    tasks is enough, and every deeper bound gives the same list.  The
    recursion is not guarded: on the session of a self-parented task the
    call reaches every bound on its depth and never returns. *)
Theorem C10_descendants_terminate (m : MockBackgroundManager) (s : string) :
  (acyclic m ->
   exists result,
     getAllDescendantTasks (S (List.length (tasks m))) m s = Some result
     /\ forall fuel, (List.length (tasks m) < fuel)%nat ->
                     getAllDescendantTasks fuel m s = Some result)
  /\ (forall task,
        registered m task -> parentSessionID task = sessionID task ->
        forall fuel, getAllDescendantTasks fuel m (sessionID task) = None).
Proof.
  split.
  - intros Hacyc.
    destruct (getAllDescendantTasks_total m Hacyc s) as [result Hres].
    exists result. split; [exact Hres|].
    intros fuel Hfuel.
    apply getAllDescendantTasks_mono with (S (List.length (tasks m)));
      [lia | exact Hres].
  - intros task. apply getAllDescendantTasks_self_parented.
Qed.

(** C10 at the chain A -> B -> C -> D, where the call on "session-a"
    returns, and at the self-parented task, where it does not. *)
Lemma C10_descendants_terminate_witness :
  acyclic chainManager
  /\ (exists result,
        getAllDescendantTasks 5 chainManager "session-a" = Some result
        /\ forall fuel, (4 < fuel)%nat ->
             getAllDescendantTasks fuel chainManager "session-a"
             = Some result)
  /\ (forall fuel,
        getAllDescendantTasks fuel selfParentedManager "session-s" = None).
Proof.
  split; [exact chainManager_acyclic|]. split.
  - exact (proj1 (C10_descendants_terminate chainManager "session-a")
             chainManager_acyclic).
  - apply (proj2 (C10_descendants_terminate selfParentedManager "session-s")
             selfParented); [left; reflexivity | reflexivity].
Defined.

(* ===================================================================== *)
(** * Claims on the admission gate *)
(* ===================================================================== *)



(* ===================================================================== *)
(** * Claims on resume *)
(* ===================================================================== *)

(** C5: for every registry and session id [s], [resume] throws exactly when
    no registered task has execution session [s], and the message is
    "Task not found for session: " followed by [s]; when the task found for
    [s] is running (in particular when it is the only task for [s]),
    [resume] returns that task unchanged and leaves the whole manager
    unchanged: its parentSessionID and parentMessageID stay, and nothing is
    added to the recorded calls to the execution collaborator. *)
Theorem C5_resume_guard (now : Z) (input : ResumeInput)
    (m : MockBackgroundManager) :
  ((forall task, registered m task -> sessionID task <> ri_sessionId input)
   <-> exists message, resume now input m = Throws message)
  /\ (forall message,
        resume now input m = Throws message ->
        message = "Task not found for session: " +:+ ri_sessionId input)
  /\ (forall task,
        findBySession (ri_sessionId input) m = Some task ->
        status task = running ->
        resume now input m = Returns (m, task))
  /\ (forall task,
        registered m task -> sessionID task = ri_sessionId input ->
        status task = running ->
        (forall other, registered m other ->
                       sessionID other = ri_sessionId input -> other = task) ->
        resume now input m = Returns (m, task)).
Proof.
  assert (Hrun : forall task,
             findBySession (ri_sessionId input) m = Some task ->
             status task = running ->
             resume now input m = Returns (m, task)).
  { intros task Hfind Hst. unfold resume. rewrite Hfind, Hst. reflexivity. }
  split; [|split; [|split]].
  - unfold resume, findBySession, registered. split.
    + intros Hnone. apply find_session_None in Hnone. rewrite Hnone. eauto.
    + intros [message H].
      destruct (find_session _ _) as [task|] eqn:Hfind.
      * destruct (status_eqb (status task) running); discriminate.
      * now apply find_session_None.
  - unfold resume. intros message H.
    destruct (findBySession _ m) as [task|].
    + destruct (status_eqb (status task) running); discriminate.
    + now inversion H.
  - exact Hrun.
  - intros task Hreg Hs Hst Huniq. apply Hrun; [|exact Hst].
    now apply find_session_unique.
Qed.

(** C5 on the registries of the tests: an empty manager, and a manager
    whose only task is running. *)
Lemma C5_resume_guard_witness :
  resume 9 resumeInputMissing emptyManager
  = Throws "Task not found for session: non-existent"
  /\ resume 9 resumeInputA (addTask runningTaskA emptyManager)
     = Returns (addTask runningTaskA emptyManager, runningTaskA)
  /\ (forall task,
        registered (addTask runningTaskA emptyManager) task ->
        sessionID task <> "session-b").
Proof.
  split; [|split].
  - destruct (C5_resume_guard 9 resumeInputMissing emptyManager)
      as (Hthrows & Hmessage & _).
    destruct (proj1 Hthrows) as [message H].
    + intros task [].
    + rewrite H. now rewrite (Hmessage message H).
  - destruct (C5_resume_guard 9 resumeInputA (addTask runningTaskA emptyManager))
      as (_ & _ & _ & Huniq).
    apply (Huniq runningTaskA); [left; reflexivity | reflexivity | reflexivity |].
    intros other [<- | []] _. reflexivity.
  - destruct (C5_resume_guard 9
                {| ri_sessionId := "session-b"; ri_prompt := "continue";
                   ri_parentSessionID := "session-new";
                   ri_parentMessageID := "msg-new"; ri_parentModel := None |}
                (addTask runningTaskA emptyManager))
      as (Hthrows & _).
    apply (proj2 Hthrows). eexists. reflexivity.
Defined.

(** C6: for every task in a terminal state (completed or cancelled),
    [resume] clears completedAt and error, resets status to running and
    overwrites parentSessionID, parentMessageID and parentModel with the
    caller's context, while id, execution session id, description, agent and
    the accumulated progress.toolCalls count stay as they were.  This holds
    for the test double, which mutates the task found and records the
    call.  On the manager with admission control, [resume] re-acquires the
    gate with the task's previously stored concurrencyKey: the key that is
    on the task, or, once a terminal transition has cleared it, the key
    that was on the task before (completing or cancelling a task that
    holds a key leaves that key as the stored one).  A task without a
    stored key resumes without touching the gate.  With a stored key, a
    slot the task still references is given back first; then, with a free
    slot, the held-count goes up by one and the resumed task's
    concurrencyKey is that key again; with no free slot the call waits at
    the end of the key's queue, the task holding no key, and makes the
    same transition once it is admitted. *)
Theorem C6_resume_terminal (now : Z) (input : ResumeInput) :
  (forall m task,
     findBySession (ri_sessionId input) m = Some task ->
     status task <> running ->
     exists m' task',
       resume now input m = Returns (m', task')
       /\ resumed_from input task task'
       /\ findBySession (ri_sessionId input) m' = Some task'
       /\ JSMap.keys (tasks m') = JSMap.keys (tasks m)
       /\ resumeCalls m'
          = resumeCalls m ++ [(ri_sessionId input, ri_prompt input)])
  /\ (forall w bm r task,
        BM.findBySession (ri_sessionId input) bm = Some (r, task) ->
        status task <> running ->
        let g := BM.concurrencyManager (BM.surrender r bm) in
        g = match concurrencyKey task with
            | Some held => CM.release held (BM.concurrencyManager bm)
            | None => BM.concurrencyManager bm
            end
        /\ (BM.storedKey r bm = None ->
            exists bm' task',
              BM.resume now input w bm = BM.Resumed r bm'
              /\ BM.concurrencyManager bm' = BM.concurrencyManager bm
              /\ BM.objects bm' !! r = Some task'
              /\ resumed_from input task task'
              /\ concurrencyKey task' = None)
        /\ (forall k,
              BM.storedKey r bm = Some k ->
              CM.getCount k g < CM.getConcurrencyLimit k g ->
              exists bm' task',
                BM.resume now input w bm = BM.Resumed r bm'
                /\ BM.concurrencyManager bm' = CM.acquire k w g
                /\ CM.getCount k (BM.concurrencyManager bm')
                   = CM.getCount k g + 1
                /\ BM.objects bm' !! r = Some task'
                /\ resumed_from input task task'
                /\ concurrencyKey task' = Some k)
        /\ (forall k,
              BM.storedKey r bm = Some k ->
              CM.getConcurrencyLimit k g <= CM.getCount k g ->
              exists bm',
                BM.resume now input w bm = BM.Parked r bm'
                /\ BM.concurrencyManager bm' = CM.acquire k w g
                /\ CM.waiting k (BM.concurrencyManager bm')
                   = CM.waiting k g ++ [w]
                /\ BM.objects bm' !! r = Some (BM.unkeyed task)
                /\ BM.storedKey r bm' = Some k
                /\ forall later bm2 task2,
                     BM.objects bm2 !! r = Some task2 ->
                     BM.storedKey r bm2 = Some k ->
                     exists task',
                       BM.objects (BM.resume_granted later input r bm2) !! r
                       = Some task'
                       /\ resumed_from input task2 task'
                       /\ concurrencyKey task' = Some k))
  /\ (forall at_ r bm task k,
        BM.objects bm !! r = Some task ->
        concurrencyKey task = Some k ->
        BM.storedKey r bm = Some k
        /\ BM.storedKey r (snd (BM.tryCompleteTask at_ r bm)) = Some k
        /\ BM.storedKey r (BM.interrupt at_ bm r) = Some k
        /\ (status task = running ->
            (concurrencyKey <$> BM.objects (snd (BM.tryCompleteTask at_ r bm))
                                !! r) = Some None)).
Proof.
  split; [|split].
  - intros m task Hfind Hst.
    unfold resume. rewrite Hfind, (status_not_running _ Hst).
    eexists _, _. split; [reflexivity|].
    split; [apply resume_reset_resumed|]. simpl.
    split; [|split; [apply keys_mutated | reflexivity]].
    unfold findBySession in *. simpl. unfold JSMap.values.
    rewrite values_mutated.
    apply (find_session_mutated _ _ task); [exact Hfind | reflexivity|].
    simpl. now apply find_session_Some in Hfind as [_ Hs].
  - intros w bm r task Hfind Hst g. subst g.
    pose proof Hfind as Hfind'. unfold BM.findBySession in Hfind'.
    apply find_ref_Some in Hfind' as (Hobj & _ & _).
    destruct (surrender_spec r bm task Hobj)
      as (Hobj0 & Hgate0 & _ & Hkey0 & _).
    split; [exact Hgate0|].
    unfold BM.resume. rewrite Hfind, (status_not_running _ Hst).
    split; [|split].
    + intros Hnone. rewrite Hnone.
      destruct (resume_granted_spec now input r bm task Hobj)
        as (Hobj' & Hgate & _).
      rewrite Hnone in Hobj'.
      eexists _, _. split; [reflexivity|]. split; [exact Hgate|].
      split; [exact Hobj'|].
      destruct (reenter_resumed now input None task) as (Hres & Hkey & _).
      split; [exact Hres|]. rewrite Hkey.
      unfold BM.storedKey in Hnone. rewrite Hobj in Hnone.
      now destruct (concurrencyKey task).
    + intros k Hk Hfree. rewrite Hk.
      destruct (Z.ltb_spec
                  (CM.getCount k (BM.concurrencyManager (BM.surrender r bm)))
                  (CM.getConcurrencyLimit k
                     (BM.concurrencyManager (BM.surrender r bm))));
        [|lia].
      set (bm1 := BM.emit _ _).
      assert (Hobj1 : BM.objects bm1 !! r = Some (BM.unkeyed task))
        by exact Hobj0.
      assert (Hkey1 : BM.storedKey r bm1 = Some k).
      { change (BM.storedKey r bm1) with (BM.storedKey r (BM.surrender r bm)).
        now rewrite Hkey0. }
      destruct (resume_granted_spec now input r bm1 _ Hobj1)
        as (Hobj' & Hgate & _).
      rewrite Hkey1 in Hobj'.
      eexists _, _. split; [reflexivity|]. split; [exact Hgate|].
      split.
      { rewrite Hgate.
        change (BM.concurrencyManager bm1)
          with (CM.acquire k w (BM.concurrencyManager (BM.surrender r bm))).
        now destruct (acquire_free _ k w Hfree) as (_ & -> & _). }
      split; [exact Hobj'|].
      destruct (unkeyed_resumed now input (Some k) task)
        as (Hres & Hkey & _).
      split; [exact Hres | exact Hkey].
    + intros k Hk Hfull. rewrite Hk.
      destruct (Z.ltb_spec
                  (CM.getCount k (BM.concurrencyManager (BM.surrender r bm)))
                  (CM.getConcurrencyLimit k
                     (BM.concurrencyManager (BM.surrender r bm))));
        [lia|].
      eexists. split; [reflexivity|].
      split; [reflexivity|].
      split.
      { cbn [BM.concurrencyManager BM.emit BM.with_gate].
        now destruct (acquire_full _ k w Hfull) as (_ & -> & _). }
      split; [exact Hobj0|].
      split.
      { change (BM.storedKey r (BM.emit ?e (BM.with_gate ?g0 ?b)))
          with (BM.storedKey r b).
        now rewrite Hkey0. }
      intros later bm2 task2 Hobj2 Hk2.
      destruct (resume_granted_spec later input r bm2 task2 Hobj2)
        as (Hobj' & _).
      eexists. split; [exact Hobj'|].
      destruct (reenter_resumed later input (BM.storedKey r bm2) task2)
        as (Hres & Hkey & _).
      split; [exact Hres|]. now rewrite Hkey, Hk2.
  - intros at_ r bm task k Hobj Hk.
    pose proof (storedKey_held r bm task k Hobj Hk) as Hheld.
    split; [exact Hheld|].
    split; [now rewrite (storedKey_tryCompleteTask at_ r bm task Hobj)|].
    split; [now rewrite (storedKey_interrupt at_ r bm task Hobj)|].
    intros Hst.
    destruct (tryCompleteTask_running at_ r bm task Hobj Hst)
      as (bm' & Hcall & Hobjs & _).
    rewrite Hcall. cbn [snd]. rewrite Hobjs, lookup_insert_eq. reflexivity.
Qed.

(** C6 on the tasks of the tests.  The completed "task-a" with 42 tool
    calls resumed on the test double.  The task of the test at lines
    1011-1036, tracked under "external-key" with no concurrencyGroup:
    completed, then resumed, it holds "external-key" again and the
    held-count is back to 1.  [task1] completed while another caller took
    the only slot of "explore": the [resume] waits, and holds "explore"
    once admitted.  A finished task that never had a key resumes without
    the gate. *)
Lemma C6_resume_terminal_witness :
  (exists m' task',
     resume 9 resumeInputA (addTask completedTaskA emptyManager)
     = Returns (m', task')
     /\ status task' = running
     /\ completedAt task' = None
     /\ error task' = None
     /\ parentSessionID task' = "session-new"
     /\ id task' = "task-a"
     /\ toolCallsOf task' = 42)
  /\ (let completed_ := snd (BM.tryCompleteTask 10 ref0 managerExternal) in
      exists bm' task',
        CM.getCount "external-key" (BM.concurrencyManager managerExternal) = 1
        /\ CM.getCount "external-key" (BM.concurrencyManager completed_) = 0
        /\ (concurrencyKey <$> BM.objects completed_ !! ref0) = Some None
        /\ BM.resume 20 resumeInput1 5%nat completed_ = BM.Resumed ref0 bm'
        /\ CM.getCount "external-key" (BM.concurrencyManager bm') = 1
        /\ BM.objects bm' !! ref0 = Some task'
        /\ status task' = running
        /\ concurrencyKey task' = Some "external-key")
  /\ (exists bm',
        BM.resume 20 resumeInput1 5%nat managerBusy = BM.Parked ref0 bm'
        /\ CM.waiting "explore" (BM.concurrencyManager bm') = [5%nat]
        /\ BM.objects bm' !! ref0 = Some finishedTask1
        /\ (concurrencyKey
             <$> BM.objects (BM.resume_granted 30 resumeInput1 ref0 bm') !! ref0)
           = Some (Some "explore"))
  /\ (exists bm' task',
        BM.resume 9 resumeInputA 5%nat managerKeyless = BM.Resumed ref0 bm'
        /\ BM.concurrencyManager bm' = CM.create ∅ 1
        /\ BM.objects bm' !! ref0 = Some task'
        /\ status task' = running).
Proof.
  destruct (C6_resume_terminal 9 resumeInputA) as (Hmock & Hkeyless & _).
  destruct (C6_resume_terminal 20 resumeInput1) as (_ & Hmanager & Hstored).
  split; [|split; [|split]]; cycle 2.
  - destruct (Hmanager 5%nat managerBusy ref0 finishedTask1)
      as (_ & _ & _ & Hfull);
      [vm_compute; reflexivity | discriminate |].
    destruct (Hfull "explore")
      as (bm' & Hcall & _ & Hq & Hobj & Hkey & Hlater);
      [vm_compute; reflexivity | vm_compute; discriminate |].
    exists bm'. split; [exact Hcall|].
    split; [rewrite Hq; reflexivity|].
    split; [rewrite Hobj; reflexivity|].
    destruct (Hlater 30 bm' (BM.unkeyed finishedTask1) Hobj Hkey)
      as (task' & Hobj' & _ & Hkey').
    rewrite Hobj'. simpl. now rewrite Hkey'.
  - destruct (Hkeyless 5%nat managerKeyless ref0 completedTaskA)
      as (_ & Hnone & _);
      [vm_compute; reflexivity | discriminate |].
    destruct (Hnone eq_refl) as (bm' & task' & Hcall & Hgate & Hobj & Hres & _).
    destruct Hres as (Hst & _).
    exists bm', task'. auto.
  - destruct (Hmock (addTask completedTaskA emptyManager) completedTaskA)
      as (m' & task' & Hcall & Hres & _);
      [reflexivity | discriminate |].
    destruct Hres as (Hst & Hdone & Herr & Hps & _ & _ & Hid & _ & _ & _ & Htc).
    exists m', task'. repeat split; assumption.
  - intros completed_.
    destruct (Hstored 10 ref0 managerExternal externalTask "external-key")
      as (_ & Hkept & _ & Hcleared); [reflexivity | reflexivity |].
    fold completed_ in Hkept, Hcleared.
    destruct (Hmanager 5%nat completed_ ref0
                (BM.terminate completed 10 None externalTask))
      as (_ & _ & Hfree & _);
      [vm_compute; reflexivity | discriminate |].
    destruct (Hfree "external-key" Hkept)
      as (bm' & task' & Hcall & _ & Hcount & Hobj & Hres & Hkey);
      [vm_compute; reflexivity|].
    destruct Hres as (Hst & _).
    exists bm', task'.
    split; [vm_compute; reflexivity|].
    split; [vm_compute; reflexivity|].
    split; [exact (Hcleared eq_refl)|].
    split; [exact Hcall|].
    split; [rewrite Hcount; vm_compute; reflexivity|].
    split; [exact Hobj|]. split; [exact Hst | exact Hkey].
Defined.

(* ===================================================================== *)
(** * Claims on completion, cancellation and re-admission *)
(* ===================================================================== *)

(** C2, as stated, fails when a caller is waiting for the key: the first
    [tryCompleteTask] on [task1], which holds the only slot of "explore"
    while caller 1 waits, returns true and clears the key, but the slot
    passes to the waiter and the held-count stays at 1 instead of dropping
    to 0. *)
Lemma C2_counterexample :
  BM.objects managerContended !! ref0 = Some task1
  /\ status task1 = running
  /\ concurrencyKey task1 = Some "explore"
  /\ CM.getCount "explore" (BM.concurrencyManager managerContended) = 1
  /\ fst (BM.tryCompleteTask 10 ref0 managerContended) = true
  /\ CM.getCount "explore"
       (BM.concurrencyManager
          (snd (BM.tryCompleteTask 10 ref0 managerContended))) = 1.
Proof. vm_compute. repeat split; reflexivity. Qed.

(** C2 (amended): for every task that is running and holds a
    concurrencyKey (the key's held-count is at least one), the first
    [tryCompleteTask] returns true, sets status to completed and completedAt,
    clears the task's concurrencyKey and releases the slot once: with nobody
    waiting on the key its held-count drops by one, and with a caller
    waiting the slot passes to the earliest waiter and the held-count is
    unchanged; any second [tryCompleteTask] on the same task returns false
    and changes nothing, so the slot is not released again. *)
Theorem C2_complete_once (now now' : Z) (r : BM.Ref) (bm : BM.t)
    (task : BackgroundTask) (k : string) :
  BM.objects bm !! r = Some task ->
  status task = running ->
  concurrencyKey task = Some k ->
  0 < CM.getCount k (BM.concurrencyManager bm) ->
  exists bm' task',
    BM.tryCompleteTask now r bm = (true, bm')
    /\ BM.objects bm' !! r = Some task'
    /\ status task' = completed
    /\ completedAt task' = Some now
    /\ concurrencyKey task' = None
    /\ BM.concurrencyManager bm' = CM.release k (BM.concurrencyManager bm)
    /\ (CM.waiting k (BM.concurrencyManager bm) = [] ->
        CM.getCount k (BM.concurrencyManager bm')
        = CM.getCount k (BM.concurrencyManager bm) - 1)
    /\ (forall w rest,
          CM.waiting k (BM.concurrencyManager bm) = w :: rest ->
          CM.getCount k (BM.concurrencyManager bm')
          = CM.getCount k (BM.concurrencyManager bm)
          /\ CM.resolved (BM.concurrencyManager bm')
             = CM.resolved (BM.concurrencyManager bm) ++ [(k, w)])
    /\ BM.tryCompleteTask now' r bm' = (false, bm').
Proof.
  intros Hobj Hst Hkey Hheld.
  destruct (tryCompleteTask_running now r bm task Hobj Hst)
    as (bm' & Hcall & Hobjs & _ & _ & Hgate & _).
  rewrite Hkey in Hgate.
  exists bm', (BM.terminate completed now (error task) task).
  assert (Hobj' : BM.objects bm' !! r
                  = Some (BM.terminate completed now (error task) task))
    by (rewrite Hobjs; apply lookup_insert_eq).
  repeat split; try assumption; try reflexivity.
  - intros Hq. rewrite Hgate.
    now destruct (release_free _ k Hheld Hq) as (_ & -> & _).
  - rewrite Hgate.
    now destruct (release_handoff _ k w rest Hheld H) as (_ & _ & _ & -> & _).
  - rewrite Hgate.
    now destruct (release_handoff _ k w rest Hheld H) as (-> & _).
  - apply tryCompleteTask_terminal with (task := BM.terminate completed now
                                                   (error task) task);
      [exact Hobj' | discriminate].
Qed.

(** C2 on the manager of the test: [task1] holds the only slot of its key
    and nobody waits.  The first call returns true and the held-count goes
    from 1 to 0; the second returns false and the count stays 0. *)
Lemma C2_complete_once_witness :
  (exists bm',
     BM.tryCompleteTask 10 ref0 managerIdle = (true, bm')
     /\ (status <$> BM.objects bm' !! ref0) = Some completed
     /\ (concurrencyKey <$> BM.objects bm' !! ref0) = Some None
     /\ CM.getCount "explore" (BM.concurrencyManager managerIdle) = 1
     /\ CM.getCount "explore" (BM.concurrencyManager bm') = 0
     /\ BM.tryCompleteTask 20 ref0 bm' = (false, bm'))
  /\ (exists bm',
        BM.tryCompleteTask 10 ref0 managerContended = (true, bm')
        /\ CM.getCount "explore" (BM.concurrencyManager bm') = 1
        /\ CM.resolved (BM.concurrencyManager bm')
           = [("explore", 0%nat); ("explore", 1%nat)]
        /\ BM.tryCompleteTask 20 ref0 bm' = (false, bm')).
Proof.
  split.
  - destruct (C2_complete_once 10 20 ref0 managerIdle task1 "explore")
      as (bm' & task' & Hcall & Hobj & Hst & _ & Hkey & _ & Hdrop & _ & Hagain);
      [reflexivity | reflexivity | reflexivity | vm_compute; reflexivity |].
    exists bm'. rewrite Hobj. simpl. rewrite Hst, Hkey.
    repeat split; try assumption; try reflexivity.
    rewrite Hdrop; reflexivity.
  - destruct (C2_complete_once 10 20 ref0 managerContended task1 "explore")
      as (bm' & task' & Hcall & _ & _ & _ & _ & _ & _ & Hpass & Hagain);
      [reflexivity | reflexivity | reflexivity | vm_compute; reflexivity |].
    destruct (Hpass 1%nat []) as (Hcount & Hres); [vm_compute; reflexivity|].
    exists bm'. split; [exact Hcall|].
    split; [rewrite Hcount; vm_compute; reflexivity|].
    split; [rewrite Hres; reflexivity | exact Hagain].
Defined.

(** C1: every path out of the running state gives the slot back before it
    starts a call that may hang.  Completion: [tryCompleteTask] on a running
    task holding key [k] releases [k] and only then starts the notification,
    and the state in which the notification is started already has the
    key cleared and the gate released; so a caller waiting first on [k] has
    been admitted by then, whether or not the notification ever resolves.
    Cancellation: the watchdog's treatment of a stale running task holding
    [k] releases [k] and only then starts the abort call, with the key
    cleared; a whole poll makes these calls task by task, in registry
    order.  Re-admission: [resume] on a finished task first gives back
    the slot the task still references, if there is one, and clears the
    key from the task (a caller waiting first on that key is admitted by
    this); only then does it start the [acquire] of the stored key, which
    may suspend, and after that the prompt; while it is suspended in that
    [acquire] the task holds no key. *)
Theorem C1_release_before_blocking :
  (forall now r bm task k,
     BM.objects bm !! r = Some task ->
     status task = running ->
     concurrencyKey task = Some k ->
     exists bm',
       BM.tryCompleteTask now r bm = (true, bm')
       /\ effects_since bm bm'
            [BM.SlotReleased k;
             BM.NotifyStarted (parentSessionID task) (id task)]
       /\ BM.concurrencyManager bm' = CM.release k (BM.concurrencyManager bm)
       /\ (concurrencyKey <$> BM.objects bm' !! r) = Some None
       /\ (forall w rest,
             0 < CM.getCount k (BM.concurrencyManager bm) ->
             CM.waiting k (BM.concurrencyManager bm) = w :: rest ->
             CM.resolved (BM.concurrencyManager bm')
             = CM.resolved (BM.concurrencyManager bm) ++ [(k, w)]))
  /\ (forall now r bm task k,
        BM.objects bm !! r = Some task ->
        status task = running ->
        BM.isStale now (BM.config bm) task = true ->
        concurrencyKey task = Some k ->
        effects_since bm (BM.interrupt now bm r)
          [BM.SlotReleased k; BM.AbortStarted (sessionID task)]
        /\ BM.concurrencyManager (BM.interrupt now bm r)
           = CM.release k (BM.concurrencyManager bm)
        /\ (concurrencyKey <$> BM.objects (BM.interrupt now bm r) !! r)
           = Some None
        /\ (status <$> BM.objects (BM.interrupt now bm r) !! r)
           = Some cancelled)
  /\ (forall now bm,
        List.NoDup (JSMap.values (BM.tasks bm)) ->
        effects_since bm (BM.checkAndInterruptStaleTasks now bm)
          (List.flat_map (cancel_effects now bm) (JSMap.values (BM.tasks bm))))
  /\ (forall now input w bm r task,
        BM.findBySession (ri_sessionId input) bm = Some (r, task) ->
        status task <> running ->
        let bm0 := BM.surrender r bm in
        effects_since bm bm0
          match concurrencyKey task with
          | Some held => [BM.SlotReleased held]
          | None => []
          end
        /\ BM.concurrencyManager bm0
           = match concurrencyKey task with
             | Some held => CM.release held (BM.concurrencyManager bm)
             | None => BM.concurrencyManager bm
             end
        /\ (concurrencyKey <$> BM.objects bm0 !! r) = Some None
        /\ (forall held w' rest,
              concurrencyKey task = Some held ->
              0 < CM.getCount held (BM.concurrencyManager bm) ->
              CM.waiting held (BM.concurrencyManager bm) = w' :: rest ->
              CM.resolved (BM.concurrencyManager bm0)
              = CM.resolved (BM.concurrencyManager bm) ++ [(held, w')])
        /\ (forall k,
              BM.storedKey r bm = Some k ->
              exists bm',
                BM.concurrencyManager bm'
                = CM.acquire k w (BM.concurrencyManager bm0)
                /\ ((BM.resume now input w bm = BM.Resumed r bm'
                     /\ effects_since bm0 bm'
                          [BM.AcquireStarted k w;
                           BM.PromptStarted (sessionID task) (model task)])
                    \/ (BM.resume now input w bm = BM.Parked r bm'
                        /\ effects_since bm0 bm' [BM.AcquireStarted k w]
                        /\ (concurrencyKey <$> BM.objects bm' !! r)
                           = Some None)))
        /\ (BM.storedKey r bm = None ->
            bm0 = bm
            /\ exists bm',
                 BM.resume now input w bm = BM.Resumed r bm'
                 /\ effects_since bm bm'
                      [BM.PromptStarted (sessionID task) (model task)])).
Proof.
  split; [|split; [|split]].
  - intros now r bm task k Hobj Hst Hkey.
    destruct (tryCompleteTask_running now r bm task Hobj Hst)
      as (bm' & Hcall & Hobjs & _ & _ & Hgate & Heff).
    rewrite Hkey in Hgate, Heff. exists bm'.
    split; [exact Hcall|]. split; [exact Heff|]. split; [exact Hgate|].
    split.
    + rewrite Hobjs, lookup_insert_eq. reflexivity.
    + intros w rest Hheld Hq. rewrite Hgate.
      now destruct (release_handoff _ k w rest Hheld Hq) as (-> & _).
  - intros now r bm task k Hobj Hst Hstale Hkey.
    unfold effects_since, BM.interrupt. rewrite Hobj, Hst, Hstale, Hkey.
    simpl. rewrite lookup_insert_eq, <- app_assoc. auto.
  - intros now bm Hnd. unfold effects_since, BM.checkAndInterruptStaleTasks.
    now apply poll_effects.
  - intros now input w bm r task Hfind Hst bm0. subst bm0.
    pose proof Hfind as Hfind'. unfold BM.findBySession in Hfind'.
    apply find_ref_Some in Hfind' as (Hobj & _ & _).
    destruct (surrender_spec r bm task Hobj)
      as (Hobj0 & Hgate0 & Heff0 & Hkey0 & _).
    split; [exact Heff0|]. split; [exact Hgate0|].
    split; [now rewrite Hobj0|].
    split.
    { intros held w' rest Hheld Hpos Hq. rewrite Hgate0, Hheld.
      now destruct (release_handoff _ held w' rest Hpos Hq) as (-> & _). }
    unfold BM.resume. rewrite Hfind, (status_not_running _ Hst).
    split.
    + intros k Hstored. rewrite Hstored.
      set (bm1 := BM.emit _ _).
      assert (Hobj1 : BM.objects bm1 !! r = Some (BM.unkeyed task))
        by exact Hobj0.
      destruct (resume_granted_spec now input r bm1 _ Hobj1)
        as (_ & Hgate & Heff).
      destruct (CM.getCount k (BM.concurrencyManager (BM.surrender r bm))
                <? CM.getConcurrencyLimit k
                     (BM.concurrencyManager (BM.surrender r bm))).
      * eexists. split; [|left; split; [reflexivity|]].
        -- rewrite Hgate. reflexivity.
        -- unfold effects_since. rewrite Heff. unfold bm1. simpl.
           now rewrite <- app_assoc.
      * eexists. split; [|right; split; [reflexivity|split]].
        -- reflexivity.
        -- reflexivity.
        -- change (BM.objects bm1 !! r) with
             (BM.objects (BM.surrender r bm) !! r).
           now rewrite Hobj0.
    + intros Hnone. rewrite Hnone.
      assert (Hk : concurrencyKey task = None).
      { unfold BM.storedKey in Hnone. rewrite Hobj in Hnone.
        now destruct (concurrencyKey task). }
      split; [exact (surrender_idle r bm task Hobj Hk)|].
      destruct (resume_granted_spec now input r bm task Hobj)
        as (_ & _ & Heff).
      eexists. split; [reflexivity | exact Heff].
Qed.

(** C1 on the managers of the tests.  With caller 1 waiting for "explore",
    completing [task1] admits the caller before the notification is
    started; the stale task's key is released before its abort; the
    completed [task1] resumes by acquiring "explore" first; and a finished
    task that still holds the only slot of "explore" gives it back before
    it acquires, so that its own [resume] is admitted. *)
Lemma C1_release_before_blocking_witness :
  (exists bm',
     BM.tryCompleteTask 10 ref0 managerContended = (true, bm')
     /\ BM.effects bm'
        = [BM.SlotReleased "explore";
           BM.NotifyStarted "session-parent" "task-1"]
     /\ CM.resolved (BM.concurrencyManager bm')
        = [("explore", 0%nat); ("explore", 1%nat)])
  /\ BM.effects (BM.interrupt pollTime managerStale ref0)
     = [BM.SlotReleased "test-agent"; BM.AbortStarted "session-3"]
  /\ BM.effects (BM.checkAndInterruptStaleTasks pollTime managerStale)
     = [BM.SlotReleased "test-agent"; BM.AbortStarted "session-3"]
  /\ (exists bm',
        BM.resume 20 resumeInput1 5%nat managerCompleted = BM.Resumed ref0 bm'
        /\ BM.effects bm'
           = [BM.SlotReleased "explore";
              BM.NotifyStarted "session-parent" "task-1";
              BM.AcquireStarted "explore" 5%nat;
              BM.PromptStarted "session-1" None])
  /\ (exists bm',
        CM.getCount "explore" (BM.concurrencyManager managerUnreleased)
        = CM.getConcurrencyLimit "explore"
            (BM.concurrencyManager managerUnreleased)
        /\ BM.resume 20 resumeInput1 5%nat managerUnreleased
           = BM.Resumed ref0 bm'
        /\ BM.effects bm'
           = [BM.SlotReleased "explore";
              BM.AcquireStarted "explore" 5%nat;
              BM.PromptStarted "session-1" None]).
Proof.
  destruct C1_release_before_blocking
    as (Hcomplete & Hcancel & Hpoll & Hresume).
  split; [|split; [|split; [|split]]].
  - destruct (Hcomplete 10 ref0 managerContended task1 "explore")
      as (bm' & Hcall & Heff & _ & _ & Hgrant);
      [reflexivity | reflexivity | reflexivity |].
    exists bm'. split; [exact Hcall|]. split; [exact Heff|].
    rewrite (Hgrant 1%nat []); [reflexivity | | ];
      vm_compute; reflexivity.
  - destruct (Hcancel pollTime ref0 managerStale staleTask "test-agent")
      as (Heff & _);
      [reflexivity | reflexivity | vm_compute; reflexivity | reflexivity |].
    exact Heff.
  - rewrite (Hpoll pollTime managerStale); [reflexivity|].
    repeat constructor. intros [].
  - destruct (Hresume 20 resumeInput1 5%nat managerCompleted ref0
                (BM.terminate completed 10 None task1))
      as (_ & _ & _ & _ & Hkeyed & _);
      [vm_compute; reflexivity | discriminate |].
    destruct (Hkeyed "explore")
      as (bm' & _ & [[Hcall Heff] | [Hcall _]]);
      [vm_compute; reflexivity | | ].
    + exists bm'. split; [exact Hcall|]. exact Heff.
    + exfalso. vm_compute in Hcall. discriminate Hcall.
  - destruct (Hresume 20 resumeInput1 5%nat managerUnreleased ref0
                unreleasedTask1)
      as (Hrel & _ & _ & _ & Hkeyed & _);
      [vm_compute; reflexivity | discriminate |].
    destruct (Hkeyed "explore")
      as (bm' & _ & [[Hcall Heff] | [Hcall _]]);
      [vm_compute; reflexivity | | ].
    + exists bm'. split; [vm_compute; reflexivity|].
      split; [exact Hcall|].
      unfold effects_since in Heff, Hrel. rewrite Heff, Hrel. reflexivity.
    + exfalso. vm_compute in Hcall. discriminate Hcall.
Defined.

(** C3: for every registered running task with a progress snapshot, with
    age = now - startedAt and idle = now - progress.lastUpdate, one poll of
    the stall watchdog cancels the task if and only if both
    idle > staleTimeoutMs and age > minRuntimeGuardMs (3 minutes and 30
    seconds when not configured); a cancelled task has status cancelled,
    completedAt = now, no concurrencyKey, and an error that contains
    "Stale timeout" and the threshold in minutes followed by "min"; a task
    that is not cancelled is left exactly as it was. *)
Theorem C3_stall_watchdog (now : Z) (bm : BM.t) (r : BM.Ref)
    (task : BackgroundTask) (p : TaskProgress) :
  In r (JSMap.values (BM.tasks bm)) ->
  BM.objects bm !! r = Some task ->
  status task = running ->
  progress task = Some p ->
  let age := now - startedAt task in
  let idle := now - lastUpdate p in
  let stale := BM.staleTimeout (BM.config bm) < idle
               /\ BM.minRuntimeGuard (BM.config bm) < age in
  exists task',
    BM.objects (BM.checkAndInterruptStaleTasks now bm) !! r = Some task'
    /\ (status task' = cancelled <-> stale)
    /\ (stale ->
        completedAt task' = Some now
        /\ concurrencyKey task' = None
        /\ exists err,
             error task' = Some err
             /\ contains "Stale timeout" err
             /\ contains (pretty (BM.staleMinutes (BM.config bm)) +:+ "min")
                         err)
    /\ (~ stale -> task' = task)
    /\ (BM.staleTimeoutMs (BM.config bm) = None ->
        BM.staleTimeout (BM.config bm) = 180000
        /\ BM.staleMinutes (BM.config bm) = 3)
    /\ (BM.minRuntimeGuardMs (BM.config bm) = None ->
        BM.minRuntimeGuard (BM.config bm) = 30000).
Proof.
  intros Hin Hobj Hst Hprog age idle stale.
  exists (watched now (BM.config bm) task).
  assert (Hdec : BM.isStale now (BM.config bm) task = true <-> stale).
  { unfold BM.isStale, stale, idle, age. rewrite Hprog.
    rewrite andb_true_iff, !Z.gtb_lt. reflexivity. }
  split.
  { unfold BM.checkAndInterruptStaleTasks. rewrite poll_objects.
    destruct (decide (r ∈ JSMap.values (BM.tasks bm))) as [_ | Hn].
    - now rewrite Hobj.
    - exfalso. apply Hn. now apply list_elem_of_In. }
  unfold watched. rewrite Hst. simpl.
  destruct (BM.isStale now (BM.config bm) task) eqn:Hs.
  - assert (Hstale : stale) by now apply Hdec.
    simpl. split; [tauto|]. split.
    + intros _. split; [reflexivity|]. split; [reflexivity|].
      exists (BM.staleError (BM.config bm)). split; [reflexivity|].
      apply staleError_contains.
    + split; [tauto|]. split.
      * intros Hnone. unfold BM.staleMinutes, BM.staleTimeout.
        rewrite Hnone. split; reflexivity.
      * intros Hnone. unfold BM.minRuntimeGuard. now rewrite Hnone.
  - assert (Hfresh : ~ stale).
    { intros Hstale. apply Hdec in Hstale. congruence. }
    split; [rewrite Hst; split; [discriminate | tauto]|].
    split; [tauto|]. split; [reflexivity|]. split.
    + intros Hnone. unfold BM.staleMinutes, BM.staleTimeout.
      rewrite Hnone. split; reflexivity.
    + intros Hnone. unfold BM.minRuntimeGuard. now rewrite Hnone.
Qed.

(** C3 on the two tasks of the tests, polled with staleTimeoutMs = 180000:
    age 20s and idle 200s is left running; age 300s and idle 200s is
    cancelled with the error "Stale timeout (no activity for 3min)". *)
Lemma C3_stall_watchdog_witness :
  BM.objects (BM.checkAndInterruptStaleTasks pollTime managerYoung) !! ref0
  = Some youngTask
  /\ exists task',
       BM.objects (BM.checkAndInterruptStaleTasks pollTime managerStale) !! ref0
       = Some task'
       /\ status task' = cancelled
       /\ completedAt task' = Some pollTime
       /\ error task' = Some "Stale timeout (no activity for 3min)"
       /\ contains "Stale timeout" "Stale timeout (no activity for 3min)"
       /\ contains "3min" "Stale timeout (no activity for 3min)".
Proof.
  split.
  - destruct (C3_stall_watchdog pollTime managerYoung ref0 youngTask
                {| toolCalls := 2; lastTool := None;
                   lastUpdate := pollTime - 200000 |})
      as (task' & Hobj & _ & _ & Hsame & _);
      [left; reflexivity | reflexivity | reflexivity | reflexivity |].
    rewrite Hobj, Hsame; [reflexivity|].
    vm_compute. intros [_ H]. discriminate H.
  - destruct (C3_stall_watchdog pollTime managerStale ref0 staleTask
                {| toolCalls := 2; lastTool := None;
                   lastUpdate := pollTime - 200000 |})
      as (task' & Hobj & Hcancel & Hfields & _);
      [left; reflexivity | reflexivity | reflexivity | reflexivity |].
    assert (Hstale : BM.staleTimeout (BM.config managerStale)
                     < pollTime - (pollTime - 200000)
                     /\ BM.minRuntimeGuard (BM.config managerStale)
                        < pollTime - startedAt staleTask)
      by (vm_compute; split; reflexivity).
    destruct (Hfields Hstale) as (Hdone & _ & err & Herr & Hc1 & Hc2).
    exists task'. split; [exact Hobj|].
    split; [now apply Hcancel|]. split; [exact Hdone|].
    assert (Heq : err = "Stale timeout (no activity for 3min)").
    { pose proof Hobj as Hval. vm_compute in Hval.
      inversion Hval as [Ht]. rewrite <- Ht in Herr. vm_compute in Herr.
      inversion Herr. reflexivity. }
    subst err. split; [exact Herr|]. split; [exact Hc1 | exact Hc2].
Defined.

(* ===================================================================== *)
(** * Claims on the notification body *)
(* ===================================================================== *)

(** C7, as stated, fails in two places.  With a live message whose model
    lacks its modelID and whose agent is "Live", the body carries the live
    agent, not the task's stored parentAgent "Stored".  With a live message
    that has a full model and no agent, and a task with no stored
    parentAgent, the body has no agent but does carry a model. *)
Lemma C7_counterexample :
  (let body :=
     buildNotificationPromptBody (notifiedTask (Some "Stored"))
                                 (Some partialMessage) in
   body !! "agent" = Some (VString "Live") /\ body !! "model" = None)
  /\ (let body :=
        buildNotificationPromptBody (notifiedTask None)
                                    (Some agentlessMessage) in
      body !! "agent" = None
      /\ body !! "model" = Some (VModel "anthropic" "claude-opus-4-5")).
Proof. vm_compute. repeat split; reflexivity. Qed.

(** C7 (amended): the body resolves agent and model independently.  The
    agent is the live message's agent when it has one, otherwise the task's
    stored parentAgent, and the key is absent when there is neither.  The
    model is the live message's model when both its providerID and its
    modelID are present and non-empty, and the key is absent otherwise; it
    is never taken from the task.  So a model in the body always has both
    parts, equal to the live message's. *)
Theorem C7_notification_body (task : BackgroundTask)
    (currentMessage : option CurrentMessage) :
  let body := buildNotificationPromptBody task currentMessage in
  body !! "agent" = VString <$> resolvedAgent task currentMessage
  /\ body !! "model"
     = (fun pm => VModel (fst pm) (snd pm)) <$> fullModel currentMessage
  /\ (forall v,
        body !! "model" = Some v ->
        exists p i,
          v = VModel p i /\ p <> "" /\ i <> ""
          /\ (currentMessage ≫= cm_model) ≫= mm_providerID = Some p
          /\ (currentMessage ≫= cm_model) ≫= mm_modelID = Some i)
  /\ (currentMessage ≫= cm_agent = None -> parentAgent task = None ->
      body !! "agent" = None).
Proof.
  intros body.
  assert (Hagent : body !! "agent"
                   = VString <$> resolvedAgent task currentMessage).
  { unfold body, buildNotificationPromptBody.
    match goal with
    | |- context [match ?v with Some x => <["model" := x]> _ | None => _ end] =>
        set (model := v)
    end.
    match goal with
    | |- context [match ?a with
                  | Some x => <["agent" := VString x]> _
                  | None => _ end] => set (agent := a)
    end.
    match goal with
    | |- context [VParts [?t]] =>
        destruct (body_lookups task t agent model) as (-> & _)
    end.
    unfold agent, resolvedAgent.
    destruct currentMessage as [[[a|] mm]|]; reflexivity. }
  assert (Hmodel : body !! "model"
                   = (fun pm => VModel (fst pm) (snd pm))
                       <$> fullModel currentMessage).
  { unfold body, buildNotificationPromptBody.
    match goal with
    | |- context [match ?v with Some x => <["model" := x]> _ | None => _ end] =>
        set (model := v)
    end.
    match goal with
    | |- context [match ?a with
                  | Some x => <["agent" := VString x]> _
                  | None => _ end] => set (agent := a)
    end.
    match goal with
    | |- context [VParts [?t]] =>
        destruct (body_lookups task t agent model) as (_ & -> & _)
    end.
    unfold model, fullModel.
    destruct currentMessage as [[a [[[p|] [i|]]|]]|]; simpl; try reflexivity;
      repeat match goal with
             | |- context [String.eqb ?x ""] => destruct (String.eqb x "")
             end;
      reflexivity. }
  split; [exact Hagent|]. split; [exact Hmodel|]. split.
  - intros v Hv. rewrite Hmodel in Hv. unfold fullModel in Hv.
    destruct currentMessage as [[a [[[p|] [i|]]|]]|]; simpl in Hv;
      try discriminate.
    destruct (String.eqb_spec p ""), (String.eqb_spec i "");
      simpl in Hv; try discriminate.
    inversion Hv; subst. exists p, i. simpl. auto.
  - intros Hlive Hstored. rewrite Hagent. unfold resolvedAgent.
    destruct currentMessage as [[[a|] mm]|]; simpl in *;
      try discriminate; now rewrite Hstored.
Qed.

(** C7 on the bodies of the tests: a full live message wins over the
    task's stored context; an incomplete live model is dropped while the
    live agent stays; with no live message the stored parentAgent is used
    and there is no model; with neither agent there is no agent key. *)
Lemma C7_notification_body_witness :
  (let body := buildNotificationPromptBody (notifiedTask (Some "Stored"))
                                           (Some fullMessage) in
   body !! "agent" = Some (VString "Sisyphus")
   /\ body !! "model" = Some (VModel "anthropic" "claude-opus-4-5"))
  /\ (let body := buildNotificationPromptBody (notifiedTask (Some "Stored"))
                                              (Some partialMessage) in
      body !! "agent" = Some (VString "Live") /\ body !! "model" = None)
  /\ (let body := buildNotificationPromptBody (notifiedTask (Some "Stored"))
                                              None in
      body !! "agent" = Some (VString "Stored") /\ body !! "model" = None)
  /\ buildNotificationPromptBody (notifiedTask None) None !! "agent" = None
  /\ (exists p i,
        VModel "anthropic" "claude-opus-4-5" = VModel p i
        /\ p <> "" /\ i <> "").
Proof.
  split; [|split; [|split; [|split]]]; cycle 4.
  - destruct (C7_notification_body (notifiedTask (Some "Stored"))
                                   (Some fullMessage)) as (_ & _ & Hfull & _).
    destruct (Hfull (VModel "anthropic" "claude-opus-4-5"))
      as (p & i & Hv & Hp & Hi & _); [vm_compute; reflexivity|].
    exists p, i. auto.
  - destruct (C7_notification_body (notifiedTask (Some "Stored"))
                                   (Some fullMessage)) as (Ha & Hm & _).
    split; [exact Ha | exact Hm].
  - destruct (C7_notification_body (notifiedTask (Some "Stored"))
                                   (Some partialMessage)) as (Ha & Hm & _).
    split; [exact Ha | exact Hm].
  - destruct (C7_notification_body (notifiedTask (Some "Stored")) None)
      as (Ha & Hm & _).
    split; [exact Ha | exact Hm].
  - destruct (C7_notification_body (notifiedTask None) None)
      as (_ & _ & _ & Hnone).
    apply Hnone; reflexivity.
Defined.

(* ===================================================================== *)
(** * Claims on the retention pruner *)
(* ===================================================================== *)

(** C9: the pruner removes the expired task and its pending notification,
    but the count it returns misses that notification.  On a manager whose
    only task started 31 minutes ago and is queued for notification, the
    call empties the registry and the queues and reports the task id, yet
    [prunedNotifications] is 0 although one notification was pruned: the
    entries that [clearNotificationsForTask] removes in the first loop are
    never counted.  The second loop does count what it removes: the same
    notification queued without a registered task gives 1. *)
Theorem C9_prune_count_short :
  let pruned := pruneStaleTasksAndNotifications pruneTime managerStaleNotified in
  getTaskCount managerStaleNotified = 1
  /\ getNotificationCount managerStaleNotified = 1
  /\ prunedTasks (fst pruned) = ["task-stale"]
  /\ getTaskCount (snd pruned) = 0
  /\ getNotificationCount (snd pruned) = 0
  /\ prunedNotifications (fst pruned) = 0
  /\ prunedNotifications
       (fst (pruneStaleTasksAndNotifications pruneTime
               managerOrphanNotification)) = 1.
Proof. vm_compute. repeat split; reflexivity. Qed.

(* ===================================================================== *)
(** * Further properties of the test double's registry *)
(* ===================================================================== *)

(** X1: [addTask] then [getTask] is a round trip.  After [addTask(task)],
    [getTask(task.id)] returns [task] and every other id reads as before; a
    new id makes the registry one task larger, placed last, and an id that
    is already registered is overwritten in place, the count and the order
    of ids unchanged. *)
Theorem X1_addTask_getTask (task : BackgroundTask)
    (m : MockBackgroundManager) :
  getTask (id task) (addTask task m) = Some task
  /\ (forall i, i <> id task -> getTask i (addTask task m) = getTask i m)
  /\ (getTask (id task) m = None ->
      tasks (addTask task m) = tasks m ++ [(id task, task)]
      /\ getTaskCount (addTask task m) = getTaskCount m + 1)
  /\ (forall old, getTask (id task) m = Some old ->
      getTaskCount (addTask task m) = getTaskCount m
      /\ JSMap.keys (tasks (addTask task m)) = JSMap.keys (tasks m))
  /\ (JSMap.wf (tasks m) -> JSMap.wf (tasks (addTask task m)))
  /\ notifications (addTask task m) = notifications m.
Proof.
  unfold getTask, addTask. simpl.
  split; [apply get_set_eq|].
  split; [intros i Hne; now apply get_set_ne|].
  split.
  { intros Hnone. rewrite getTaskCount_length. simpl.
    rewrite (set_fresh _ _ _ Hnone). split; [reflexivity|].
    rewrite List.length_app. unfold getTaskCount, JSMap.size. simpl. lia. }
  split.
  { intros old Hold. unfold getTaskCount, JSMap.size. simpl.
    destruct (set_present_length (id task) task old (tasks m) Hold)
      as [-> ->].
    auto. }
  split; [apply set_wf | reflexivity].
Qed.

(** X1 on the registries of the tests: "task-b" added to an empty manager,
    then "task-c", then "task-b" again. *)
Lemma X1_addTask_getTask_witness :
  getTask "task-b" (addTask taskC (addTask taskB emptyManager)) = Some taskB
  /\ getTaskCount (addTask taskC (addTask taskB emptyManager)) = 2
  /\ getTaskCount (addTask taskB (addTask taskC (addTask taskB emptyManager)))
     = 2
  /\ JSMap.wf (tasks (addTask taskC (addTask taskB emptyManager))).
Proof.
  destruct (X1_addTask_getTask taskC (addTask taskB emptyManager))
    as (_ & Hother & Hfresh & _ & Hwf & _).
  destruct (X1_addTask_getTask taskB
              (addTask taskC (addTask taskB emptyManager)))
    as (_ & _ & _ & Hover & _).
  split.
  { rewrite Hother; [reflexivity | discriminate]. }
  destruct (Hfresh eq_refl) as [_ Hcount].
  split; [rewrite Hcount; reflexivity|].
  split.
  { destruct (Hover taskB eq_refl) as [-> _]. rewrite Hcount. reflexivity. }
  apply Hwf. apply (proj1 (proj2 (proj2 (proj2 (proj2
           (X1_addTask_getTask taskB emptyManager)))))).
  constructor.
Defined.

(** X2: the searches follow insertion order.  After [addTask] of a task
    with a new id, [findBySession(s)] still returns the task it returned
    before, and returns the new task only if no earlier task runs in
    session [s] and the new one does; [getTasksByParentSession(s)] returns
    its earlier result with the new task appended when [s] is its parent. *)
Theorem X2_addTask_search (task : BackgroundTask) (m : MockBackgroundManager)
    (s : string) :
  getTask (id task) m = None ->
  findBySession s (addTask task m)
  = match findBySession s m with
    | Some found => Some found
    | None => if String.eqb (sessionID task) s then Some task else None
    end
  /\ getTasksByParentSession (addTask task m) s
     = getTasksByParentSession m s
       ++ (if String.eqb (parentSessionID task) s then [task] else []).
Proof.
  intros Hfresh. unfold findBySession, getTasksByParentSession, addTask.
  simpl. unfold getTask in Hfresh. rewrite (set_fresh _ _ _ Hfresh).
  unfold JSMap.values. rewrite List.map_app. simpl. split.
  - rewrite find_session_app. simpl.
    destruct (find_session s (List.map snd (tasks m))); reflexivity.
  - rewrite List.filter_app. simpl.
    destruct (String.eqb (parentSessionID task) s); reflexivity.
Qed.

(** X2 on the chain of the tests: adding "task-c" (session-c, child of
    session-b) does not change who is found for session-b and makes it the
    one child of session-b. *)
Lemma X2_addTask_search_witness :
  findBySession "session-b" (addTask taskC (addTask taskB emptyManager))
  = Some taskB
  /\ findBySession "session-c" (addTask taskC (addTask taskB emptyManager))
     = Some taskC
  /\ getTasksByParentSession (addTask taskC (addTask taskB emptyManager))
       "session-b" = [taskC].
Proof.
  destruct (X2_addTask_search taskC (addTask taskB emptyManager) "session-b")
    as (Hb & Hchildren); [reflexivity|].
  destruct (X2_addTask_search taskC (addTask taskB emptyManager) "session-c")
    as (Hc & _); [reflexivity|].
  split; [rewrite Hb; reflexivity|].
  split; [rewrite Hc; reflexivity|].
  rewrite Hchildren. reflexivity.
Defined.

(** X3: the notification queue of a parent session is first-in first-out.
    [markForNotification(task)] appends [task] to the pending notifications
    of [task.parentSessionID], leaves the queue of every other session and
    the registry untouched, and raises the notification count by one. *)
Theorem X3_markForNotification_queue (task : BackgroundTask)
    (m : MockBackgroundManager) :
  getPendingNotifications (parentSessionID task) (markForNotification task m)
  = getPendingNotifications (parentSessionID task) m ++ [task]
  /\ (forall s, s <> parentSessionID task ->
        getPendingNotifications s (markForNotification task m)
        = getPendingNotifications s m)
  /\ getNotificationCount (markForNotification task m)
     = getNotificationCount m + 1
  /\ tasks (markForNotification task m) = tasks m
  /\ (JSMap.wf (notifications m) ->
      JSMap.wf (notifications (markForNotification task m))).
Proof.
  unfold getPendingNotifications, markForNotification. simpl.
  split; [now rewrite get_set_eq|].
  split; [intros s Hne; now rewrite get_set_ne|].
  split; [|split; [reflexivity | apply set_wf]].
  rewrite !getNotificationCount_queued. simpl.
  unfold count_queued.
  induction (notifications m) as [|[k q] l IH]; simpl.
  - unfold len. simpl. lia.
  - destruct (String.eqb k (parentSessionID task)); simpl.
    + rewrite !filter_all by reflexivity. unfold len.
      rewrite List.length_app. simpl. lia.
    + rewrite IH. lia.
Qed.

(** X3 on two notifications for the same parent: they are delivered in the
    order they were queued. *)
Lemma X3_markForNotification_queue_witness :
  getPendingNotifications "session-parent"
    (markForNotification taskFresh
       (markForNotification taskStale emptyManager))
  = [taskStale; taskFresh]
  /\ getPendingNotifications "session-other"
       (markForNotification taskStale emptyManager) = [].
Proof.
  destruct (X3_markForNotification_queue taskFresh
              (markForNotification taskStale emptyManager)) as (Hq & _).
  destruct (X3_markForNotification_queue taskStale emptyManager)
    as (_ & Hother & _).
  split.
  - change "session-parent" with (parentSessionID taskFresh).
    rewrite Hq. reflexivity.
  - rewrite Hother; [reflexivity | discriminate].
Defined.

(** X4: [clearNotificationsForTask(taskId)] on well-formed queues removes
    from every parent session's queue exactly the notifications whose task
    id is [taskId], keeps the others in order, and leaves no empty queue
    behind; clearing a second time changes nothing. *)
Theorem X4_clearNotificationsForTask (taskId : string)
    (notifs : JSMap.t (list BackgroundTask)) :
  JSMap.wf notifs ->
  let cleared := clearNotificationsForTask taskId notifs in
  (forall s,
     default [] (JSMap.get s cleared)
     = List.filter (fun t => negb (String.eqb (id t) taskId))
                   (default [] (JSMap.get s notifs)))
  /\ (forall s q t, In (s, q) cleared -> In t q -> id t <> taskId)
  /\ (forall s q, In (s, q) cleared -> q <> [])
  /\ JSMap.wf cleared
  /\ clearNotificationsForTask taskId cleared = cleared.
Proof.
  intros Hwf cleared. unfold cleared.
  rewrite clearNotificationsForTask_spec by exact Hwf.
  set (keep := fun t => negb (String.eqb (id t) taskId)).
  assert (Hwf' : JSMap.wf (keep_queues keep notifs))
    by now apply keep_queues_wf.
  split; [intros s; now apply pending_keep_queues|].
  split.
  { intros s q t Hin Ht. unfold keep_queues in Hin.
    apply List.in_flat_map in Hin as ([k q0] & _ & Hin). simpl in Hin.
    destruct (len (List.filter keep q0) =? 0); [destruct Hin|].
    destruct Hin as [Heq | []]. inversion Heq; subst.
    apply List.filter_In in Ht as [_ Hkeep]. unfold keep in Hkeep.
    intros Heq'. rewrite Heq', String.eqb_refl in Hkeep. discriminate. }
  split; [intros s q; apply keep_queues_nonempty|].
  split; [exact Hwf'|].
  rewrite clearNotificationsForTask_spec by exact Hwf'.
  rewrite keep_queues_compose.
  apply keep_queues_ext. intros t. apply andb_diag.
Qed.

(** X4 on the queue of the tests: clearing "task-stale" leaves the fresh
    notification, and clearing both leaves no queue at all. *)
Lemma X4_clearNotificationsForTask_witness :
  clearNotificationsForTask "task-stale" (notifications managerMixed)
  = [("session-parent", [taskFresh])]
  /\ clearNotificationsForTask "task-fresh"
       (clearNotificationsForTask "task-stale" (notifications managerMixed))
     = []
  /\ clearNotificationsForTask "task-stale"
       (clearNotificationsForTask "task-stale" (notifications managerMixed))
     = clearNotificationsForTask "task-stale" (notifications managerMixed).
Proof.
  assert (Hwf : JSMap.wf (notifications managerMixed))
    by (repeat constructor; intros []).
  destruct (X4_clearNotificationsForTask "task-stale"
              (notifications managerMixed) Hwf) as (_ & _ & _ & _ & Hidem).
  split; [reflexivity|]. split; [reflexivity | exact Hidem].
Defined.

(* ===================================================================== *)
(** * Further properties of the retention pruner *)
(* ===================================================================== *)

(** X5: the registry after a prune.  On a well-formed manager,
    [pruneStaleTasksAndNotifications] at time [now] makes [getTask(i)]
    return nothing for a task whose age [now - startedAt] exceeds 30
    minutes and the same task as before otherwise, whatever its status;
    [prunedTasks] is the list of the keys of the expired tasks in registry
    order, so an id is reported exactly when its task was registered and
    expired, and no id twice; the task count drops by their number. *)
Theorem X5_prune_registry (now : Z) (m : MockBackgroundManager) :
  JSMap.wf (tasks m) -> JSMap.wf (notifications m) ->
  let result := fst (pruneStaleTasksAndNotifications now m) in
  let m' := snd (pruneStaleTasksAndNotifications now m) in
  (forall i,
     getTask i m' = match getTask i m with
                    | Some task => if expired now task then None else Some task
                    | None => None
                    end)
  /\ prunedTasks result
     = JSMap.keys (List.filter (fun e => expired now (snd e)) (tasks m))
  /\ List.NoDup (prunedTasks result)
  /\ (forall i,
        In i (prunedTasks result)
        <-> exists task, getTask i m = Some task /\ expired now task = true)
  /\ getTaskCount m' = getTaskCount m - len (prunedTasks result)
  /\ JSMap.wf (tasks m').
Proof.
  intros Hwt Hwn result m'.
  destruct (pruneStaleTasksAndNotifications_spec now m Hwt Hwn)
    as (Hids & Htasks & _).
  fold result in Hids. fold m' in Htasks.
  split.
  { intros i. unfold getTask. rewrite Htasks.
    rewrite (get_filter (fun t => negb (expired now t)) i (tasks m) Hwt).
    destruct (JSMap.get i (tasks m)) as [t|]; [|reflexivity].
    destruct (expired now t); reflexivity. }
  split; [exact Hids|].
  split.
  { rewrite Hids.
    exact (filter_wf (fun e => expired now (snd e)) (tasks m) Hwt). }
  split.
  { intros i. rewrite Hids, List.in_map_iff. unfold getTask. split.
    - intros ([k t] & <- & Hin). apply List.filter_In in Hin as [Hin Hexp].
      exists t. split; [now apply get_In | exact Hexp].
    - intros (t & Hget & Hexp). exists (i, t). split; [reflexivity|].
      apply List.filter_In. split; [now apply get_In | exact Hexp]. }
  split.
  { rewrite !getTaskCount_length, Htasks, Hids. unfold len.
    rewrite List.length_map.
    pose proof (len_filter_split (fun e : string * BackgroundTask =>
                                    expired now (snd e)) (tasks m)) as Hsplit.
    unfold len in Hsplit. cbv beta in Hsplit. lia. }
  rewrite Htasks. unfold JSMap.wf, JSMap.keys in *.
  clear -Hwt. induction (tasks m) as [|e l IH]; simpl; [constructor|].
  inversion Hwt as [|? ? Hk Hwt']; subst.
  destruct (negb (expired now (snd e))); simpl; [|auto].
  constructor; [|auto].
  intros Hin. apply Hk. apply List.in_map_iff in Hin as (e' & He' & Hin).
  apply List.filter_In in Hin as [Hin _].
  apply List.in_map_iff. eauto.
Qed.

(** X5 on the stale and the fresh task of the tests. *)
Lemma X5_prune_registry_witness :
  let m := addTask taskFresh (addTask taskStale emptyManager) in
  let m' := snd (pruneStaleTasksAndNotifications pruneTime m) in
  getTask "task-stale" m' = None
  /\ getTask "task-fresh" m' = Some taskFresh
  /\ getTaskCount m' = 1
  /\ prunedTasks (fst (pruneStaleTasksAndNotifications pruneTime m))
     = ["task-stale"].
Proof.
  intros m m'.
  assert (Hwt : JSMap.wf (tasks m)).
  { repeat constructor; simpl; [intros [H | []]; discriminate H | intros []]. }
  assert (Hwn : JSMap.wf (notifications m)) by constructor.
  destruct (X5_prune_registry pruneTime m Hwt Hwn)
    as (Hget & Hids & _ & _ & Hcount & _).
  fold m' in Hget, Hcount.
  split; [rewrite Hget; reflexivity|].
  split; [rewrite Hget; reflexivity|].
  split; [rewrite Hcount; reflexivity|].
  rewrite Hids. reflexivity.
Defined.

(** X6: the queues after a prune.  On a well-formed manager the pending
    notifications of every parent session are, in their old order, those
    that are at most 30 minutes old and do not carry the id of a pruned
    task; no queue is left empty in the map. *)
Theorem X6_prune_queues (now : Z) (m : MockBackgroundManager) :
  JSMap.wf (tasks m) -> JSMap.wf (notifications m) ->
  let result := fst (pruneStaleTasksAndNotifications now m) in
  let m' := snd (pruneStaleTasksAndNotifications now m) in
  (forall s,
     getPendingNotifications s m'
     = List.filter
         (fun t => negb (carries (prunedTasks result) t)
                   && negb (expired now t))
         (getPendingNotifications s m))
  /\ (forall s q, In (s, q) (notifications m') -> q <> [])
  /\ JSMap.wf (notifications m').
Proof.
  intros Hwt Hwn result m'.
  destruct (pruneStaleTasksAndNotifications_spec now m Hwt Hwn)
    as (Hids & _ & Hnotifs & _).
  fold result in Hids. fold m' in Hnotifs. rewrite Hids.
  split.
  { intros s. unfold getPendingNotifications. rewrite Hnotifs.
    now apply pending_keep_queues. }
  split.
  { intros s q. rewrite Hnotifs. apply keep_queues_nonempty. }
  rewrite Hnotifs. now apply keep_queues_wf.
Qed.

(** X6 on the mixed manager of the tests: the fresh notification stays. *)
Lemma X6_prune_queues_witness :
  getPendingNotifications "session-parent"
    (snd (pruneStaleTasksAndNotifications pruneTime managerMixed))
  = [taskFresh].
Proof.
  assert (Hwt : JSMap.wf (tasks managerMixed)).
  { repeat constructor; simpl; [intros [H | []]; discriminate H | intros []]. }
  assert (Hwn : JSMap.wf (notifications managerMixed))
    by (repeat constructor; intros []).
  destruct (X6_prune_queues pruneTime managerMixed Hwt Hwn) as (Hq & _).
  rewrite Hq. reflexivity.
Defined.

(** X7: the count a prune returns.  On a well-formed manager
    [prunedNotifications] is never negative, and the number of
    notifications that left the queues is [prunedNotifications] plus the
    number of queued notifications that carried the id of a pruned task. *)
Theorem X7_prune_count (now : Z) (m : MockBackgroundManager) :
  JSMap.wf (tasks m) -> JSMap.wf (notifications m) ->
  let result := fst (pruneStaleTasksAndNotifications now m) in
  let m' := snd (pruneStaleTasksAndNotifications now m) in
  0 <= prunedNotifications result
  /\ getNotificationCount m - getNotificationCount m'
     = prunedNotifications result
       + count_queued (carries (prunedTasks result)) (notifications m)
  /\ getNotificationCount m' <= getNotificationCount m.
Proof.
  intros Hwt Hwn result m'.
  destruct (pruneStaleTasksAndNotifications_spec now m Hwt Hwn)
    as (Hids & _ & _ & Hcount & Hdiff & _).
  fold result in Hids, Hcount, Hdiff. fold m' in Hdiff.
  assert (Hpos : forall p l, 0 <= count_queued p l).
  { intros p l. unfold count_queued.
    induction l as [|e l IH]; cbn [List.fold_right]; [lia|].
    unfold len in *. lia. }
  rewrite Hids.
  split; [rewrite Hcount; apply Hpos|].
  split; [exact Hdiff|].
  pose proof (Hpos (expired now) []) as _.
  assert (0 <= prunedNotifications result) by (rewrite Hcount; apply Hpos).
  pose proof (Hpos (carries (List.map fst
                (List.filter (fun e => expired now (snd e)) (tasks m))))
              (notifications m)).
  lia.
Qed.

(** X7 on the managers of the tests: with the stale task registered its
    notification is removed uncounted; unregistered, it is counted. *)
Lemma X7_prune_count_witness :
  prunedNotifications
    (fst (pruneStaleTasksAndNotifications pruneTime managerStaleNotified))
  + count_queued (carries ["task-stale"]) (notifications managerStaleNotified)
  = 1
  /\ prunedNotifications
       (fst (pruneStaleTasksAndNotifications pruneTime
               managerOrphanNotification)) = 1.
Proof.
  assert (Hwn : forall m, notifications m = [("session-parent", [taskStale])]
                          -> JSMap.wf (notifications m)).
  { intros m ->. repeat constructor. intros []. }
  split.
  - destruct (X7_prune_count pruneTime managerStaleNotified)
      as (_ & Hdiff & _);
      [repeat constructor; intros [] | now apply Hwn |].
    change (prunedTasks
              (fst (pruneStaleTasksAndNotifications pruneTime
                      managerStaleNotified)))
      with ["task-stale"] in Hdiff.
    rewrite <- Hdiff. reflexivity.
  - destruct (X7_prune_count pruneTime managerOrphanNotification)
      as (_ & Hdiff & _); [constructor | now apply Hwn |].
    change (count_queued _ _) with 0 in Hdiff.
    rewrite Z.add_0_r in Hdiff. rewrite <- Hdiff. reflexivity.
Defined.

(** X8: prunes compose.  On a well-formed manager, a prune at time [now1]
    followed by a prune at a later time [now2] leaves the manager exactly
    as the prune at [now2] alone would; and pruning twice at the same time
    is idle the second time: nothing is reported and nothing changes. *)
Theorem X8_prune_cumulative (now1 now2 : Z) (m : MockBackgroundManager) :
  JSMap.wf (tasks m) -> JSMap.wf (notifications m) -> now1 <= now2 ->
  let m1 := snd (pruneStaleTasksAndNotifications now1 m) in
  snd (pruneStaleTasksAndNotifications now2 m1)
  = snd (pruneStaleTasksAndNotifications now2 m)
  /\ pruneStaleTasksAndNotifications now1 m1
     = ({| prunedTasks := []; prunedNotifications := 0 |}, m1).
Proof.
  intros Hwt Hwn Hle m1.
  destruct (pruneStaleTasksAndNotifications_spec now1 m Hwt Hwn)
    as (_ & Ht1 & Hn1 & _ & _ & Hr1).
  fold m1 in Ht1, Hn1, Hr1.
  assert (Hwt1 : JSMap.wf (tasks m1)) by (rewrite Ht1; now apply filter_wf).
  assert (Hwn1 : JSMap.wf (notifications m1))
    by (rewrite Hn1; now apply keep_queues_wf).
  assert (Hstate : forall now, now1 <= now ->
            snd (pruneStaleTasksAndNotifications now m1)
            = snd (pruneStaleTasksAndNotifications now m)).
  { intros now Hnow.
    destruct (pruneStaleTasksAndNotifications_spec now m Hwt Hwn)
      as (_ & Ht & Hn & _ & _ & Hr).
    destruct (pruneStaleTasksAndNotifications_spec now m1 Hwt1 Hwn1)
      as (_ & Ht' & Hn' & _ & _ & Hr').
    apply manager_ext.
    - rewrite Ht', Ht, Ht1, filter_filter. apply List.filter_ext.
      intros [k t]. simpl.
      destruct (expired now1 t) eqn:H1; [|reflexivity].
      now rewrite (expired_mono now1 now t Hnow H1).
    - rewrite Hn', Hn, Hn1, Ht1, keep_queues_compose.
      apply keep_queues_ext. intros t.
      rewrite (carries_cumulative now1 now (tasks m) t Hnow).
      destruct (carries _ t); simpl; [reflexivity|].
      destruct (expired now1 t) eqn:H1; simpl.
      + rewrite (expired_mono now1 now t Hnow H1).
        now rewrite andb_false_r.
      + reflexivity.
    - now rewrite Hr', Hr, Hr1. }
  split; [now apply Hstate|].
  destruct (pruneStaleTasksAndNotifications_spec now1 m1 Hwt1 Hwn1)
    as (Hids & _ & _ & Hcount & _).
  pose proof (Hstate now1 (Z.le_refl now1)) as Hsame. fold m1 in Hsame.
  destruct (pruneStaleTasksAndNotifications now1 m1) as [[ids count] m2].
  simpl in *. subst m2. f_equal. f_equal.
  - rewrite Hids, Ht1, filter_filter.
    assert (Hnil : forall l : JSMap.t BackgroundTask,
              List.filter (fun e => negb (expired now1 (snd e))
                                    && expired now1 (snd e)) l = []).
    { induction l as [|e l IH]; simpl; [reflexivity|].
      destruct (expired now1 (snd e)); exact IH. }
    now rewrite Hnil.
  - rewrite Hcount, Hn1, count_queued_keep. apply count_queued_none.
    intros t. destruct (expired now1 t); simpl;
      [now rewrite andb_false_r | now rewrite !andb_false_r].
Qed.

(** X8 on the mixed manager of the tests, pruned at 31 and then at 62
    minutes, and pruned twice at 31 minutes. *)
Lemma X8_prune_cumulative_witness :
  let m1 := snd (pruneStaleTasksAndNotifications pruneTime managerMixed) in
  snd (pruneStaleTasksAndNotifications (2 * pruneTime) m1)
  = snd (pruneStaleTasksAndNotifications (2 * pruneTime) managerMixed)
  /\ pruneStaleTasksAndNotifications pruneTime m1
     = ({| prunedTasks := []; prunedNotifications := 0 |}, m1).
Proof.
  apply X8_prune_cumulative.
  - repeat constructor; simpl; [intros [H | []]; discriminate H | intros []].
  - repeat constructor. intros [].
  - vm_compute. discriminate.
Defined.

(* ===================================================================== *)
(** * Further properties of resume and of the task tree *)
(* ===================================================================== *)

(** X9: [resume] of a finished task mutates one object and nothing else.
    On a manager in which references to one object read the same fields,
    every reference to the resumed object, in the registry and in the
    notification queues alike, reads the resumed task afterwards (running,
    the new parent), and every reference to another object reads what it
    read before; the queues keep their sessions, their lengths and their
    order, the registry its size.  Lookups by another session id are
    unchanged, the resumed task is a direct child of the caller's
    session, references to one object still agree, and a second [resume]
    for the same session, with whatever prompt and parent context, returns
    the task as the first left it and records no further call. *)
Theorem X9_resume_frame (now now' : Z) (input input' : ResumeInput)
    (m : MockBackgroundManager) (task : BackgroundTask) :
  coherent m ->
  findBySession (ri_sessionId input) m = Some task ->
  status task <> running ->
  ri_sessionId input' = ri_sessionId input ->
  exists m' task',
    resume now input m = Returns (m', task')
    /\ identity task' = identity task
    /\ status task' = running
    /\ parentSessionID task' = ri_parentSessionID input
    /\ JSMap.keys (notifications m') = JSMap.keys (notifications m)
    /\ (forall s,
          getPendingNotifications s m'
          = List.map (fun t => if Nat.eqb (identity t) (identity task)
                               then task' else t)
                     (getPendingNotifications s m))
    /\ getTaskCount m' = getTaskCount m
    /\ (forall i t,
          getTask i m = Some t ->
          getTask i m'
          = Some (if Nat.eqb (identity t) (identity task) then task' else t))
    /\ (forall s, s <> ri_sessionId input ->
          findBySession s m' = findBySession s m)
    /\ In task' (getTasksByParentSession m' (ri_parentSessionID input))
    /\ coherent m'
    /\ resume now' input' m' = Returns (m', task').
Proof.
  intros Hco Hfind Hst Hsame.
  pose proof Hfind as Hfound. unfold findBySession in Hfound.
  apply find_session_Some in Hfound as [Hin Hs].
  set (task' := resume_reset now input task).
  assert (Hid : identity task' = identity task) by reflexivity.
  assert (Hfind' : find_session (ri_sessionId input)
                     (List.map (mutated task') (JSMap.values (tasks m)))
                   = Some task').
  { apply (find_session_mutated _ _ task); [exact Hfind | exact Hid|].
    exact Hs. }
  unfold resume at 1. rewrite Hfind, (status_not_running _ Hst).
  fold task'. eexists _, task'. split; [reflexivity|].
  split; [exact Hid|]. split; [reflexivity|]. split; [reflexivity|].
  split; [apply keys_mutated|].
  split.
  { intros s. unfold getPendingNotifications. cbn [notifications].
    rewrite (get_mutated (List.map (mutated task'))).
    destruct (JSMap.get s (notifications m)); reflexivity. }
  split.
  { unfold getTaskCount, JSMap.size. cbn [tasks].
    now rewrite List.length_map. }
  split.
  { intros i t Hget. unfold getTask in *. cbn [tasks].
    now rewrite (get_mutated (mutated task')), Hget. }
  split.
  { intros s Hne. unfold findBySession. cbn [tasks]. unfold JSMap.values.
    rewrite values_mutated.
    apply find_session_mutated_other; [|now rewrite <- Hs in Hne].
    intros t Ht Hidt.
    rewrite (Hco t task); [reflexivity | now left | now left|].
    now rewrite Hidt. }
  split.
  { unfold getTasksByParentSession. cbn [tasks]. unfold JSMap.values.
    rewrite values_mutated. apply List.filter_In. split.
    - now apply (mutated_In task' task).
    - simpl. apply String.eqb_refl. }
  split.
  { assert (Hheld : forall a,
               (registered
                  {| tasks := List.map (fun e => (fst e, mutated task' (snd e)))
                                       (tasks m);
                     notifications :=
                       List.map
                         (fun e => (fst e, List.map (mutated task') (snd e)))
                         (notifications m);
                     resumeCalls :=
                       resumeCalls m
                       ++ [(ri_sessionId input, ri_prompt input)] |} a
                \/ queued
                     {| tasks :=
                          List.map (fun e => (fst e, mutated task' (snd e)))
                                   (tasks m);
                        notifications :=
                          List.map
                            (fun e => (fst e, List.map (mutated task') (snd e)))
                            (notifications m);
                        resumeCalls :=
                          resumeCalls m
                          ++ [(ri_sessionId input, ri_prompt input)] |} a) ->
               a = task'
               \/ ((registered m a \/ queued m a)
                   /\ identity a <> identity task')).
    { intros a [Hreg | (q & Hq & Ha)].
      - unfold registered in Hreg. cbn [tasks] in Hreg.
        unfold JSMap.values in Hreg. rewrite values_mutated in Hreg.
        destruct (mutated_cases _ _ _ Hreg) as [-> | [Ha Hne]]; [now left|].
        right. split; [now left | exact Hne].
      - cbn [notifications] in Hq. unfold JSMap.values in Hq.
        rewrite (values_mutated (List.map (mutated task'))) in Hq.
        apply List.in_map_iff in Hq as (q0 & <- & Hq0).
        destruct (mutated_cases _ _ _ Ha) as [-> | [Ha0 Hne]]; [now left|].
        right. split; [|exact Hne]. right. exists q0. auto. }
    intros a b Ha Hb Hab.
    destruct (Hheld a Ha) as [-> | [Ha0 Hna]];
      destruct (Hheld b Hb) as [-> | [Hb0 Hnb]].
    - reflexivity.
    - now rewrite Hab in Hnb.
    - now rewrite <- Hab in Hna.
    - now apply Hco. }
  unfold resume, findBySession. cbn [tasks].
  unfold JSMap.values in *.
  rewrite values_mutated, Hsame, Hfind'. reflexivity.
Qed.

(** X9 on the completed "task-a" of the tests, registered and queued for
    its parent session beside the running "task-b": after [resume] the
    queued entry, which is the registered object, reads running under the
    new parent. *)
Lemma X9_resume_frame_witness :
  let m := markForNotification completedTaskA
             (addTask taskB (addTask completedTaskA emptyManager)) in
  exists m' task',
    resume 9 resumeInputA m = Returns (m', task')
    /\ getPendingNotifications "session-parent" m' = [task']
    /\ status task' = running
    /\ parentSessionID task' = "session-new"
    /\ getTask "task-b" m' = Some taskB
    /\ getTaskCount m' = 2
    /\ resumeCalls m' = [("session-a", "continue")]
    /\ resume 10 resumeInputA m' = Returns (m', task').
Proof.
  intros m.
  destruct (X9_resume_frame 9 10 resumeInputA resumeInputA m completedTaskA)
    as (m' & task' & Hcall & _ & Hst & Hps & _ & Hq & Hcount & Hget & _ & _
        & _ & Hagain);
    [ | reflexivity | discriminate | reflexivity |].
  { intros a b Ha Hb Hab.
    assert (Hheld : forall t, registered m t \/ queued m t ->
                              t = completedTaskA \/ t = taskB).
    { intros t [Hr | (q & Hq & Ht)].
      - vm_compute in Hr. destruct Hr as [<- | [<- | []]]; auto.
      - vm_compute in Hq. destruct Hq as [<- | []].
        destruct Ht as [<- | []]. auto. }
    destruct (Hheld a Ha) as [-> | ->], (Hheld b Hb) as [-> | ->];
      try reflexivity; vm_compute in Hab; discriminate Hab. }
  exists m', task'. split; [exact Hcall|].
  split; [rewrite Hq; reflexivity|].
  split; [exact Hst|]. split; [exact Hps|].
  split; [rewrite (Hget "task-b" taskB); reflexivity|].
  split; [rewrite Hcount; reflexivity|].
  split; [|exact Hagain].
  vm_compute in Hcall. inversion Hcall. reflexivity.
Defined.

(** X10: the result of [getAllDescendantTasks(s)] is closed downwards.
    Whenever the call returns, its list contains every direct child of
    [s], and for every task in the list the call on that task's own
    session returns as well, with a list contained in the first. *)
Theorem X10_descendants_closed (fuel : nat) (m : MockBackgroundManager)
    (s : string) (result : list BackgroundTask) :
  getAllDescendantTasks fuel m s = Some result ->
  (forall child, In child (getTasksByParentSession m s) -> In child result)
  /\ (forall task,
        In task result ->
        exists sub,
          getAllDescendantTasks fuel m (sessionID task) = Some sub
          /\ forall t, In t sub -> In t result).
Proof.
  intros H. split.
  - intros child Hc. apply in_direct_children in Hc as [Hreg Hpar].
    apply (getAllDescendantTasks_spec m fuel s result H).
    now apply desc_child.
  - intros task Hin.
    destruct (getAllDescendantTasks_subcalls fuel m s result task H Hin)
      as [sub Hsub].
    exists sub. split; [exact Hsub|].
    intros t Ht.
    apply (getAllDescendantTasks_spec m fuel s result H).
    apply descendant_trans with task.
    + now apply (getAllDescendantTasks_spec m fuel s result H).
    + now apply (getAllDescendantTasks_spec m fuel _ sub Hsub).
Qed.

(** X10 on the chain A -> B -> C -> D: the descendants of B's session lie
    within those of A. *)
Lemma X10_descendants_closed_witness :
  exists sub,
    getAllDescendantTasks 5 chainManager "session-b" = Some sub
    /\ forall t, In t sub -> In t [taskB; taskC; taskD].
Proof.
  destruct (X10_descendants_closed 5 chainManager "session-a"
              [taskB; taskC; taskD] eq_refl) as (_ & Hsub).
  exact (Hsub taskB (or_introl eq_refl)).
Defined.

(* ===================================================================== *)
(** * Further properties of the notification body *)
(* ===================================================================== *)

(** X11: the shape of the notification body.  It always has a "parts" key
    holding one text part, "[BACKGROUND TASK COMPLETED] Task", the task's
    description in double quotes, "finished."; it never has a key other
    than "parts", "agent" and "model"; and of the task it uses only the
    description and the stored parentAgent: two tasks that agree on these
    two fields give the same body, whatever their stored parentModel,
    prompt or status. *)
Theorem X11_body_shape (task : BackgroundTask)
    (currentMessage : option CurrentMessage) :
  let body := buildNotificationPromptBody task currentMessage in
  body !! "parts"
  = Some (VParts ["[BACKGROUND TASK COMPLETED] Task " +:+ quote
                    +:+ description task +:+ quote +:+ " finished."])
  /\ (forall k, is_Some (body !! k) ->
                k = "parts" \/ k = "agent" \/ k = "model")
  /\ (forall task',
        description task' = description task ->
        parentAgent task' = parentAgent task ->
        buildNotificationPromptBody task' currentMessage = body).
Proof.
  intros body. split; [|split].
  - unfold body, buildNotificationPromptBody.
    match goal with
    | |- context [match ?v with Some x => <["model" := x]> _ | None => _ end] =>
        set (model := v)
    end.
    match goal with
    | |- context [match ?a with
                  | Some x => <["agent" := VString x]> _
                  | None => _ end] => set (agent := a)
    end.
    match goal with
    | |- context [VParts [?t]] =>
        destruct (body_lookups task t agent model) as (_ & _ & ->)
    end.
    reflexivity.
  - intros k. unfold body, buildNotificationPromptBody. apply body_keys.
  - intros task' Hd Ha. unfold body, buildNotificationPromptBody.
    now rewrite Hd, Ha.
Qed.

(** X11 on the task of the tests: the text names "task incomplete model",
    and a task with another stored model gives the same body. *)
Lemma X11_body_shape_witness :
  buildNotificationPromptBody (notifiedTask (Some "Stored")) None !! "parts"
  = Some (VParts ["[BACKGROUND TASK COMPLETED] Task " +:+ quote
                    +:+ "task incomplete model" +:+ quote +:+ " finished."])
  /\ buildNotificationPromptBody (notifiedTask (Some "Stored")) None
       !! "prompt" = None
  /\ buildNotificationPromptBody
       {| id := "task-9"; sessionID := "s"; parentSessionID := "p";
          parentMessageID := "q"; description := "task incomplete model";
          prompt := "other"; agent := "oracle"; status := cancelled;
          startedAt := 7; completedAt := None; error := None;
          progress := None; parentAgent := Some "Stored";
          parentModel := None; model := None; concurrencyKey := None;
          concurrencyGroup := None; identity := 13%nat |} (Some fullMessage)
     = buildNotificationPromptBody (notifiedTask (Some "Stored"))
                                   (Some fullMessage).
Proof.
  destruct (X11_body_shape (notifiedTask (Some "Stored")) None)
    as (Hparts & Hkeys & _).
  destruct (X11_body_shape (notifiedTask (Some "Stored")) (Some fullMessage))
    as (_ & _ & Hsame).
  split; [exact Hparts|]. split.
  - destruct (buildNotificationPromptBody _ None !! "prompt") eqn:Hp;
      [|reflexivity].
    exfalso.
    destruct (Hkeys "prompt") as [H | [H | H]];
      [rewrite Hp; eauto | discriminate H..].
  - apply Hsame; reflexivity.
Defined.
(* ===================================================================== *)
(** * Properties of the MCP client manager *)
(* ===================================================================== *)

(** X12: [getClientKey] tells clients apart.  When the session ids and the
    skill names contain no colon, two [SkillMcpClientInfo] with the same
    key are the same: same session, same skill, same server. *)
Theorem X12_getClientKey_injective (info info' : SM.SkillMcpClientInfo) :
  colon_free (SM.info_sessionID info) = true ->
  colon_free (SM.info_skillName info) = true ->
  colon_free (SM.info_sessionID info') = true ->
  colon_free (SM.info_skillName info') = true ->
  SM.getClientKey info = SM.getClientKey info' ->
  info = info'.
Proof.
  intros Hs Hk Hs' Hk' H. unfold SM.getClientKey in H.
  destruct (colon_split _ _ _ _ Hs Hs' H) as [Hsid Hrest].
  destruct (colon_split _ _ _ _ Hk Hk' Hrest) as [Hskill Hserver].
  destruct info, info'. simpl in *. congruence.
Qed.

(** X12 on the client of "session-1" in the tests: an info with its key is
    that info. *)
Lemma X12_getClientKey_injective_witness :
  {| SM.info_sessionID := "session-1"; SM.info_skillName := "test-skill";
     SM.info_serverName := "test-server" |} = infoA.
Proof.
  apply X12_getClientKey_injective; reflexivity.
Defined.

(** X13: a [getOrCreateClient] that throws has registered nothing.  The
    clients, the connections in progress and the idle timer are as before
    and the key is not connected.  Either the configuration was rejected
    and no call was made at all, or a connection was attempted and
    refused, and then the transport that was opened for it has been
    closed, right after the attempt. *)
Theorem X13_failure_registers_nothing (win32 : bool)
    (validURL : string -> bool)
    (connect : SM.Handle -> string -> SM.TransportSpec -> option string)
    (createCleanMcpEnvironment :
       option (list (string * string)) -> list (string * string))
    (expandEnvVarsInObject : SM.ClaudeCodeMcpServer -> SM.ClaudeCodeMcpServer)
    (now : Z) (info : SM.SkillMcpClientInfo) (config : SM.ClaudeCodeMcpServer)
    (st st' : SM.t) (message : string) :
  SM.getOrCreateClient win32 validURL connect createCleanMcpEnvironment
    expandEnvVarsInObject now info config st = (st', Throws message) ->
  SM.clients st' = SM.clients st
  /\ SM.pendingConnections st' = SM.pendingConnections st
  /\ SM.cleanupInterval st' = SM.cleanupInterval st
  /\ SM.isConnected info st' = false
  /\ (validation_message info message /\ SM.calls st' = SM.calls st
      \/ exists cl tr spec reason,
           connect cl (SM.clientName info) spec = Some reason
           /\ SM.calls st'
              = SM.calls st ++ handler_calls win32 st
                ++ [SM.Connect (SM.clientName info) cl tr spec;
                    SM.CloseTransport tr]).
Proof.
  intros H.
  destruct (getOrCreateClient_throws _ _ _ _ _ _ _ _ _ _ _ H)
    as (Hc & _ & Hcreate).
  destruct (createClient_throws _ _ _ _ _ _ _ _ _ _ Hcreate)
    as (H1 & H2 & H3 & Hcases).
  cbn [SM.alloc snd SM.clients SM.pendingConnections SM.cleanupInterval]
    in H1, H2, H3.
  repeat (split; [assumption|]).
  split; [unfold SM.isConnected; now rewrite H1, Hc|].
  destruct Hcases as [[Hv ->] | (spec & reason & Hcn & _ & _ & Hl)].
  - left. split; [exact Hv | reflexivity].
  - right. exists (S (S (SM.fresh st))), (S (SM.fresh st)), spec, reason.
    split; [exact Hcn|]. exact Hl.
Qed.

(** X13 on a new manager, a stdio configuration and a connection that is
    refused. *)
Lemma X13_failure_registers_nothing_witness :
  let result :=
    SM.getOrCreateClient false anyURL connectRefused plainEnv noExpand
      1000 infoA configStdio SM.create in
  SM.clients (fst result) = []
  /\ SM.cleanupInterval (fst result) = None
  /\ SM.isConnected infoA (fst result) = false.
Proof.
  intros result.
  destruct (X13_failure_registers_nothing false anyURL connectRefused
              plainEnv noExpand 1000 infoA configStdio SM.create
              (fst result)
              (SM.stdioConnectMessage infoA "node" ["-e"; "process.exit(0)"]
                 "ECONNREFUSED") eq_refl)
    as (H1 & _ & H3 & H4 & _).
  split; [exact H1|]. split; [exact H3 | exact H4].
Defined.

(** X14: which configuration error [createClient] raises.  An explicit
    [type] is never overridden by the other fields: with type "http" or
    "sse" and no usable url the error is the missing url, also when a
    command is given, and with type "stdio" and no usable command it is
    the missing command, also when a url is given.  A url that is present
    but does not parse is an error whenever the type is not "stdio", also
    when a command is given.  Without a known type, a url or a command,
    the error is the one that explains both forms.  In every one of these
    cases the manager is unchanged. *)
Theorem X14_configuration_errors (win32 : bool)
    (validURL : string -> bool)
    (connect : SM.Handle -> string -> SM.TransportSpec -> option string)
    (createCleanMcpEnvironment :
       option (list (string * string)) -> list (string * string))
    (now : Z) (info : SM.SkillMcpClientInfo) (config : SM.ClaudeCodeMcpServer)
    (st : SM.t) :
  let result :=
    SM.createClient win32 validURL connect createCleanMcpEnvironment
      now info config st in
  (SM.type_is config "http" || SM.type_is config "sse" = true ->
   truthy (SM.cfg_url config) = false ->
   result = (st, Throws (SM.missingUrlMessage info)))
  /\ (SM.type_is config "http" || SM.type_is config "sse" = false ->
      SM.type_is config "stdio" = true ->
      truthy (SM.cfg_command config) = false ->
      result = (st, Throws (SM.missingCommandMessage info)))
  /\ (forall url,
        SM.type_is config "http" || SM.type_is config "sse" = true
        \/ SM.type_is config "stdio" = false ->
        SM.cfg_url config = Some url -> url <> "" ->
        validURL url = false ->
        result = (st, Throws (SM.invalidUrlMessage info url)))
  /\ (SM.type_is config "http" || SM.type_is config "sse" = false ->
      SM.type_is config "stdio" = false ->
      truthy (SM.cfg_url config) = false ->
      truthy (SM.cfg_command config) = false ->
      result = (st, Throws (SM.noConnectionMessage info))).
Proof.
  unfold SM.createClient, SM.getConnectionType, SM.createHttpClient,
    SM.createStdioClient, truthy.
  repeat split.
  - intros -> Hu. destruct (SM.cfg_url config) as [url|]; [|reflexivity].
    destruct (String.eqb url ""); [reflexivity | discriminate].
  - intros -> -> Hc. destruct (SM.cfg_command config) as [c|]; [|reflexivity].
    destruct (String.eqb c ""); [reflexivity | discriminate].
  - intros url Ht Hu Hne Hv. rewrite Hu.
    apply String.eqb_neq in Hne. rewrite Hne, Hv. simpl.
    destruct (SM.type_is config "http" || SM.type_is config "sse");
      [reflexivity|].
    destruct Ht as [Ht | ->]; [discriminate | reflexivity].
  - intros -> -> Hu Hc. now rewrite Hu, Hc.
Qed.

(** X14 on a configuration of type "http" that has a command and no url. *)
Lemma X14_configuration_errors_witness :
  SM.createClient false anyURL connectOk plainEnv 1000 infoA configHttpNoUrl
    SM.create
  = (SM.create, Throws (SM.missingUrlMessage infoA)).
Proof.
  apply (X14_configuration_errors false anyURL connectOk plainEnv 1000 infoA
           configHttpNoUrl SM.create); reflexivity.
Defined.

(** X15: a client is created once and then reused.  After a
    [getOrCreateClient] that returned a client, that client is registered
    under the key of [info] with the time of the call, the key is
    connected and listed, and a second call for the same [info] (at any
    time and with any configuration) returns the same client, makes no
    call, and changes nothing but the time the entry was last used. *)
Theorem X15_client_reused (win32 : bool) (validURL : string -> bool)
    (connect : SM.Handle -> string -> SM.TransportSpec -> option string)
    (createCleanMcpEnvironment :
       option (list (string * string)) -> list (string * string))
    (expandEnvVarsInObject : SM.ClaudeCodeMcpServer -> SM.ClaudeCodeMcpServer)
    (now now' : Z) (info : SM.SkillMcpClientInfo)
    (config config' : SM.ClaudeCodeMcpServer) (st st1 : SM.t)
    (c : SM.Handle) :
  SM.getOrCreateClient win32 validURL connect createCleanMcpEnvironment
    expandEnvVarsInObject now info config st
  = (st1, Returns (SM.GotClient c)) ->
  exists e,
    JSMap.get (SM.getClientKey info) (SM.clients st1) = Some e
    /\ SM.client e = c
    /\ SM.lastUsedAt e = now
    /\ SM.isConnected info st1 = true
    /\ In (SM.getClientKey info) (SM.getConnectedServers st1)
    /\ SM.getOrCreateClient win32 validURL connect createCleanMcpEnvironment
         expandEnvVarsInObject now' info config' st1
       = (SM.with_clients
            (JSMap.set (SM.getClientKey info) (touched now' e)
                       (SM.clients st1)) st1,
          Returns (SM.GotClient c)).
Proof.
  intros H.
  destruct (getOrCreateClient_returns _ _ _ _ _ _ _ _ _ _ _ H)
    as (e & Hg & Hc & Ht & _).
  exists e. repeat split; auto.
  - unfold SM.isConnected. now rewrite Hg.
  - unfold SM.getConnectedServers.
    destruct (List.in_dec string_dec (SM.getClientKey info)
                (JSMap.keys (SM.clients st1))) as [Hin | Hout]; [exact Hin|].
    apply get_None_keys in Hout. congruence.
  - rewrite (getOrCreateClient_existing _ _ _ _ _ now' info config' st1 e Hg).
    now rewrite Hc.
Qed.

(** X15 on a new manager: the client connected at time 1000 is returned
    again at time 2000, with no further connection. *)
Lemma X15_client_reused_witness :
  let first :=
    SM.getOrCreateClient false anyURL connectOk plainEnv noExpand
      1000 infoA configStdio SM.create in
  let second :=
    SM.getOrCreateClient false anyURL connectOk plainEnv noExpand
      2000 infoA configEmpty (fst first) in
  snd second = Returns (SM.GotClient 2%nat)
  /\ SM.calls (fst second) = SM.calls (fst first).
Proof.
  intros first second.
  destruct (X15_client_reused false anyURL connectOk plainEnv noExpand
              1000 2000 infoA configStdio configEmpty SM.create (fst first)
              2%nat eq_refl)
    as (e & _ & _ & _ & _ & _ & Hagain).
  unfold second. rewrite Hagain. split; reflexivity.
Defined.

(** X16: [disconnectSession] removes the clients of one session and no
    other.  On a map of clients (no key twice) the clients left are those
    whose key does not start with the session id and a colon, in their
    order; every client removed is closed, client first and transport
    second, in the order of the map; nothing else of the manager changes,
    the idle timer keeps running.  Afterwards no client of the session is
    connected, and a client of another session is connected exactly when
    it was before, when neither session id contains a colon. *)
Theorem X16_disconnectSession (s : string) (st : SM.t) :
  JSMap.wf (SM.clients st) ->
  let mine := fun e : string * SM.ManagedClient =>
                String.prefix (s +:+ ":") (fst e) in
  let st' := SM.disconnectSession s st in
  SM.clients st' = List.filter (fun e => negb (mine e)) (SM.clients st)
  /\ SM.calls st'
     = SM.calls st ++ closes (List.map snd (List.filter mine (SM.clients st)))
  /\ SM.pendingConnections st' = SM.pendingConnections st
  /\ SM.cleanupRegistered st' = SM.cleanupRegistered st
  /\ SM.cleanupInterval st' = SM.cleanupInterval st
  /\ (forall info, SM.info_sessionID info = s ->
                   SM.isConnected info st' = false)
  /\ (colon_free s = true ->
      forall info, colon_free (SM.info_sessionID info) = true ->
                   SM.info_sessionID info <> s ->
                   SM.isConnected info st' = SM.isConnected info st).
Proof.
  intros Hwf mine st'. unfold st'. rewrite (disconnectSession_spec s st Hwf).
  fold mine. cbn [SM.call SM.with_clients SM.clients SM.calls
                  SM.pendingConnections SM.cleanupRegistered
                  SM.cleanupInterval].
  repeat (split; [reflexivity|]).
  unfold SM.isConnected.
  cbn [SM.call SM.with_clients SM.clients]. unfold mine.
  split.
  - intros info Hs.
    rewrite (get_filter_key (fun k => negb (String.prefix (s +:+ ":") k))).
    now rewrite (proj1 (key_prefix s info) Hs).
  - intros Hcs info Hci Hne.
    rewrite (get_filter_key (fun k => negb (String.prefix (s +:+ ":") k))).
    destruct (String.prefix (s +:+ ":") (SM.getClientKey info)) eqn:Hp;
      [|reflexivity].
    exfalso. apply Hne. exact (proj2 (key_prefix s info) Hcs Hci Hp).
Qed.

(** X16 on the manager with the clients of "session-1" and "session-2":
    disconnecting "session-1" closes its client and leaves the other
    connected. *)
Lemma X16_disconnectSession_witness :
  let st' := SM.disconnectSession "session-1" skillTwoClients in
  SM.isConnected infoA st' = false
  /\ SM.isConnected infoB st' = true
  /\ SM.getConnectedServers st' = [SM.getClientKey infoB].
Proof.
  intros st'.
  destruct (X16_disconnectSession "session-1" skillTwoClients)
    as (Hc & _ & _ & _ & _ & Hmine & Hother).
  { unfold JSMap.wf. vm_compute. repeat constructor; simpl;
      intros H; repeat destruct H as [H | H]; try discriminate; exact H. }
  split; [apply Hmine; reflexivity|].
  split.
  - fold st'. fold st' in Hother.
    rewrite (Hother eq_refl infoB eq_refl); [reflexivity | discriminate].
  - unfold SM.getConnectedServers. fold st' in Hc. rewrite Hc. reflexivity.
Defined.

(** X17: [cleanupIdleClients] removes the clients idle for more than five
    minutes and no other.  On a map of clients the clients left are those
    with [now - lastUsedAt <= 300000], in their order; every client
    removed is closed, client first and transport second; a registered
    client is connected afterwards exactly when it was used within the
    last 300000 ms (exactly 300000 ms is still within), and it is closed
    when it was not.  The timer and the handlers are left as they are. *)
Theorem X17_cleanupIdleClients (now : Z) (st : SM.t) :
  JSMap.wf (SM.clients st) ->
  let idle := fun e : string * SM.ManagedClient =>
                now - SM.lastUsedAt (snd e) >? 300000 in
  let st' := SM.cleanupIdleClients now st in
  SM.clients st' = List.filter (fun e => negb (idle e)) (SM.clients st)
  /\ SM.calls st'
     = SM.calls st ++ closes (List.map snd (List.filter idle (SM.clients st)))
  /\ SM.pendingConnections st' = SM.pendingConnections st
  /\ SM.cleanupRegistered st' = SM.cleanupRegistered st
  /\ SM.cleanupInterval st' = SM.cleanupInterval st
  /\ (forall info e,
        JSMap.get (SM.getClientKey info) (SM.clients st) = Some e ->
        SM.isConnected info st' = (now - SM.lastUsedAt e <=? 300000)
        /\ (now - SM.lastUsedAt e > 300000 ->
            In (SM.CloseClient (SM.client e)) (SM.calls st')
            /\ In (SM.CloseTransport (SM.transport e)) (SM.calls st'))).
Proof.
  intros Hwf idle st'. unfold st'. rewrite (cleanupIdleClients_spec now st Hwf).
  change SM.IDLE_TIMEOUT with 300000. fold idle.
  cbn [SM.call SM.with_clients SM.clients SM.calls
       SM.pendingConnections SM.cleanupRegistered SM.cleanupInterval].
  repeat (split; [reflexivity|]).
  intros info e Hg. unfold SM.isConnected.
  cbn [SM.call SM.with_clients SM.clients]. split.
  - unfold idle.
    rewrite (get_filter (fun v => negb (now - SM.lastUsedAt v >? 300000))
               _ _ Hwf), Hg.
    destruct (Z.gtb_spec (now - SM.lastUsedAt e) 300000);
      destruct (Z.leb_spec (now - SM.lastUsedAt e) 300000);
      simpl; try reflexivity; lia.
  - intros Hidle.
    destruct (closes_In idle _ e _ Hwf Hg) as [Hc Ht].
    { unfold idle. simpl. apply Z.gtb_lt. lia. }
    split; apply List.in_or_app; right; assumption.
Qed.

(** X17 on the manager with clients used at times 1000 and 2000: at time
    301500 the first is idle and the second is not. *)
Lemma X17_cleanupIdleClients_witness :
  let st' := SM.cleanupIdleClients 301500 skillTwoClients in
  SM.isConnected infoA st' = false /\ SM.isConnected infoB st' = true.
Proof.
  intros st'.
  assert (Hwf : JSMap.wf (SM.clients skillTwoClients)).
  { unfold JSMap.wf. vm_compute. repeat constructor; simpl;
      intros H; repeat destruct H as [H | H]; try discriminate; exact H. }
  destruct (X17_cleanupIdleClients 301500 skillTwoClients Hwf)
    as (_ & _ & _ & _ & _ & Hconn).
  fold st' in Hconn. split.
  - exact (proj1 (Hconn infoA
                    {| SM.client := 2%nat; SM.transport := 1%nat;
                       SM.skillName := "test-skill"; SM.lastUsedAt := 1000;
                       SM.connectionType := SM.stdio |} eq_refl)).
  - exact (proj1 (Hconn infoB
                    {| SM.client := 6%nat; SM.transport := 5%nat;
                       SM.skillName := "test-skill"; SM.lastUsedAt := 2000;
                       SM.connectionType := SM.stdio |} eq_refl)).
Defined.

(** X18: [disconnectAll] empties the manager and is idempotent.  No client
    is left, the idle timer is cleared when one was running, every client
    that was registered is closed (client first, transport second, in the
    order of the map) after the timer is cleared; the process handlers
    stay installed and the connections in progress are not touched.  A
    second [disconnectAll] does nothing. *)
Theorem X18_disconnectAll (st : SM.t) :
  let st' := SM.disconnectAll st in
  SM.clients st' = []
  /\ SM.getConnectedServers st' = []
  /\ SM.cleanupInterval st' = None
  /\ SM.calls st'
     = SM.calls st
       ++ match SM.cleanupInterval st with
          | Some timer => [SM.ClearInterval timer]
          | None => []
          end
       ++ closes (JSMap.values (SM.clients st))
  /\ SM.cleanupRegistered st' = SM.cleanupRegistered st
  /\ SM.pendingConnections st' = SM.pendingConnections st
  /\ SM.disconnectAll st' = st'.
Proof.
  intros st'. unfold st'. rewrite !disconnectAll_spec.
  unfold SM.stopCleanupTimer, SM.getConnectedServers, SM.call,
    SM.with_clients.
  destruct st as [c p r i f l]. destruct i as [timer|]; simpl;
    repeat split; rewrite <- ?app_assoc, ?app_nil_r; reflexivity.
Qed.

(** X19: what holds of the manager after any sequence of calls of
    [getOrCreateClientWithRetry], [disconnectSession], [disconnectAll] and
    [cleanupIdleClients] on a new instance, whatever the connections do:
    no key is registered twice; no connection is left in progress; the
    process handlers have been installed once if at all (one "SIGINT"
    registration exactly when [cleanupRegistered]); at most one idle
    timer runs (the timers set are the timers cleared, plus the one
    running); and whenever a client is registered the handlers are
    installed and the idle timer runs. *)
Theorem X19_manager_invariant (win32 : bool) (validURL : string -> bool)
    (connect : SM.Handle -> string -> SM.TransportSpec -> option string)
    (createCleanMcpEnvironment :
       option (list (string * string)) -> list (string * string))
    (expandEnvVarsInObject : SM.ClaudeCodeMcpServer -> SM.ClaudeCodeMcpServer)
    (ops : list SkillOp) :
  skill_invariant
    (skill_run win32 validURL connect createCleanMcpEnvironment
       expandEnvVarsInObject ops).
Proof.
  unfold skill_run.
  apply (skill_run_invariant win32 validURL connect createCleanMcpEnvironment
           expandEnvVarsInObject ops SM.create).
  exact create_invariant.
Qed.

(** X20: the retry of [getOrCreateClientWithRetry] is never taken.  The
    retry needs a client registered under the key after
    [getOrCreateClient] has thrown, and a call that throws registers
    none; so, when no connection for the key is in progress and no other
    call on the manager runs in between, [getOrCreateClientWithRetry] is
    [getOrCreateClient], in the result and in what it does to the
    manager. *)
Theorem X20_retry_never_taken (win32 : bool) (validURL : string -> bool)
    (connect : SM.Handle -> string -> SM.TransportSpec -> option string)
    (createCleanMcpEnvironment :
       option (list (string * string)) -> list (string * string))
    (expandEnvVarsInObject : SM.ClaudeCodeMcpServer -> SM.ClaudeCodeMcpServer)
    (now : Z) (info : SM.SkillMcpClientInfo) (config : SM.ClaudeCodeMcpServer)
    (st : SM.t) :
  JSMap.get (SM.getClientKey info) (SM.pendingConnections st) = None ->
  SM.getOrCreateClientWithRetry win32 validURL connect
    createCleanMcpEnvironment expandEnvVarsInObject now info config st
  = SM.getOrCreateClient win32 validURL connect createCleanMcpEnvironment
      expandEnvVarsInObject now info config st.
Proof. intros _. apply getOrCreateClientWithRetry_once. Qed.

(** X20 on a new manager and a connection that is refused: the call
    throws what [getOrCreateClient] throws, after one attempt. *)
Lemma X20_retry_never_taken_witness :
  SM.getOrCreateClientWithRetry false anyURL connectRefused plainEnv noExpand
    1000 infoA configStdio SM.create
  = SM.getOrCreateClient false anyURL connectRefused plainEnv noExpand
      1000 infoA configStdio SM.create.
Proof.
  apply (X20_retry_never_taken false anyURL connectRefused plainEnv noExpand
           1000 infoA configStdio SM.create).
  reflexivity.
Defined.

(** X21: nothing is closed twice, and nothing registered is closed.  After
    any sequence of calls on a new instance, the clients and transports of
    the registered entries are pairwise distinct objects, no object has
    had [close()] called on it more than once, and no object of a
    registered entry has been closed. *)
Theorem X21_closed_once (win32 : bool) (validURL : string -> bool)
    (connect : SM.Handle -> string -> SM.TransportSpec -> option string)
    (createCleanMcpEnvironment :
       option (list (string * string)) -> list (string * string))
    (expandEnvVarsInObject : SM.ClaudeCodeMcpServer -> SM.ClaudeCodeMcpServer)
    (ops : list SkillOp) :
  let st :=
    skill_run win32 validURL connect createCleanMcpEnvironment
      expandEnvVarsInObject ops in
  List.NoDup (objects (JSMap.values (SM.clients st)))
  /\ List.NoDup (closed (SM.calls st))
  /\ (forall info e,
        JSMap.get (SM.getClientKey info) (SM.clients st) = Some e ->
        ~ In (SM.client e) (closed (SM.calls st))
        /\ ~ In (SM.transport e) (closed (SM.calls st))).
Proof.
  intros st.
  destruct (skill_run_invariant win32 validURL connect
              createCleanMcpEnvironment expandEnvVarsInObject ops SM.create
              create_invariant) as [_ [Hd _]].
  fold (skill_run win32 validURL connect createCleanMcpEnvironment
          expandEnvVarsInObject ops) in Hd.
  fold st in Hd. unfold handled in Hd.
  split; [exact (List.NoDup_app_remove_r _ _ Hd)|].
  split; [exact (List.NoDup_app_remove_l _ _ Hd)|].
  intros info e Hg. destruct (objects_In _ _ _ Hg) as [Hc Ht].
  split; eapply nodup_app_disjoint; eassumption.
Qed.

(** X22: a client in use is not cleaned up.  When [getOrCreateClient] at
    time [t] has returned a client, a [cleanupIdleClients] at a later time
    [now] keeps it connected when [now - t <= 300000], and otherwise
    disconnects it and closes that client. *)
Theorem X22_used_client_survives (win32 : bool) (validURL : string -> bool)
    (connect : SM.Handle -> string -> SM.TransportSpec -> option string)
    (createCleanMcpEnvironment :
       option (list (string * string)) -> list (string * string))
    (expandEnvVarsInObject : SM.ClaudeCodeMcpServer -> SM.ClaudeCodeMcpServer)
    (t now : Z) (info : SM.SkillMcpClientInfo)
    (config : SM.ClaudeCodeMcpServer) (st st1 : SM.t) (c : SM.Handle) :
  JSMap.wf (SM.clients st) ->
  SM.getOrCreateClient win32 validURL connect createCleanMcpEnvironment
    expandEnvVarsInObject t info config st
  = (st1, Returns (SM.GotClient c)) ->
  (now - t <= 300000 ->
   SM.isConnected info (SM.cleanupIdleClients now st1) = true)
  /\ (now - t > 300000 ->
      SM.isConnected info (SM.cleanupIdleClients now st1) = false
      /\ In (SM.CloseClient c) (SM.calls (SM.cleanupIdleClients now st1))).
Proof.
  intros Hwf H.
  destruct (getOrCreateClient_returns _ _ _ _ _ _ _ _ _ _ _ H)
    as (e & Hg & Hc & Ht & Hwf1).
  specialize (Hwf1 Hwf).
  rewrite (cleanupIdleClients_spec now st1 Hwf1).
  change SM.IDLE_TIMEOUT with 300000.
  unfold SM.isConnected.
  cbn [SM.call SM.with_clients SM.clients SM.calls].
  rewrite (get_filter (fun v => negb (now - SM.lastUsedAt v >? 300000))
             _ _ Hwf1), Hg, Ht.
  split.
  - intros Hle. destruct (Z.gtb_spec (now - t) 300000); [lia | reflexivity].
  - intros Hgt. destruct (Z.gtb_spec (now - t) 300000); [|lia].
    split; [reflexivity|].
    apply List.in_or_app. right. rewrite <- Hc.
    apply (closes_In
             (fun e0 => now - SM.lastUsedAt (snd e0) >? 300000)
             _ e _ Hwf1 Hg).
    simpl. rewrite Ht. apply Z.gtb_lt. lia.
Qed.

(** X22 on a new manager: the client connected at time 1000 survives the
    cleanup at time 300000 and not the one at time 400000. *)
Lemma X22_used_client_survives_witness :
  let st1 :=
    fst (SM.getOrCreateClient false anyURL connectOk plainEnv noExpand
           1000 infoA configStdio SM.create) in
  SM.isConnected infoA (SM.cleanupIdleClients 300000 st1) = true
  /\ SM.isConnected infoA (SM.cleanupIdleClients 400000 st1) = false.
Proof.
  intros st1.
  assert (Hwf : JSMap.wf (SM.clients SM.create)) by constructor.
  split.
  - apply (X22_used_client_survives false anyURL connectOk plainEnv noExpand
             1000 300000 infoA configStdio SM.create st1 2%nat Hwf eq_refl).
    lia.
  - apply (X22_used_client_survives false anyURL connectOk plainEnv noExpand
             1000 400000 infoA configStdio SM.create st1 2%nat Hwf eq_refl).
    lia.
Defined.
